(** * Artisan assistant: onboarding workflow and profile store

    A shallow embedding of [src/api/agentic_fastapi_app.py]: the SQLite
    profile store, the LangGraph nodes ([check_user_profile_node],
    [onboarding_step_node], [supervisor_agent_node], [welfare_search_node],
    [general_query_node], [final_response_node]), the graph wiring of
    [build_agentic_workflow], the [/chat] endpoint, the endpoints that
    read and delete a stored profile, and the websocket.

    Conventions.
    - Python [str] values are modelled as [string]: a character is a code
      point below 256 (ASCII and Latin-1). On such texts [str.lower],
      [str.strip], [str.isspace], the classes [\d] and [\s] and
      [re.IGNORECASE] are modelled exactly; a text with a code point from
      256 on is outside the model.
    - Profile dictionaries are [gmap string pyval]; a value is [None] or a
      [str], as [AgentState] declares [Dict[str, str]] and the table columns
      are [TEXT] (a [NULL] cell reads back as [None]). The other values
      [json.loads] can yield (numbers, booleans, lists, [NaN]), which a
      [TEXT] column converts or refuses, are outside the model: every
      statement about profile values is about strings and [None].
    - The graph state is the dictionary the nodes read and return: a key a
      node returns is written over the state's, as no key of [AgentState]
      declares a reducer; a key that [AgentState] does not declare
      ([backstory], [error]) is dropped by the graph.
    - Everything outside the process (the Gemini chains, the search tool,
      SQLite raising, [json.loads], the clock) is collected in a record
      [Services]; a node is a function of that record in a small
      state-and-exception monad over the [user_profiles] table, which also
      logs the external calls it makes. *)

From stdpp Require Import gmap strings list fin_maps.
From Stdlib Require Import Ascii String.

Open Scope string_scope.
Open Scope list_scope.

(** ** Python values and dictionaries *)

(** A profile value: [None] or a [str]. *)
Inductive pyval : Type :=
| PyNone
| PyStr (s : string).

#[global] Instance pyval_eq_dec : EqDecision pyval.
Proof. solve_decision. Defined.

(** [bool(v)]: [None] and the empty string are falsy. *)
Definition truthy (v : pyval) : bool :=
  match v with
  | PyNone => false
  | PyStr s => negb (String.eqb s "")
  end.

(** [str(v)], as an f-string interpolates it. *)
Definition py_str (v : pyval) : string :=
  match v with
  | PyNone => "None"
  | PyStr s => s
  end.

Abbreviation pydict := (gmap string pyval).

(** [d.get(k)]: [None] when the key is absent. *)
Definition dict_get (d : pydict) (k : string) : pyval :=
  default PyNone (d !! k).

(** [d.get(k, dflt)]. *)
Definition dict_get_default (d : pydict) (k : string) (dflt : pyval) : pyval :=
  default dflt (d !! k).

(** [d.update(e)]: the keys of [e] are added or overwritten, nothing is
    removed. [∪] on [gmap] is left-biased. *)
Definition dict_update (d e : pydict) : pydict := e ∪ d.

(** ** String helpers: the [str] methods and [re] patterns the source uses *)

Definition nl : string := String (ascii_of_nat 10) EmptyString.

Definition is_digit (c : ascii) : bool :=
  let n := nat_of_ascii c in (48 <=? n)%nat && (n <=? 57)%nat.

(** [str.isspace] (and the class [\s]) on a code point below 256: TAB, LF,
    VT, FF, CR, FS, GS, RS, US, SPACE, NEL (133) and NBSP (160). *)
Definition is_space (c : ascii) : bool :=
  let n := nat_of_ascii c in
  ((9 <=? n)%nat && (n <=? 13)%nat) || ((28 <=? n)%nat && (n <=? 32)%nat)
  || (n =? 133)%nat || (n =? 160)%nat.

(** [str.lower] on a code point below 256: the letters A to Z, and the
    Latin-1 capitals 192 to 222 but for the multiplication sign 215. *)
Definition lower_char (c : ascii) : ascii :=
  let n := nat_of_ascii c in
  if ((65 <=? n)%nat && (n <=? 90)%nat)
     || ((192 <=? n)%nat && (n <=? 222)%nat && negb (n =? 215)%nat)
  then ascii_of_nat (n + 32) else c.

(** [s.lower()] *)
Fixpoint lower (s : string) : string :=
  match s with
  | EmptyString => EmptyString
  | String c r => String (lower_char c) (lower r)
  end.

Fixpoint lstrip (s : string) : string :=
  match s with
  | EmptyString => EmptyString
  | String c r => if is_space c then lstrip r else s
  end.

Fixpoint rstrip (s : string) : string :=
  match s with
  | EmptyString => EmptyString
  | String c r =>
      match rstrip r with
      | EmptyString => if is_space c then EmptyString else String c EmptyString
      | r' => String c r'
      end
  end.

(** [s.strip()] *)
Definition strip (s : string) : string := rstrip (lstrip s).

(** [s.startswith(p)] *)
Fixpoint startswith (p s : string) : bool :=
  match p, s with
  | EmptyString, _ => true
  | String a p', String b s' => Ascii.eqb a b && startswith p' s'
  | String _ _, EmptyString => false
  end.

(** [p in s] *)
Fixpoint contains (p s : string) : bool :=
  startswith p s ||
  match s with
  | EmptyString => false
  | String _ r => contains p r
  end.

(** [re.findall(r'\d+', s)], scanning left to right; [cur] is the run of
    digits being read. *)
Fixpoint findall_digits_from (cur : option string) (s : string) : list string :=
  match s with
  | EmptyString =>
      match cur with Some d => [d] | None => [] end
  | String c r =>
      if is_digit c then
        findall_digits_from
          (Some (default EmptyString cur +:+ String c EmptyString)) r
      else
        match cur with
        | Some d => d :: findall_digits_from None r
        | None => findall_digits_from None r
        end
  end.

Definition findall_digits (s : string) : list string :=
  findall_digits_from None s.

(** The longest prefix of [s] that ends with a closing brace. *)
Fixpoint upto_last_close (s : string) : option string :=
  match s with
  | EmptyString => None
  | String c r =>
      match upto_last_close r with
      | Some t => Some (String c t)
      | None => if Ascii.eqb c "}" then Some (String c EmptyString) else None
      end
  end.

(** [re.search(r'\{.*\}', s, re.DOTALL)], returning [group()]: from the
    first opening brace to the last closing brace after it. *)
Fixpoint search_json_object (s : string) : option string :=
  match s with
  | EmptyString => None
  | String c r =>
      if Ascii.eqb c "{" then String c <$> upto_last_close r
      else search_json_object r
  end.

(** ** The SQLite persistence layer (class [SQLiteStore]) *)

Module SQLiteStore.

(** One row of [user_profiles], without its primary key [user_id]. Every
    column is [TEXT] (or a timestamp), [PyNone] standing for [NULL]. *)
Record row : Type := Row {
  name : pyval;
  state : pyval;
  age : pyval;
  gender : pyval;
  occupation : pyval;
  income_category : pyval;
  family_size : pyval;
  has_disability : pyval;
  craft_type : pyval;
  materials : pyval;
  years_experience : pyval;
  sales_channels : pyval;
  price_range : pyval;
  languages : pyval;
  brand_style : pyval;
  backstory : pyval;
  created_at : pyval;
  updated_at : pyval
}.

(** The table [user_profiles], keyed by [user_id]. *)
Abbreviation table := (gmap string row).

(** [dict(zip(columns, row))] for [SELECT *], in the column order of
    [CREATE TABLE]. *)
Definition row_dict (user_id : string) (r : row) : pydict :=
  list_to_map
    [ ("user_id", PyStr user_id);
      ("name", name r);
      ("state", state r);
      ("age", age r);
      ("gender", gender r);
      ("occupation", occupation r);
      ("income_category", income_category r);
      ("family_size", family_size r);
      ("has_disability", has_disability r);
      ("craft_type", craft_type r);
      ("materials", materials r);
      ("years_experience", years_experience r);
      ("sales_channels", sales_channels r);
      ("price_range", price_range r);
      ("languages", languages r);
      ("brand_style", brand_style r);
      ("backstory", backstory r);
      ("created_at", created_at r);
      ("updated_at", updated_at r) ].

(** [get_user_profile]: the row as a dictionary, or [None]. *)
Definition get_user_profile (db : table) (user_id : string) : option pydict :=
  row_dict user_id <$> db !! user_id.

(** The [UPDATE ... SET name = ?, ..., brand_style = ?, updated_at =
    CURRENT_TIMESTAMP] statement of [save_user_profile]. *)
Definition update_profile_columns (now : string) (p : pydict) (r : row) : row :=
  {| name := dict_get p "name";
     state := dict_get p "state";
     age := dict_get p "age";
     gender := dict_get p "gender";
     occupation := dict_get p "occupation";
     income_category := dict_get p "income_category";
     family_size := dict_get p "family_size";
     has_disability := dict_get p "has_disability";
     craft_type := dict_get p "craft_type";
     materials := dict_get p "materials";
     years_experience := dict_get p "years_experience";
     sales_channels := dict_get p "sales_channels";
     price_range := dict_get p "price_range";
     languages := dict_get p "languages";
     brand_style := dict_get p "brand_style";
     backstory := backstory r;
     created_at := created_at r;
     updated_at := PyStr now |}.

(** The [INSERT INTO user_profiles (user_id, name, ..., brand_style)]
    statement: [backstory] takes its default [NULL], both timestamps
    [CURRENT_TIMESTAMP]. *)
Definition insert_profile_row (now : string) (p : pydict) : row :=
  {| name := dict_get p "name";
     state := dict_get p "state";
     age := dict_get p "age";
     gender := dict_get p "gender";
     occupation := dict_get p "occupation";
     income_category := dict_get p "income_category";
     family_size := dict_get p "family_size";
     has_disability := dict_get p "has_disability";
     craft_type := dict_get p "craft_type";
     materials := dict_get p "materials";
     years_experience := dict_get p "years_experience";
     sales_channels := dict_get p "sales_channels";
     price_range := dict_get p "price_range";
     languages := dict_get p "languages";
     brand_style := dict_get p "brand_style";
     backstory := PyNone;
     created_at := PyStr now;
     updated_at := PyStr now |}.

(** [save_user_profile]: update when [get_user_profile] finds a row,
    insert otherwise. (The dictionary of a row has twenty keys, so
    [if existing:] is the test for its presence.) *)
Definition save_user_profile (now : string) (db : table)
    (user_id : string) (profile_data : pydict) : table :=
  match get_user_profile db user_id with
  | Some _ => alter (update_profile_columns now profile_data) user_id db
  | None => <[user_id := insert_profile_row now profile_data]> db
  end.

(** [save_backstory]: [UPDATE user_profiles SET backstory = ?, updated_at
    = CURRENT_TIMESTAMP WHERE user_id = ?]; no row, no effect. *)
Definition set_backstory (now : string) (text : string) (r : row) : row :=
  {| name := name r; state := state r; age := age r; gender := gender r;
     occupation := occupation r; income_category := income_category r;
     family_size := family_size r; has_disability := has_disability r;
     craft_type := craft_type r; materials := materials r;
     years_experience := years_experience r;
     sales_channels := sales_channels r; price_range := price_range r;
     languages := languages r; brand_style := brand_style r;
     backstory := PyStr text;
     created_at := created_at r;
     updated_at := PyStr now |}.

Definition save_backstory (now : string) (db : table)
    (user_id : string) (backstory_text : string) : table :=
  alter (set_backstory now backstory_text) user_id db.

(** [delete_user_profile], on the [user_profiles] table. *)
Definition delete_user_profile (db : table) (user_id : string) : table :=
  delete user_id db.

(** The fifteen columns [save_user_profile] binds from [profile_data]. *)
Definition profile_columns : list string :=
  [ "name"; "state"; "age"; "gender"; "occupation"; "income_category";
    "family_size"; "has_disability"; "craft_type"; "materials";
    "years_experience"; "sales_channels"; "price_range"; "languages";
    "brand_style" ].

End SQLiteStore.

(** ** Exceptions, the services object and the node monad *)

(** A Python exception, by its [str(e)]. *)
Inductive exn : Type :=
| Exception (msg : string).

Definition exn_str (e : exn) : string :=
  match e with Exception msg => msg end.

Inductive result (A : Type) : Type :=
| Ok (a : A)
| Raise (e : exn).
Arguments Ok {A} a.
Arguments Raise {A} e.

(** The six prompt chains ([prompt | services.llm_gemini.bind_tools(...) |
    StrOutputParser()]), by the node that builds them. *)
Inductive chain : Type :=
| ExtractionChain
| BackstoryChain
| IntentChain
| SummaryChain
| GeneralChain
| FinalChain.

(** The places where a node or the endpoint calls [services.store]. *)
Inductive store_site : Type :=
| AtCheck
| AtSaveProfile
| AtBackstoryGuard
| AtSaveBackstory
| AtSupervisor
| AtWelfare
| AtGeneral
| AtEndpoint.

(** What the process cannot decide: the text a chain returns (or the
    exception it raises) in this turn, the outcome of the search tool,
    whether SQLite raises at a call site, Python's [json.loads] on an
    object literal ([None] for [JSONDecodeError]) and the value of
    [CURRENT_TIMESTAMP]. *)
Record Services : Type := {
  llm_gemini : chain -> result string;
  web_search_tool : result (list string);
  store_raises : store_site -> option exn;
  json_loads : string -> option pydict;
  now : string
}.

(** External calls are logged in the order they are made. *)
Inductive event : Type :=
| Invoke (c : chain)
| SearchInvoke
| WorkflowInvoke.

#[global] Instance chain_eq_dec : EqDecision chain.
Proof. solve_decision. Defined.
#[global] Instance event_eq_dec : EqDecision event.
Proof. solve_decision. Defined.
#[global] Instance store_site_eq_dec : EqDecision store_site.
Proof. solve_decision. Defined.

Record world : Type := World {
  db : SQLiteStore.table;
  log : list event
}.

(** A computation reads and writes the table, logs calls, and returns or
    raises. What was written before a [raise] stays written. *)
Definition M (A : Type) : Type := world -> result A * world.

Definition ret {A} (a : A) : M A := fun w => (Ok a, w).

Definition raise {A} (e : exn) : M A := fun w => (Raise e, w).

Definition bind {A B} (m : M A) (k : A -> M B) : M B :=
  fun w =>
    match m w with
    | (Ok a, w') => k a w'
    | (Raise e, w') => (Raise e, w')
    end.

(** [try: m except Exception as e: h e] *)
Definition try_except {A} (m : M A) (h : exn -> M A) : M A :=
  fun w =>
    match m w with
    | (Ok a, w') => (Ok a, w')
    | (Raise e, w') => h e w'
    end.

Declare Scope node_scope.
Delimit Scope node_scope with node.
Notation "x <- m ;; k" := (bind m (fun x => k))
  (at level 100, m at next level, right associativity) : node_scope.
Open Scope node_scope.

Definition of_result {A} (r : result A) : M A := fun w => (r, w).

Definition emit (e : event) : M unit :=
  fun w => (Ok tt, {| db := db w; log := log w ++ [e] |}).

(** [chain.invoke(...)] *)
Definition invoke (S : Services) (c : chain) : M string :=
  _ <- emit (Invoke c) ;; of_result (llm_gemini S c).

(** [services.web_search_tool.invoke(...)] *)
Definition search_invoke (S : Services) : M (list string) :=
  _ <- emit SearchInvoke ;; of_result (web_search_tool S).

(** [services.store.get_user_profile(user_id)] at a call site. *)
Definition store_get_user_profile (S : Services) (site : store_site)
    (uid : string) : M (option pydict) :=
  fun w =>
    match store_raises S site with
    | Some e => (Raise e, w)
    | None => (Ok (SQLiteStore.get_user_profile (db w) uid), w)
    end.

(** [services.store.save_user_profile(user_id, profile_data)] *)
Definition store_save_user_profile (S : Services) (uid : string)
    (profile_data : pydict) : M unit :=
  fun w =>
    match store_raises S AtSaveProfile with
    | Some e => (Raise e, w)
    | None =>
        (Ok tt,
         {| db := SQLiteStore.save_user_profile (now S) (db w) uid profile_data;
            log := log w |})
    end.

(** [services.store.save_backstory(user_id, backstory_text)] *)
Definition store_save_backstory (S : Services) (uid : string)
    (backstory_text : string) : M unit :=
  fun w =>
    match store_raises S AtSaveBackstory with
    | Some e => (Raise e, w)
    | None =>
        (Ok tt,
         {| db := SQLiteStore.save_backstory (now S) (db w) uid backstory_text;
            log := log w |})
    end.

(** ** Messages and the graph state *)

Inductive BaseMessage : Type :=
| HumanMessage (content : string)
| AIMessage (content : string).

Definition content (m : BaseMessage) : string :=
  match m with HumanMessage c | AIMessage c => c end.

Definition is_human (m : BaseMessage) : bool :=
  match m with HumanMessage _ => true | AIMessage _ => false end.

Definition is_ai (m : BaseMessage) : bool :=
  match m with HumanMessage _ => false | AIMessage _ => true end.

(** The state dictionary: the keys of [AgentState] that the nodes use, each
    possibly absent ([None]; a key that holds [None] reads the same). An
    absent [messages] reads as the empty list, as [state.get('messages',
    [])] does. [backstory] and [error] are what [.get('backstory')] and
    [.get('error')] read: nodes return these two keys, but [AgentState]
    does not declare them, so the graph never stores them and both read
    [None] in every state the graph returns. *)
Record AgentState : Type := {
  messages : list BaseMessage;
  user_id : option string;
  is_onboarding : option bool;
  user_profile_data : option pydict;
  intent : option string;
  tool_output : option string;
  final_response_text : option string;
  backstory : option string;
  error : option string
}.

(** The dictionary a node returns: the keys it sets. [u_backstory] is
    [Some None] for the entry [backstory: None]. *)
Record Update : Type := {
  u_messages : option (list BaseMessage);
  u_user_id : option string;
  u_is_onboarding : option bool;
  u_user_profile_data : option pydict;
  u_intent : option string;
  u_tool_output : option string;
  u_final_response_text : option string;
  u_backstory : option (option string);
  u_error : option string
}.

(** The graph writes each returned key of [AgentState] over the state's (no
    key declares a reducer) and drops the keys [AgentState] does not
    declare: [backstory] and [error] of the update are not kept, and none
    is taken over from the input. *)
Definition apply_update (st : AgentState) (u : Update) : AgentState :=
  {| messages := default (messages st) (u_messages u);
     user_id := from_option Some (user_id st) (u_user_id u);
     is_onboarding := from_option Some (is_onboarding st) (u_is_onboarding u);
     user_profile_data :=
       from_option Some (user_profile_data st) (u_user_profile_data u);
     intent := from_option Some (intent st) (u_intent u);
     tool_output := from_option Some (tool_output st) (u_tool_output u);
     final_response_text :=
       from_option Some (final_response_text st) (u_final_response_text u);
     backstory := None;
     error := None |}.

(** ** The backstory sections *)

(** [(?:\n\s*Tagline:|$)] matched at the start of [s], ignoring case: a
    newline, white space and the label, or the end of the text (also just
    before a final newline). *)
Definition at_tagline_or_end (s : string) : bool :=
  match s with
  | EmptyString => true
  | String c r =>
      Ascii.eqb c (ascii_of_nat 10) &&
      (startswith "tagline:" (lower (lstrip r)) ||
       match r with EmptyString => true | _ => false end)
  end.

(** The rest of the lazy group [(.+?)] after its first character. *)
Fixpoint lazy_until (s : string) : string :=
  match s with
  | EmptyString => EmptyString
  | String c r => if at_tagline_or_end s then EmptyString else String c (lazy_until r)
  end.

Fixpoint drop_chars (n : nat) (s : string) : string :=
  match n, s with
  | O, _ => s
  | S n', String _ r => drop_chars n' r
  | S _, EmptyString => EmptyString
  end.

Fixpoint last_char (s : string) : option ascii :=
  match s with
  | EmptyString => None
  | String c EmptyString => Some c
  | String _ r => last_char r
  end.

(** [Backstory:\s*(.+?)(?:\n\s*Tagline:|$)] anchored at the start of [s];
    the result is [group(1)]. When only white space follows the label,
    [\s*] gives its last character back to the group. *)
Definition match_backstory_here (s : string) : option string :=
  if startswith "backstory:" (lower s) then
    let rest := drop_chars 10 s in
    match lstrip rest with
    | String c r => Some (String c (lazy_until r))
    | EmptyString => (fun c => String c EmptyString) <$> last_char rest
    end
  else None.

(** [re.search(r"Backstory:\s*(.+?)(?:\n\s*Tagline:|$)", s, re.DOTALL |
    re.IGNORECASE)], then [group(1)]. *)
Fixpoint search_backstory (s : string) : option string :=
  match match_backstory_here s with
  | Some g => Some g
  | None =>
      match s with
      | EmptyString => None
      | String _ r => search_backstory r
      end
  end.

(** [Tagline:\s*(.+)$] anchored at the start of [s]. *)
Definition match_tagline_here (s : string) : option string :=
  if startswith "tagline:" (lower s) then
    let rest := drop_chars 8 s in
    match lstrip rest with
    | String c r => Some (String c r)
    | EmptyString => (fun c => String c EmptyString) <$> last_char rest
    end
  else None.

(** [re.search(r"Tagline:\s*(.+)$", s, re.DOTALL | re.IGNORECASE)], then
    [group(1)]. *)
Fixpoint search_tagline (s : string) : option string :=
  match match_tagline_here s with
  | Some g => Some g
  | None =>
      match s with
      | EmptyString => None
      | String _ r => search_tagline r
      end
  end.

(** The text stored as the backstory: the narrative section, then the
    tagline when there is one. *)
Definition compose_backstory (raw_backstory : string) : string :=
  let backstory_section :=
    match search_backstory raw_backstory with
    | Some g => strip g
    | None => raw_backstory
    end in
  let tagline_section :=
    match search_tagline raw_backstory with
    | Some g => strip g
    | None => EmptyString
    end in
  backstory_section +:+
  (if String.eqb tagline_section "" then ""
   else nl +:+ nl +:+ "Tagline: " +:+ tagline_section).

(** ** The onboarding tables *)

Definition required_fields : list string :=
  [ "name"; "state"; "craft_type"; "materials"; "years_experience";
    "sales_channels"; "price_range"; "languages"; "brand_style" ].

Definition field_prompts : gmap string string :=
  list_to_map
    [ ("name", "What should I call your brand or what's your name?");
      ("state", "Which state/region in India are you based in?");
      ("craft_type",
       "What craft do you practice? (e.g., pottery, weaving, woodwork)");
      ("materials",
       "What materials do you mostly use? (e.g., clay, cotton, bamboo)");
      ("years_experience",
       "How many years have you been practicing this craft?");
      ("sales_channels",
       "Where do you usually sell? Online, offline, or both?");
      ("price_range",
       "What's your typical price range? (e.g., Rs 200-500, premium)");
      ("languages", "Which languages do you speak or want content in?");
      ("brand_style",
       "How would you describe your brand style or voice? (e.g., earthy, premium)") ].

(** The welcome. Its dash is beyond code point 255 and stands here as the
    bytes of its encoding: the text is only passed on and compared, no node
    looks at its characters. *)
Definition welcome_message : string :=
  "Welcome! I'm your artisan brand assistant. I'll help you set up your craft profile, craft a compelling backstory, and support your content. Let's start simple — what should I call you or your brand?".

(** [field_prompts.get(f, f"Please provide your {f}")] *)
Definition question_for (field : string) : string :=
  default ("Please provide your " +:+ field) (field_prompts !! field).

(** [[f for f in required_fields if f not in current_profile]] *)
Definition missing_fields_for_prompt (current_profile : pydict) : list string :=
  filter (fun f => current_profile !! f = None) required_fields.

(** [[f for f in required_fields if f not in current_profile or not
    current_profile[f]]] *)
Definition field_missing (current_profile : pydict) (f : string) : bool :=
  match current_profile !! f with
  | None => true
  | Some v => negb (truthy v)
  end.

Definition missing_fields (current_profile : pydict) : list string :=
  filter (fun f => field_missing current_profile f = true) required_fields.

(** The content of the most recent human message, [""] when there is none. *)
Definition last_human_content (msgs : list BaseMessage) : string :=
  match filter (fun m => is_human m = true) (reverse msgs) with
  | m :: _ => content m
  | [] => EmptyString
  end.

(** The numeric fallback shared by the two failure paths of the extraction:
    only when the first field absent from the profile is
    [years_experience], and only when the message holds a number. *)
Definition numeric_fallback (current_profile : pydict) (user_message : string)
    : pydict :=
  match missing_fields_for_prompt current_profile with
  | first :: _ =>
      if String.eqb first "years_experience" then
        match findall_digits user_message with
        | n :: _ => <["years_experience" := PyStr n]> current_profile
        | [] => current_profile
        end
      else current_profile
  | [] => current_profile
  end.

(** ** The workflow nodes *)

(** [bool(d)] for a dictionary. *)
Definition dict_truthy (d : pydict) : bool := negb (bool_decide (d = ∅)).

(** [d is not None and d], for an optional dictionary. *)
Definition nonempty_dict (d : option pydict) : option pydict :=
  match d with
  | Some x => if dict_truthy x then Some x else None
  | None => None
  end.

(** The dictionary returned for a missing or empty user id. *)
Definition user_id_not_found : Update :=
  {| u_messages := None; u_user_id := None; u_is_onboarding := None;
     u_user_profile_data := None; u_intent := None; u_tool_output := None;
     u_final_response_text := None; u_backstory := None;
     u_error := Some "User ID not found in state" |}.

(** The branch of [check_user_profile_node] for a user with no stored
    profile: onboarding, with the welcome when the user is new. *)
Definition start_onboarding (uid : string) (st : AgentState) : Update :=
  let partial_profile := default ∅ (user_profile_data st) in
  let msgs := messages st in
  let is_new_user :=
    (List.length (filter (fun m => is_human m = true) msgs) <=? 1)%nat
    && negb (dict_truthy partial_profile) in
  if is_new_user then
    {| u_messages := Some (msgs ++ [AIMessage welcome_message]);
       u_user_id := Some uid;
       u_is_onboarding := Some true;
       u_user_profile_data := Some partial_profile;
       u_intent := None; u_tool_output := None;
       u_final_response_text := Some welcome_message;
       u_backstory := None; u_error := None |}
  else
    {| u_messages := Some msgs; u_user_id := Some uid;
       u_is_onboarding := Some true;
       u_user_profile_data := Some partial_profile;
       u_intent := None; u_tool_output := None;
       u_final_response_text := None; u_backstory := None;
       u_error := None |}.

(** [check_user_profile_node] *)
Definition check_user_profile_node (S : Services) (st : AgentState) : M Update :=
  match user_id st with
  | None => ret user_id_not_found
  | Some uid =>
      (* if not user_id *)
      if String.eqb uid "" then ret user_id_not_found
      else
        (* try: stored_profile = ...; except: profile_exists = False *)
        stored_profile <-
          try_except (store_get_user_profile S AtCheck uid)
            (fun _ => ret None) ;;
        (* if profile_exists and stored_profile *)
        match nonempty_dict stored_profile with
        | Some stored =>
            ret {| u_messages := Some (messages st); u_user_id := Some uid;
                   u_is_onboarding := Some false;
                   u_user_profile_data := Some stored;
                   u_intent := None; u_tool_output := None;
                   u_final_response_text := None; u_backstory := None;
                   u_error := None |}
        | None => ret (start_onboarding uid st)
        end
  end.

(** The dictionary returned when onboarding completes. *)
Definition completion_update (msgs : list BaseMessage) (current_profile : pydict)
    (final_text : string) (backstory_text : option string) : Update :=
  {| u_messages := Some (msgs ++ [AIMessage final_text]);
     u_user_id := None;
     u_is_onboarding := Some false;
     u_user_profile_data := Some current_profile;
     u_intent := None; u_tool_output := None;
     u_final_response_text := Some final_text;
     u_backstory := Some backstory_text; u_error := None |}.

(** The dictionary returned with the next question. *)
Definition question_update (msgs : list BaseMessage) (current_profile : pydict)
    (next_question : string) : Update :=
  {| u_messages := Some (msgs ++ [AIMessage next_question]);
     u_user_id := None;
     u_is_onboarding := Some true;
     u_user_profile_data := Some current_profile;
     u_intent := None; u_tool_output := None;
     u_final_response_text := Some next_question;
     u_backstory := None; u_error := None |}.

Definition completion_message (current_profile : pydict) : string :=
  let name := dict_get_default current_profile "name" (PyStr "there") in
  "Great! " +:+ py_str name +:+ ", your artisan profile is set.".

Definition backstory_notice : string :=
  " I've also crafted your brand backstory. You can fetch it anytime.".

(** The extraction step of [onboarding_step_node]: the profile after the
    [try] block. A chain that raises and a [JSONDecodeError] reach the same
    handler. *)
Definition extract_profile (S : Services) (current_profile : pydict)
    (user_message : string) : M pydict :=
  try_except
    (response_str <- invoke S ExtractionChain ;;
     match search_json_object response_str with
     | Some json_text =>
         match json_loads S json_text with
         | Some extracted_data => ret (dict_update current_profile extracted_data)
         | None => raise (Exception "JSONDecodeError")
         end
     | None => ret (numeric_fallback current_profile user_message)
     end)
    (fun _ => ret (numeric_fallback current_profile user_message)).

(** The backstory block of the completion branch: the text to return (or
    [None]) and the final text. *)
Definition generate_backstory (S : Services) (uid : string)
    (final_text : string) : M (option string * string) :=
  try_except
    (raw <- invoke S BackstoryChain ;;
     let raw_backstory := strip raw in
     let backstory_text := compose_backstory raw_backstory in
     _ <- store_save_backstory S uid backstory_text ;;
     ret (Some backstory_text,
          final_text +:+ backstory_notice))
    (fun _ => ret (None, final_text)).

(** [onboarding_step_node] *)
Definition onboarding_step_node (S : Services) (st : AgentState) : M Update :=
  if negb (default false (is_onboarding st)) then
    ret {| u_messages := None; u_user_id := None;
           u_is_onboarding := Some false;
           u_user_profile_data := None; u_intent := None;
           u_tool_output := None; u_final_response_text := None;
           u_backstory := None; u_error := None |}
  else
    let current_profile := default ∅ (user_profile_data st) in
    match user_id st with
    | None => raise (Exception "'user_id'")
    | Some uid =>
        let msgs := messages st in
        let user_message := last_human_content msgs in
        (* Only attempt extraction if we have a human message *)
        current_profile <-
          (if String.eqb user_message "" then ret current_profile
           else extract_profile S current_profile user_message) ;;
        match missing_fields current_profile with
        | [] =>
            _ <- store_save_user_profile S uid current_profile ;;
            let final_text := completion_message current_profile in
            existing_backstory <-
              try_except
                (stored <- store_get_user_profile S AtBackstoryGuard uid ;;
                 (* stored = ... or {} *)
                 ret (dict_get (default ∅ stored) "backstory"))
                (fun _ => ret PyNone) ;;
            generated <-
              (if negb (truthy existing_backstory)
               then generate_backstory S uid final_text
               else ret (None, final_text)) ;;
            let backstory_text := fst generated in
            let final_text := snd generated in
            ret (completion_update msgs current_profile final_text backstory_text)
        | next_field_to_ask :: _ =>
            let next_question := question_for next_field_to_ask in
            ret (question_update msgs current_profile next_question)
        end
    end.

(** [state['user_id']] *)
Definition state_user_id (st : AgentState) : M string :=
  match user_id st with
  | Some uid => ret uid
  | None => raise (Exception "'user_id'")
  end.

(** [state['messages'][-1].content] *)
Definition last_message_content (st : AgentState) : M string :=
  match last (messages st) with
  | Some m => ret (content m)
  | None => raise (Exception "list index out of range")
  end.

(** [try: user_profile = services.store.get_user_profile(user_id) or {}
    except: user_profile = {}] *)
Definition get_profile_safely (S : Services) (site : store_site)
    (uid : string) : M pydict :=
  try_except
    (stored <- store_get_user_profile S site uid ;; ret (default ∅ stored))
    (fun _ => ret ∅).

(** The mapping of the classifier's text to one of the two intents. *)
Definition map_intent (intent_text : string) : string :=
  if contains "welfare" intent_text || contains "scheme" intent_text
     || contains "benefit" intent_text
  then "welfare_search" else "general_query".

(** [supervisor_agent_node] *)
Definition supervisor_agent_node (S : Services) (st : AgentState) : M Update :=
  uid <- state_user_id st ;;
  user_profile <- get_profile_safely S AtSupervisor uid ;;
  query <- last_message_content st ;;
  raw <- invoke S IntentChain ;;
  let intent_text := lower (strip raw) in
  ret {| u_messages := None; u_user_id := None; u_is_onboarding := None;
         u_user_profile_data := None;
         u_intent := Some (map_intent intent_text);
         u_tool_output := None; u_final_response_text := None;
         u_backstory := None; u_error := None |}.

Definition tool_output_update (text : string) : Update :=
  {| u_messages := None; u_user_id := None; u_is_onboarding := None;
     u_user_profile_data := None; u_intent := None;
     u_tool_output := Some text; u_final_response_text := None;
     u_backstory := None; u_error := None |}.

(** [welfare_search_node]: the search and the summary are inside the
    [try]; reading the query and the user id is not. *)
Definition welfare_search_node (S : Services) (st : AgentState) : M Update :=
  query <- last_message_content st ;;
  uid <- state_user_id st ;;
  user_profile <- get_profile_safely S AtWelfare uid ;;
  try_except
    (search_results <- search_invoke S ;;
     concise_response <- invoke S SummaryChain ;;
     ret (tool_output_update concise_response))
    (fun e =>
       ret (tool_output_update
              ("Unable to search welfare schemes: " +:+ exn_str e))).

(** [general_query_node] *)
Definition general_query_node (S : Services) (st : AgentState) : M Update :=
  uid <- state_user_id st ;;
  user_profile <- get_profile_safely S AtGeneral uid ;;
  question <- last_message_content st ;;
  response <- invoke S GeneralChain ;;
  ret (tool_output_update response).

(** [final_response_node]. [state.get('tool_output', '')] is the text a
    handler has set: both handlers return the key before this node runs.
    (For a key that holds [None], as in the websocket's input before a
    handler ran, [.lower()] would raise; the graph has no edge that reaches
    this node then.) *)
Definition final_response_node (S : Services) (st : AgentState) : M Update :=
  let tool_output := default EmptyString (tool_output st) in
  final_text <-
    (if contains "form" (lower tool_output) then ret tool_output
     else invoke S FinalChain) ;;
  ret {| u_messages := Some [AIMessage final_text]; u_user_id := None;
         u_is_onboarding := None; u_user_profile_data := None;
         u_intent := None; u_tool_output := None;
         u_final_response_text := Some final_text;
         u_backstory := None; u_error := None |}.

(** ** The graph of [build_agentic_workflow] *)

Inductive node : Type :=
| NOnboardingStep
| NSupervisor
| NWelfareSearch
| NGeneralQuery.

Definition route_after_checking_profile (st : AgentState) : node :=
  if default false (is_onboarding st) then NOnboardingStep else NSupervisor.

(** The conditional edge after the supervisor maps the two intents to
    their nodes; any other value has no edge. *)
Definition route_after_supervisor (st : AgentState) : M node :=
  let intent := default "general_query" (intent st) in
  if String.eqb intent "welfare_search" then ret NWelfareSearch
  else if String.eqb intent "general_query" then ret NGeneralQuery
  else raise (Exception ("'" +:+ intent +:+ "'")).

(** Run one node and write its update over the state. *)
Definition step (f : AgentState -> M Update) (st : AgentState) : M AgentState :=
  u <- f st ;; ret (apply_update st u).

(** The path after the check when onboarding is over: the supervisor, the
    handler its intent selects, then [structure_final_response]. *)
Definition supervisor_branch (S : Services) (st : AgentState) : M AgentState :=
  st <- step (supervisor_agent_node S) st ;;
  n <- route_after_supervisor st ;;
  st <- (match n with
         | NWelfareSearch => step (welfare_search_node S) st
         | _ => step (general_query_node S) st
         end) ;;
  step (final_response_node S) st.

(** [workflow.invoke(input_state, config)]: [check_user_profile] is the
    entry point; [onboarding_step] goes to [END]; the two handlers go
    through [structure_final_response]. *)
Definition run_workflow (S : Services) (input_state : AgentState) : M AgentState :=
  _ <- emit WorkflowInvoke ;;
  st <- step (check_user_profile_node S) input_state ;;
  match route_after_checking_profile st with
  | NOnboardingStep => step (onboarding_step_node S) st
  | _ => supervisor_branch S st
  end.

(** ** The [/chat] endpoint *)

Record ChatMessage : Type := {
  message : string;
  cm_user_id : string
}.

Record ChatResponse : Type := {
  response : string;
  cr_is_onboarding : bool;
  cr_user_profile : gmap string string;
  cr_backstory : option string
}.

Inductive http (A : Type) : Type :=
| Http200 (body : A)
| HTTPException (status_code : nat) (detail : string).
Arguments Http200 {A} body.
Arguments HTTPException {A} status_code detail.

(** [coerce_profile_to_strings]: [None] values are dropped, a [str] is
    kept. (The [str(v)] branch is for values that are neither, which the
    model does not have.) *)
Definition coerce_profile_to_strings (profile : pydict) : gmap string string :=
  omap (fun v => match v with PyStr s => Some s | PyNone => None end) profile.

(** The content of the last [AIMessage], [""] when there is none. *)
Definition last_ai_content (msgs : list BaseMessage) : string :=
  match filter (fun m => is_ai m = true) (reverse msgs) with
  | m :: _ => content m
  | [] => EmptyString
  end.

(** A conversation that has no checkpoint yet starts from the message and
    the user id alone. *)
Definition new_conversation (chat_message : ChatMessage) : AgentState :=
  {| messages := [HumanMessage (message chat_message)];
     user_id := Some (cm_user_id chat_message);
     is_onboarding := None; user_profile_data := None; intent := None;
     tool_output := None; final_response_text := None;
     backstory := None; error := None |}.

Definition continue_conversation (values : AgentState)
    (chat_message : ChatMessage) : AgentState :=
  {| messages := messages values ++ [HumanMessage (message chat_message)];
     user_id := user_id values;
     is_onboarding := is_onboarding values;
     user_profile_data := user_profile_data values;
     intent := intent values; tool_output := tool_output values;
     final_response_text := final_response_text values;
     backstory := None; error := None |}.

(** The input of the graph: the checkpointed values with the new message
    appended, or a new conversation. [checkpoint] is the state saved for
    the thread [chat_message.user_id], if any. *)
Definition chat_input (checkpoint : option AgentState)
    (chat_message : ChatMessage) : AgentState :=
  match checkpoint with
  | Some values => continue_conversation values chat_message
  | None => new_conversation chat_message
  end.

(** The response built from the graph's result: the last AI message, the
    profile of the state (read from the store when the state has none) and
    the state's flag and backstory. *)
Definition chat_response (S : Services) (chat_message : ChatMessage)
    (result_state : AgentState) : M ChatResponse :=
  let final_response := last_ai_content (messages result_state) in
  let user_profile := default ∅ (user_profile_data result_state) in
  user_profile <-
    (if dict_truthy user_profile then ret user_profile
     else try_except
            (stored <- store_get_user_profile S AtEndpoint
                         (cm_user_id chat_message) ;;
             ret (default ∅ stored))
            (fun _ => ret user_profile)) ;;
  ret {| response :=
           if String.eqb final_response ""
           then "I'm sorry, I couldn't process that request."
           else final_response;
         cr_is_onboarding := default false (is_onboarding result_state);
         cr_user_profile := coerce_profile_to_strings user_profile;
         cr_backstory := backstory result_state |}.

(** The body of [chat_endpoint] inside its [try]: the response and the
    state the checkpointer keeps. *)
Definition chat_endpoint_body (S : Services) (checkpoint : option AgentState)
    (chat_message : ChatMessage) : M (ChatResponse * AgentState) :=
  result_state <- run_workflow S (chat_input checkpoint chat_message) ;;
  resp <- chat_response S chat_message result_state ;;
  ret (resp, result_state).

(** [chat_endpoint]: any exception becomes [HTTPException(500)]. *)
Definition chat_endpoint (S : Services) (checkpoint : option AgentState)
    (chat_message : ChatMessage) (w : world)
    : http (ChatResponse * AgentState) * world :=
  match chat_endpoint_body S checkpoint chat_message w with
  | (Ok r, w') => (Http200 r, w')
  | (Raise e, w') =>
      (HTTPException 500 ("Internal server error: " +:+ exn_str e), w')
  end.

(** The validation the other endpoints ([/user/{user_id}/profile],
    [/user/{user_id}/backstory], [/image/edit], [/user/{user_id}/media])
    run first: [not user_id or len(user_id.strip()) == 0]. *)
Definition invalid_user_id (uid : string) : bool :=
  String.eqb uid "" || (String.length (strip uid) =? 0)%nat.

(** ** Notions the statements use *)

(** [(get_user_profile(user_id) or {}).get('backstory')]: the backstory as
    the code reads it. *)
Definition stored_backstory (db : SQLiteStore.table) (uid : string) : pyval :=
  dict_get (default ∅ (SQLiteStore.get_user_profile db uid)) "backstory".

(** A profile is complete when every required field is present and
    non-empty. *)
Definition profile_complete (d : pydict) : bool :=
  forallb (fun f => negb (field_missing d f)) required_fields.

Definition has_complete_profile (db : SQLiteStore.table) (uid : string) : bool :=
  match SQLiteStore.get_user_profile db uid with
  | Some d => profile_complete d
  | None => false
  end.

(** Every stored row is a complete profile. *)
Definition rows_complete (db : SQLiteStore.table) : Prop :=
  forall uid r, db !! uid = Some r ->
    profile_complete (SQLiteStore.row_dict uid r) = true.

(** The object the extractor's answer parses to, if any: the chain
    returned, its text holds a brace-delimited substring, and [json.loads]
    accepts it. *)
Definition extracted_data (S : Services) : option pydict :=
  match llm_gemini S ExtractionChain with
  | Ok response_str => search_json_object response_str ≫= json_loads S
  | Raise _ => None
  end.

(** The profile the step works with once the extraction block is over. *)
Definition profile_after_extraction (S : Services) (st : AgentState) : pydict :=
  let current_profile := default ∅ (user_profile_data st) in
  let user_message := last_human_content (messages st) in
  if String.eqb user_message "" then current_profile
  else match extracted_data S with
       | Some e => dict_update current_profile e
       | None => numeric_fallback current_profile user_message
       end.

Definition logged (w : world) (evs : list event) : world :=
  {| db := db w; log := log w ++ evs |}.

(** The world once the extraction block is over: the chain is invoked when
    there is a human message. *)
Definition after_extraction (st : AgentState) (w : world) : world :=
  if String.eqb (last_human_content (messages st)) "" then w
  else logged w [Invoke ExtractionChain].

(** A sequence of onboarding steps, each with its own services and inbound
    state, run one after the other on the same store. *)
Fixpoint run_onboarding_steps (turns : list (Services * AgentState))
    (w : world) : world :=
  match turns with
  | [] => w
  | turn :: rest =>
      run_onboarding_steps rest
        (snd (onboarding_step_node (fst turn) (snd turn) w))
  end.

(** Every character of [s] satisfies [f]. *)
Fixpoint all_chars (f : ascii -> bool) (s : string) : bool :=
  match s with
  | EmptyString => true
  | String c r => f c && all_chars f r
  end.

(** [s] is empty or starts with a character that is no digit. *)
Definition no_digit_ahead (s : string) : bool :=
  match s with
  | EmptyString => true
  | String c _ => negb (is_digit c)
  end.

(** A computation that leaves the table alone and does not invoke the
    backstory chain. *)
Definition quiet {A} (m : M A) : Prop :=
  forall w,
    db (snd (m w)) = db w /\
    exists evs, log (snd (m w)) = log w ++ evs /\
                (Invoke BackstoryChain ∉ evs).

(** The calls logged between two worlds. *)
Definition new_events (w w' : world) : list event :=
  drop (List.length (log w)) (log w').

(** The state after the [check_user_profile] step. *)
Definition after_check (S : Services) (st : AgentState) (w : world)
    : result AgentState :=
  fst (step (check_user_profile_node S) st w).

(** ** Fixtures for the worked examples *)

Module Examples.

Definition clock : string := "2025-01-01 10:00:00".

(** [json.loads] on the object literals the examples use. *)
Definition json_loads_examples (s : string) : option pydict :=
  if String.eqb s "{}" then Some ∅ else None.

(** Every chain answers, SQLite never raises. The search tool raises, as
    [AgentServices] assigns no [web_search_tool]. *)
Definition services_ok : Services :=
  {| llm_gemini := fun c =>
       match c with
       | ExtractionChain => Ok "{}"
       | BackstoryChain => Ok "Backstory: Clay has shaped my days."
       | IntentChain => Ok "general_query"
       | _ => Ok "You are welcome."
       end;
     web_search_tool :=
       Raise (Exception "'AgentServices' object has no attribute 'web_search_tool'");
     store_raises := fun _ => None;
     json_loads := json_loads_examples;
     now := clock |}.

(** As [services_ok], with one chain raising. *)
Definition services_chain_down (down : chain) : Services :=
  {| llm_gemini := fun c =>
       if bool_decide (c = down) then Raise (Exception "503 Service Unavailable")
       else llm_gemini services_ok c;
     web_search_tool := web_search_tool services_ok;
     store_raises := store_raises services_ok;
     json_loads := json_loads_examples;
     now := clock |}.

(** As [services_ok], with SQLite raising at one call site. *)
Definition services_store_down (site : store_site) : Services :=
  {| llm_gemini := llm_gemini services_ok;
     web_search_tool := web_search_tool services_ok;
     store_raises := fun s =>
       if bool_decide (s = site) then Some (Exception "database is locked")
       else None;
     json_loads := json_loads_examples;
     now := clock |}.

(** A complete artisan profile. *)
Definition asha_profile : pydict :=
  list_to_map
    [ ("name", PyStr "Asha"); ("state", PyStr "Rajasthan");
      ("craft_type", PyStr "pottery"); ("materials", PyStr "clay");
      ("years_experience", PyStr "12"); ("sales_channels", PyStr "offline");
      ("price_range", PyStr "200-500"); ("languages", PyStr "Hindi");
      ("brand_style", PyStr "earthy") ].

(** The row [save_user_profile] writes for it, with a backstory. *)
Definition asha_row : SQLiteStore.row :=
  SQLiteStore.set_backstory clock "Three generations at the wheel."
    (SQLiteStore.insert_profile_row clock asha_profile).

(** A row from before the artisan columns were added: only [name] is
    set. *)
Definition legacy_row : SQLiteStore.row :=
  SQLiteStore.insert_profile_row clock {[ "name" := PyStr "Asha" ]}.

Definition fresh : world := {| db := ∅; log := [] |}.

Definition with_row (uid : string) (r : SQLiteStore.row) : world :=
  {| db := {[ uid := r ]}; log := [] |}.

(** A state in onboarding. *)
Definition onboarding_state (uid : string) (profile : pydict)
    (msgs : list BaseMessage) : AgentState :=
  {| messages := msgs; user_id := Some uid; is_onboarding := Some true;
     user_profile_data := Some profile; intent := None;
     tool_output := None; final_response_text := None;
     backstory := None; error := None |}.

(** An onboarding state whose profile is already complete and that
    carries no human message. *)
Definition completion_state (uid : string) : AgentState :=
  {| messages := []; user_id := Some uid; is_onboarding := Some true;
     user_profile_data := Some asha_profile; intent := None;
     tool_output := None; final_response_text := None;
     backstory := None; error := None |}.

End Examples.

(** ** The rest of the application: helpers, the other endpoints, the
    websocket *)

(** [sanitize_profile]: a copy without the keys that read [backstory] in
    any letter case; [{}] for [None] and for the empty dictionary. *)
Definition sanitize_profile (profile : option pydict) : pydict :=
  match profile with
  | Some p => filter (fun kv => lower (fst kv) <> "backstory") p
  | None => ∅
  end.

(** The calls of [services.store] in the endpoints for a stored profile. *)
Inductive rest_site : Type :=
| AtProfileRead
| AtBackstoryRead
| AtDeleteRead
| AtDeleteWrite.

(** The response model [UserProfile]: [Optional[str]] fields, [PyNone] for
    [None]. *)
Record UserProfile : Type := {
  up_user_id : string;
  up_name : pyval;
  up_state : pyval;
  up_craft_type : pyval;
  up_materials : pyval;
  up_years_experience : pyval;
  up_sales_channels : pyval;
  up_price_range : pyval;
  up_languages : pyval;
  up_brand_style : pyval;
  up_backstory : pyval
}.

(** [UserProfile(user_id=user_id, **profile_data_copy)]: the model takes
    its own fields from the dictionary and ignores the other keys. *)
Definition user_profile_model (uid : string) (profile_data : pydict) : UserProfile :=
  {| up_user_id := uid;
     up_name := dict_get profile_data "name";
     up_state := dict_get profile_data "state";
     up_craft_type := dict_get profile_data "craft_type";
     up_materials := dict_get profile_data "materials";
     up_years_experience := dict_get profile_data "years_experience";
     up_sales_channels := dict_get profile_data "sales_channels";
     up_price_range := dict_get profile_data "price_range";
     up_languages := dict_get profile_data "languages";
     up_brand_style := dict_get profile_data "brand_style";
     up_backstory := dict_get profile_data "backstory" |}.

(** [GET /user/{user_id}/profile]. [faults] tells whether SQLite raises at
    a call. *)
Definition get_user_profile_endpoint (faults : rest_site -> option exn)
    (db : SQLiteStore.table) (uid : string) : http UserProfile :=
  if invalid_user_id uid then HTTPException 400 "Invalid user ID"
  else
    match faults AtProfileRead with
    | Some e => HTTPException 500 ("Error retrieving profile: " +:+ exn_str e)
    | None =>
        match nonempty_dict (SQLiteStore.get_user_profile db uid) with
        | None => HTTPException 404 "User profile not found"
        | Some profile_data => Http200 (user_profile_model uid profile_data)
        end
    end.

(** [GET /user/{user_id}/backstory]: the user id and the backstory. *)
Definition get_user_backstory_endpoint (faults : rest_site -> option exn)
    (db : SQLiteStore.table) (uid : string) : http (string * string) :=
  if invalid_user_id uid then HTTPException 400 "Invalid user ID"
  else
    match faults AtBackstoryRead with
    | Some e => HTTPException 500 ("Error retrieving backstory: " +:+ exn_str e)
    | None =>
        match nonempty_dict (SQLiteStore.get_user_profile db uid) with
        | None => HTTPException 404 "User profile not found"
        | Some profile_data =>
            let backstory := dict_get profile_data "backstory" in
            if truthy backstory then Http200 (uid, py_str backstory)
            else
              HTTPException 404
                "Backstory not found. Complete onboarding to generate one."
        end
    end.

(** [DELETE /user/{user_id}/profile]: the answer and the table afterwards. *)
Definition delete_user_profile_endpoint (faults : rest_site -> option exn)
    (db : SQLiteStore.table) (uid : string)
    : http string * SQLiteStore.table :=
  if invalid_user_id uid then (HTTPException 400 "Invalid user ID", db)
  else
    match faults AtDeleteRead with
    | Some e => (HTTPException 500 ("Error deleting profile: " +:+ exn_str e), db)
    | None =>
        match nonempty_dict (SQLiteStore.get_user_profile db uid) with
        | None => (HTTPException 404 "User profile not found", db)
        | Some _ =>
            match faults AtDeleteWrite with
            | Some e =>
                (HTTPException 500 ("Error deleting profile: " +:+ exn_str e), db)
            | None =>
                (Http200 ("Profile for user " +:+ uid +:+ " deleted successfully"),
                 SQLiteStore.delete_user_profile db uid)
            end
        end
    end.

(** The state the graph starts from in [websocket_endpoint]: the input
    sets every key of [AgentState] that the nodes use anew for each message
    it receives, so nothing of the state [saved] for the thread is left. *)
Definition websocket_initial_state (saved : option AgentState)
    (uid message : string) : AgentState :=
  {| messages := [HumanMessage message];
     user_id := Some uid;
     is_onboarding := Some false;
     user_profile_data := Some ∅;
     intent := Some "";
     tool_output := None;
     final_response_text := Some "";
     backstory := None;
     error := None |}.

Record WebSocketReply : Type := {
  ws_response : string;
  ws_is_onboarding : bool
}.

(** One round of the loop of [websocket_endpoint], from the message of the
    received JSON to the reply sent back. An exception of the graph is not
    caught. *)
Definition websocket_turn (S : Services) (saved : option AgentState)
    (uid message : string) : M WebSocketReply :=
  result <- run_workflow S (websocket_initial_state saved uid message) ;;
  ret {| ws_response :=
           default "Error processing request" (final_response_text result);
         ws_is_onboarding := default false (is_onboarding result) |}.

(** A request to the server: a [/chat] call (with the state saved for
    its thread), a message on the websocket, or a [DELETE] of a profile. *)
Inductive request : Type :=
| ChatRequest (services : Services) (checkpoint : option AgentState)
    (chat_message : ChatMessage)
| WebSocketMessage (services : Services) (saved : option AgentState)
    (uid message : string)
| DeleteRequest (faults : rest_site -> option exn) (uid : string).

(** The world after one request. *)
Definition serve_request (r : request) (w : world) : world :=
  match r with
  | ChatRequest services checkpoint chat_message =>
      snd (chat_endpoint services checkpoint chat_message w)
  | WebSocketMessage services saved uid message =>
      snd (websocket_turn services saved uid message w)
  | DeleteRequest faults uid =>
      {| db := snd (delete_user_profile_endpoint faults (db w) uid);
         log := log w |}
  end.

(** The requests of a history, served one after the other. *)
Fixpoint serve (history : list request) (w : world) : world :=
  match history with
  | [] => w
  | r :: rest => serve rest (serve_request r w)
  end.

(** ** Notions the further statements use *)

(** The keys of the dictionary [get_user_profile] returns: the columns of
    [user_profiles]. *)
Definition row_keys : list string :=
  "user_id" :: SQLiteStore.profile_columns
  ++ [ "backstory"; "created_at"; "updated_at" ].

(** A text of ASCII characters. *)
Definition ascii_text (s : string) : bool :=
  all_chars (fun c => (nat_of_ascii c <? 128)%nat) s.

(** A [DELETE] request for the profile of [uid]. *)
Definition is_delete_of (uid : string) (r : request) : bool :=
  match r with
  | DeleteRequest _ uid' => String.eqb uid' uid
  | _ => false
  end.

(** An extractor that answers with prose around the object [{"name":
    null}], and a [json.loads] for that object. *)
Definition double_quote : string := String (ascii_of_nat 34) EmptyString.

Definition null_name_object : string :=
  "{" +:+ double_quote +:+ "name" +:+ double_quote +:+ ": null}".

Definition services_null_name : Services :=
  {| llm_gemini := fun c =>
       match c with
       | ExtractionChain => Ok ("Here you go: " +:+ null_name_object)
       | _ => llm_gemini Examples.services_ok c
       end;
     web_search_tool := web_search_tool Examples.services_ok;
     store_raises := fun _ => None;
     json_loads := fun s =>
       if String.eqb s null_name_object then Some {[ "name" := PyNone ]}
       else Examples.json_loads_examples s;
     now := Examples.clock |}.

(** An extractor that finds the region, the craft and the material in the
    message and returns an empty name with them. *)
Definition json_string (s : string) : string :=
  double_quote +:+ s +:+ double_quote.

Definition empty_name_object : string :=
  "{" +:+ json_string "name" +:+ ": " +:+ json_string "" +:+ ", "
  +:+ json_string "state" +:+ ": " +:+ json_string "Rajasthan" +:+ ", "
  +:+ json_string "craft_type" +:+ ": " +:+ json_string "pottery" +:+ ", "
  +:+ json_string "materials" +:+ ": " +:+ json_string "clay" +:+ "}".

Definition empty_name_profile : pydict :=
  list_to_map [ ("name", PyStr ""); ("state", PyStr "Rajasthan");
                ("craft_type", PyStr "pottery"); ("materials", PyStr "clay") ].

Definition services_empty_name : Services :=
  {| llm_gemini := fun c =>
       match c with
       | ExtractionChain => Ok empty_name_object
       | _ => llm_gemini Examples.services_ok c
       end;
     web_search_tool := web_search_tool Examples.services_ok;
     store_raises := fun _ => None;
     json_loads := fun s =>
       if String.eqb s empty_name_object then Some empty_name_profile
       else Examples.json_loads_examples s;
     now := Examples.clock |}.

(** The dictionary [supervisor_agent_node] returns. *)
Definition intent_update (intent_text : string) : Update :=
  {| u_messages := None; u_user_id := None; u_is_onboarding := None;
     u_user_profile_data := None;
     u_intent := Some (map_intent intent_text);
     u_tool_output := None; u_final_response_text := None;
     u_backstory := None; u_error := None |}.

(** The dictionary [final_response_node] returns. *)
Definition final_update (final_text : string) : Update :=
  {| u_messages := Some [AIMessage final_text]; u_user_id := None;
     u_is_onboarding := None; u_user_profile_data := None;
     u_intent := None; u_tool_output := None;
     u_final_response_text := Some final_text;
     u_backstory := None; u_error := None |}.

(** What [welfare_search_node] puts in [tool_output], and the calls it
    makes. *)
Definition welfare_outcome (S : Services) : string * list event :=
  match web_search_tool S with
  | Raise e =>
      ("Unable to search welfare schemes: " +:+ exn_str e, [SearchInvoke])
  | Ok _ =>
      match llm_gemini S SummaryChain with
      | Ok concise_response =>
          (concise_response, [SearchInvoke; Invoke SummaryChain])
      | Raise e =>
          ("Unable to search welfare schemes: " +:+ exn_str e,
           [SearchInvoke; Invoke SummaryChain])
      end
  end.

(** * Properties *)

(** ** The character classes *)

(** The code points below 256 that [str.isspace], [str.strip] and the class
    [\s] take for white space, the ones the class [\d] takes for digits,
    and the ones [str.lower] changes (each by 32). *)
Lemma is_space_code_points :
  filter (fun n => is_space (ascii_of_nat n) = true) (seq 0 256)
  = [9; 10; 11; 12; 13; 28; 29; 30; 31; 32; 133; 160].
Proof. vm_compute. reflexivity. Qed.

Lemma is_digit_code_points :
  filter (fun n => is_digit (ascii_of_nat n) = true) (seq 0 256)
  = seq 48 10.
Proof. vm_compute. reflexivity. Qed.

Lemma lower_char_code_points :
  filter (fun n => negb (nat_of_ascii (lower_char (ascii_of_nat n)) =? n)%nat
                   = true) (seq 0 256)
  = seq 65 26 ++ seq 192 23 ++ seq 216 7 /\
  Forall (fun n => nat_of_ascii (lower_char (ascii_of_nat n)) = (n + 32)%nat)
    (seq 65 26 ++ seq 192 23 ++ seq 216 7).
Proof. split; [vm_compute; reflexivity|]. vm_compute. repeat constructor. Qed.

(** ** The profile store *)

Lemma row_dict_nonempty uid r : SQLiteStore.row_dict uid r <> ∅.
Proof.
  intros H. apply (f_equal (fun d => d !! "user_id")) in H. discriminate H.
Qed.

Lemma row_dict_truthy uid r : dict_truthy (SQLiteStore.row_dict uid r) = true.
Proof.
  unfold dict_truthy. rewrite bool_decide_eq_false_2; [done|].
  apply row_dict_nonempty.
Qed.

Lemma save_user_profile_lookup now db uid p :
  exists r,
    SQLiteStore.save_user_profile now db uid p !! uid = Some r /\
    SQLiteStore.backstory r = default PyNone (SQLiteStore.backstory <$> db !! uid) /\
    (forall c, c ∈ SQLiteStore.profile_columns ->
       SQLiteStore.row_dict uid r !! c = Some (dict_get p c)).
Proof.
  unfold SQLiteStore.save_user_profile, SQLiteStore.get_user_profile.
  destruct (db !! uid) as [r0|] eqn:Hrow; simpl.
  - exists (SQLiteStore.update_profile_columns now p r0).
    split; [by rewrite lookup_alter_eq, Hrow|]. split; [done|].
    intros c Hc. unfold SQLiteStore.profile_columns in Hc.
    repeat (apply elem_of_cons in Hc as [->|Hc]; [reflexivity|]).
    by apply elem_of_nil in Hc.
  - exists (SQLiteStore.insert_profile_row now p).
    split; [by rewrite lookup_insert_eq|]. split; [done|].
    intros c Hc. unfold SQLiteStore.profile_columns in Hc.
    repeat (apply elem_of_cons in Hc as [->|Hc]; [reflexivity|]).
    by apply elem_of_nil in Hc.
Qed.

Lemma save_user_profile_other now db uid p uid' :
  uid <> uid' ->
  SQLiteStore.save_user_profile now db uid p !! uid' = db !! uid'.
Proof.
  intros Hne. unfold SQLiteStore.save_user_profile.
  destruct (SQLiteStore.get_user_profile db uid).
  - by rewrite lookup_alter_ne.
  - by rewrite lookup_insert_ne.
Qed.

Lemma stored_backstory_row db uid r :
  db !! uid = Some r -> stored_backstory db uid = SQLiteStore.backstory r.
Proof.
  intros H. unfold stored_backstory, SQLiteStore.get_user_profile.
  by rewrite H.
Qed.

Lemma stored_backstory_none db uid :
  db !! uid = None -> stored_backstory db uid = PyNone.
Proof.
  intros H. unfold stored_backstory, SQLiteStore.get_user_profile.
  by rewrite H.
Qed.

Lemma save_user_profile_stored_backstory now db uid p uid' :
  stored_backstory (SQLiteStore.save_user_profile now db uid p) uid'
  = stored_backstory db uid'.
Proof.
  destruct (decide (uid = uid')) as [<-|Hne].
  - destruct (save_user_profile_lookup now db uid p) as (r & Hr & Hb & _).
    rewrite (stored_backstory_row _ _ _ Hr), Hb.
    destruct (db !! uid) as [r0|] eqn:Hrow; simpl.
    + by rewrite (stored_backstory_row _ _ _ Hrow).
    + by rewrite (stored_backstory_none _ _ Hrow).
  - unfold stored_backstory, SQLiteStore.get_user_profile.
    by rewrite save_user_profile_other.
Qed.

(** C9, as stated, fails: a [backstory] entry and an entry outside the
    table's columns are both set in the mapping given to the upsert, and
    neither is returned by the read that follows. *)
Lemma upsert_get_drops_other_keys :
  let p : pydict :=
    <["backstory" := PyStr "Potter since 2001"]>
      (<["email" := PyStr "asha@example.org"]> Examples.asha_profile) in
  let db := SQLiteStore.save_user_profile Examples.clock ∅ "u1" p in
  p !! "backstory" = Some (PyStr "Potter since 2001") /\
  p !! "email" = Some (PyStr "asha@example.org") /\
  (SQLiteStore.get_user_profile db "u1" ≫= (.!! "backstory")) = Some PyNone /\
  (SQLiteStore.get_user_profile db "u1" ≫= (.!! "email")) = None.
Proof. vm_compute. repeat split; reflexivity. Qed.

Lemma row_dict_keys uid r k :
  SQLiteStore.row_dict uid r !! k <> None -> k ∈ row_keys.
Proof.
  intros Hk. destruct (SQLiteStore.row_dict uid r !! k) as [v|] eqn:Hv; [|done].
  unfold SQLiteStore.row_dict in Hv. apply elem_of_list_to_map_2 in Hv.
  assert (Hfst : k ∈ row_keys); [|exact Hfst].
  unfold row_keys, SQLiteStore.profile_columns. cbn [app].
  repeat (apply elem_of_cons in Hv as [[= -> _] | Hv]; [repeat constructor|]).
  by apply elem_of_nil in Hv.
Qed.

(** The cells of a row outside the fifteen profile columns. *)
Lemma row_dict_other_cells uid r r' k :
  k ∉ SQLiteStore.profile_columns ->
  SQLiteStore.backstory r = SQLiteStore.backstory r' ->
  SQLiteStore.created_at r = SQLiteStore.created_at r' ->
  SQLiteStore.updated_at r = SQLiteStore.updated_at r' ->
  SQLiteStore.row_dict uid r !! k = SQLiteStore.row_dict uid r' !! k.
Proof.
  intros Hk Hb Hc Hu.
  destruct (decide (k ∈ row_keys)) as [Hin|Hout].
  - unfold row_keys, SQLiteStore.profile_columns in Hin. cbn [app] in Hin.
    unfold SQLiteStore.profile_columns in Hk.
    repeat (apply elem_of_cons in Hin as [-> | Hin];
            [first [ reflexivity
                   | solve [exfalso; apply Hk; repeat constructor]
                   | change (Some (SQLiteStore.backstory r)
                             = Some (SQLiteStore.backstory r')); by rewrite Hb
                   | change (Some (SQLiteStore.created_at r)
                             = Some (SQLiteStore.created_at r')); by rewrite Hc
                   | change (Some (SQLiteStore.updated_at r)
                             = Some (SQLiteStore.updated_at r')); by rewrite Hu ]|]).
    by apply elem_of_nil in Hin.
  - destruct (SQLiteStore.row_dict uid r !! k) eqn:H1.
    { exfalso. apply Hout, (row_dict_keys uid r). by rewrite H1. }
    destruct (SQLiteStore.row_dict uid r' !! k) eqn:H2; [|done].
    exfalso. apply Hout, (row_dict_keys uid r'). by rewrite H2.
Qed.

Lemma save_user_profile_row now db uid (p : pydict) :
  SQLiteStore.save_user_profile now db uid p !! uid
  = Some (match db !! uid with
          | Some r0 => SQLiteStore.update_profile_columns now p r0
          | None => SQLiteStore.insert_profile_row now p
          end).
Proof.
  unfold SQLiteStore.save_user_profile, SQLiteStore.get_user_profile.
  destruct (db !! uid) as [r0|] eqn:Hrow; cbn [fmap option_fmap option_map].
  - by rewrite lookup_alter_eq, Hrow.
  - by rewrite lookup_insert_eq.
Qed.

(** C9, amended: after [save_user_profile], [get_user_profile] finds a row
    for the user. Every entry of the mapping under one of the fifteen columns
    the upsert binds is returned with its value unchanged (a value is a
    [str] or [None], as the profile's type declares). No entry under another
    key is written: the row has the table's nineteen keys and no other, and
    its cells outside the fifteen columns are the same whatever the mapping
    holds, namely the user id, the backstory stored before ([NULL] for a new
    row), the creation time and the time of the call. *)
Theorem save_then_get_profile_columns now db uid (p : pydict) :
  exists d,
    SQLiteStore.get_user_profile (SQLiteStore.save_user_profile now db uid p) uid
    = Some d /\
    (forall c v, c ∈ SQLiteStore.profile_columns -> p !! c = Some v ->
       d !! c = Some v) /\
    (forall k (p' : pydict), k ∉ SQLiteStore.profile_columns ->
       (SQLiteStore.get_user_profile
          (SQLiteStore.save_user_profile now db uid p') uid ≫= (.!! k))
       = d !! k) /\
    (forall k, d !! k <> None -> k ∈ row_keys) /\
    d !! "user_id" = Some (PyStr uid) /\
    d !! "backstory" = Some (stored_backstory db uid) /\
    d !! "created_at"
    = Some (default (PyStr now) (SQLiteStore.created_at <$> db !! uid)) /\
    d !! "updated_at" = Some (PyStr now).
Proof.
  destruct (save_user_profile_lookup now db uid p) as (r & Hr & Hb & Hcols).
  exists (SQLiteStore.row_dict uid r). split; [|split; [|split; [|split]]].
  - unfold SQLiteStore.get_user_profile. by rewrite Hr.
  - intros c v Hc Hp. rewrite (Hcols c Hc). unfold dict_get. by rewrite Hp.
  - intros k p' Hk. unfold SQLiteStore.get_user_profile.
    rewrite (save_user_profile_row now db uid p').
    rewrite (save_user_profile_row now db uid p) in Hr. injection Hr as <-.
    cbn [fmap option_fmap option_map mbind option_bind].
    apply row_dict_other_cells; [exact Hk|..]; by destruct (db !! uid).
  - apply row_dict_keys.
  - split; [reflexivity|]. split.
    + change (SQLiteStore.row_dict uid r !! "backstory")
        with (Some (SQLiteStore.backstory r)).
      rewrite Hb. f_equal.
      destruct (db !! uid) as [r0|] eqn:Hrow.
      * by rewrite (stored_backstory_row _ _ _ Hrow).
      * by rewrite (stored_backstory_none _ _ Hrow).
    + rewrite (save_user_profile_row now db uid p) in Hr. injection Hr as <-.
      split; by destruct (db !! uid).
Qed.

Lemma save_then_get_profile_columns_witness :
  exists d,
    SQLiteStore.get_user_profile
      (SQLiteStore.save_user_profile Examples.clock ∅ "u1" Examples.asha_profile)
      "u1" = Some d /\
    d !! "craft_type" = Some (PyStr "pottery") /\
    (SQLiteStore.get_user_profile
       (SQLiteStore.save_user_profile Examples.clock ∅ "u1"
          (<["email" := PyStr "asha@example.org"]> Examples.asha_profile))
       "u1" ≫= (.!! "email")) = d !! "email" /\
    d !! "email" = None.
Proof.
  destruct (save_then_get_profile_columns Examples.clock ∅ "u1"
              Examples.asha_profile) as (d & Hd & Hcols & Hother & Hkeys & _).
  exists d. split; [exact Hd|]. split; [|split].
  - apply Hcols; [|reflexivity].
    unfold SQLiteStore.profile_columns. repeat constructor.
  - apply Hother. unfold SQLiteStore.profile_columns.
    intros Hin.
    repeat (apply elem_of_cons in Hin as [[=] | Hin]).
    by apply elem_of_nil in Hin.
  - destruct (d !! "email") eqn:He; [|reflexivity].
    exfalso. assert (Hin : "email" ∈ row_keys) by (apply Hkeys; by rewrite He).
    unfold row_keys, SQLiteStore.profile_columns in Hin. cbn [app] in Hin.
    repeat (apply elem_of_cons in Hin as [[=] | Hin]).
    by apply elem_of_nil in Hin.
Defined.

(** C10: [save_user_profile] leaves the backstory of every user as it was,
    in its update branch (a row exists) and in its insert branch (the new
    row's backstory is [NULL], which is what the read gave before); it is
    [save_backstory] that sets it. *)
Theorem save_user_profile_keeps_backstory now db uid (p : pydict) uid' :
  stored_backstory (SQLiteStore.save_user_profile now db uid p) uid'
  = stored_backstory db uid' /\
  (forall r, db !! uid = Some r ->
     SQLiteStore.backstory
       <$> (SQLiteStore.save_user_profile now db uid p !! uid)
     = Some (SQLiteStore.backstory r)) /\
  (forall text, is_Some (db !! uid) ->
     stored_backstory (SQLiteStore.save_backstory now db uid text) uid
     = PyStr text).
Proof.
  split; [apply save_user_profile_stored_backstory|]. split.
  - intros r Hrow.
    destruct (save_user_profile_lookup now db uid p) as (r' & Hr' & Hb & _).
    rewrite Hr', Hrow in *. simpl in *. by rewrite Hb.
  - intros text [r Hrow].
    unfold stored_backstory, SQLiteStore.get_user_profile,
      SQLiteStore.save_backstory.
    by rewrite lookup_alter_eq, Hrow.
Qed.

Lemma save_user_profile_keeps_backstory_witness :
  SQLiteStore.backstory
    <$> (SQLiteStore.save_user_profile Examples.clock
           {[ "u1" := Examples.asha_row ]} "u1"
           {[ "name" := PyStr "Asha Devi" ]} !! "u1")
  = Some (PyStr "Three generations at the wheel.") /\
  stored_backstory
    (SQLiteStore.save_backstory Examples.clock
       {[ "u1" := Examples.asha_row ]} "u1" "A new story") "u1"
  = PyStr "A new story".
Proof.
  destruct (save_user_profile_keeps_backstory Examples.clock
              {[ "u1" := Examples.asha_row ]} "u1"
              {[ "name" := PyStr "Asha Devi" ]} "u1") as (_ & Hkeep & Hset).
  split.
  - exact (Hkeep Examples.asha_row eq_refl).
  - apply Hset. exists Examples.asha_row. reflexivity.
Defined.

(** ** The profile check *)

Lemma eqb_nonempty (uid : string) : uid <> "" -> String.eqb uid "" = false.
Proof. intros H. by apply String.eqb_neq. Qed.

(** What the check returns for a usable user id: the stored row when the
    read succeeds and finds one, the onboarding update otherwise. The world
    is left as it was. *)
Lemma check_user_profile_node_cases S st w uid :
  user_id st = Some uid -> uid <> "" ->
  exists u,
    check_user_profile_node S st w = (Ok u, w) /\
    u_user_id u = Some uid /\
    u_backstory u = None /\ u_error u = None /\
    match store_raises S AtCheck, db w !! uid with
    | None, Some r =>
        u_is_onboarding u = Some false /\
        u_user_profile_data u = Some (SQLiteStore.row_dict uid r) /\
        u_messages u = Some (messages st) /\
        u_final_response_text u = None
    | _, _ =>
        u_is_onboarding u = Some true /\
        u_user_profile_data u = Some (default ∅ (user_profile_data st))
    end.
Proof.
  intros Hid Hne. unfold check_user_profile_node.
  rewrite Hid, (eqb_nonempty uid Hne).
  unfold bind, try_except, store_get_user_profile,
    SQLiteStore.get_user_profile, ret.
  destruct (store_raises S AtCheck) as [e|] eqn:Hraise;
    [|destruct (db w !! uid) as [r|] eqn:Hrow];
    cbn [fmap option_fmap option_map nonempty_dict].
  - eexists. split; [reflexivity|]. unfold start_onboarding.
    destruct (_ && _); cbn; auto.
  - rewrite row_dict_truthy. eexists; (split; [reflexivity|]); cbn; auto 10.
  - eexists. split; [reflexivity|]. unfold start_onboarding.
    destruct (_ && _); cbn; auto.
Qed.

(** C1, as stated, fails in both directions. A stored row that is not a
    complete profile ends onboarding: with only [name] set, the flag is
    false although no complete profile is stored. And a read that raises
    starts onboarding although a complete profile is stored. *)
Lemma check_flag_is_not_completeness :
  let st := new_conversation {| message := "Hi"; cm_user_id := "u1" |} in
  (is_onboarding <$>
     match after_check Examples.services_ok st
             (Examples.with_row "u1" Examples.legacy_row) with
     | Ok st' => Some st' | Raise _ => None end) = Some (Some false) /\
  has_complete_profile (db (Examples.with_row "u1" Examples.legacy_row)) "u1"
  = false /\
  (is_onboarding <$>
     match after_check (Examples.services_store_down AtCheck) st
             (Examples.with_row "u1" Examples.asha_row) with
     | Ok st' => Some st' | Raise _ => None end) = Some (Some true) /\
  has_complete_profile (db (Examples.with_row "u1" Examples.asha_row)) "u1"
  = true.
Proof. vm_compute. repeat split; reflexivity. Qed.

(** C1, amended: for a turn with a non-empty user id, the check returns and
    sets the flag to true exactly when the store holds no row for the user
    or the read raises, and to false exactly when the read finds a row; the
    flag depends on the store and the read only, not on the inbound state;
    and where every stored row is a complete profile and the read does not
    raise, it is true exactly when no complete profile is stored. *)
Theorem check_flag_from_store S st w uid :
  user_id st = Some uid -> uid <> "" ->
  exists st',
    step (check_user_profile_node S) st w = (Ok st', w) /\
    (is_onboarding st' = Some true <->
       store_raises S AtCheck <> None \/ db w !! uid = None) /\
    (is_onboarding st' = Some false <->
       store_raises S AtCheck = None /\ is_Some (db w !! uid)) /\
    (forall st2, user_id st2 = Some uid ->
       exists st2', step (check_user_profile_node S) st2 w = (Ok st2', w) /\
                    is_onboarding st2' = is_onboarding st') /\
    (store_raises S AtCheck = None -> rows_complete (db w) ->
       (is_onboarding st' = Some true <->
          has_complete_profile (db w) uid = false)).
Proof.
  intros Hid Hne.
  destruct (check_user_profile_node_cases S st w uid Hid Hne)
    as (u & Hrun & _ & _ & _ & Hu).
  exists (apply_update st u). unfold step, bind. rewrite Hrun.
  split; [reflexivity|].
  assert (Hflag : is_onboarding (apply_update st u) = u_is_onboarding u).
  { destruct (store_raises S AtCheck), (db w !! uid);
      destruct Hu as (Hf & _); simpl; by rewrite Hf. }
  rewrite Hflag. repeat split.
  - intros Ht. destruct (store_raises S AtCheck); [by left|].
    destruct (db w !! uid); [|by right].
    destruct Hu as (Hf & _). congruence.
  - intros [Hr|Hr].
    + destruct (store_raises S AtCheck); [|done].
      destruct (db w !! uid); by destruct Hu.
    + rewrite Hr in Hu. destruct (store_raises S AtCheck); by destruct Hu.
  - destruct (store_raises S AtCheck); [destruct (db w !! uid)|]; try done;
      destruct Hu as (Hf & _); congruence.
  - destruct (store_raises S AtCheck); [destruct (db w !! uid)|];
      [destruct Hu as (Hf & _); congruence..|].
    destruct (db w !! uid); [done|]. destruct Hu as (Hf & _). congruence.
  - intros (Hr & [r Hrow]). rewrite Hr, Hrow in Hu. by destruct Hu.
  - intros st2 Hid2.
    destruct (check_user_profile_node_cases S st2 w uid Hid2 Hne)
      as (u2 & Hrun2 & _ & _ & _ & Hu2).
    exists (apply_update st2 u2). rewrite Hrun2. split; [reflexivity|].
    destruct (store_raises S AtCheck), (db w !! uid);
      destruct Hu as (Hf & _); destruct Hu2 as (Hf2 & _);
      simpl; by rewrite Hf, Hf2.
  - intros Ht. rewrite H in Hu. unfold has_complete_profile,
      SQLiteStore.get_user_profile.
    destruct (db w !! uid) as [r|]; [|done].
    destruct Hu as (Hf & _). congruence.
  - intros Hc. rewrite H in Hu. unfold has_complete_profile,
      SQLiteStore.get_user_profile in Hc.
    destruct (db w !! uid) as [r|] eqn:Hrow; [|by destruct Hu].
    simpl in Hc. rewrite (H0 uid r Hrow) in Hc. done.
Qed.
(** ** The onboarding step *)

Lemma extract_profile_run S cp um w :
  extract_profile S cp um w
  = (Ok (match extracted_data S with
         | Some e => dict_update cp e
         | None => numeric_fallback cp um
         end), logged w [Invoke ExtractionChain]).
Proof.
  unfold extract_profile, extracted_data, try_except, invoke, bind, emit,
    of_result, ret, raise, logged.
  destruct (llm_gemini S ExtractionChain) as [txt|e]; [|reflexivity].
  destruct (search_json_object txt) as [js|]; [|reflexivity].
  cbn [mbind option_bind]. destruct (json_loads S js); reflexivity.
Qed.

Lemma extraction_block_run S (st : AgentState) w :
  (if String.eqb (last_human_content (messages st)) ""
   then ret (default ∅ (user_profile_data st))
   else extract_profile S (default ∅ (user_profile_data st))
          (last_human_content (messages st))) w
  = (Ok (profile_after_extraction S st), after_extraction st w).
Proof.
  unfold profile_after_extraction, after_extraction.
  destruct (String.eqb _ ""); [reflexivity|apply extract_profile_run].
Qed.

Lemma generate_backstory_run S uid ft w :
  generate_backstory S uid ft w
  = match llm_gemini S BackstoryChain, store_raises S AtSaveBackstory with
    | Ok raw, None =>
        (Ok (Some (compose_backstory (strip raw)), ft +:+ backstory_notice),
         {| db := SQLiteStore.save_backstory (now S) (db w) uid
                    (compose_backstory (strip raw));
            log := log w ++ [Invoke BackstoryChain] |})
    | _, _ => (Ok (None, ft), logged w [Invoke BackstoryChain])
    end.
Proof.
  unfold generate_backstory, try_except, invoke, bind, emit, of_result, ret,
    store_save_backstory, logged.
  destruct (llm_gemini S BackstoryChain) as [raw|e]; [|reflexivity].
  cbn [db log]. destruct (store_raises S AtSaveBackstory); reflexivity.
Qed.

(** The step, when a field is still missing after the extraction. *)
Lemma onboarding_step_asks S st w uid f rest :
  is_onboarding st = Some true -> user_id st = Some uid ->
  missing_fields (profile_after_extraction S st) = f :: rest ->
  onboarding_step_node S st w
  = (Ok (question_update (messages st) (profile_after_extraction S st)
           (question_for f)),
     after_extraction st w).
Proof.
  intros Hon Hid Hmiss. unfold onboarding_step_node.
  rewrite Hon, Hid. cbn [default negb from_option id].
  unfold bind at 1. rewrite extraction_block_run, Hmiss. reflexivity.
Qed.

(** The step, when nothing is missing after the extraction. *)
Lemma onboarding_step_completes S st w uid :
  is_onboarding st = Some true -> user_id st = Some uid ->
  missing_fields (profile_after_extraction S st) = [] ->
  let p := profile_after_extraction S st in
  let w1 := after_extraction st w in
  let db1 := SQLiteStore.save_user_profile (now S) (db w1) uid p in
  onboarding_step_node S st w
  = match store_raises S AtSaveProfile with
    | Some e => (Raise e, w1)
    | None =>
        let existing :=
          match store_raises S AtBackstoryGuard with
          | Some _ => PyNone
          | None => stored_backstory db1 uid
          end in
        if truthy existing then
          (Ok (completion_update (messages st) p (completion_message p) None),
           {| db := db1; log := log w1 |})
        else
          match llm_gemini S BackstoryChain, store_raises S AtSaveBackstory with
          | Ok raw, None =>
              (Ok (completion_update (messages st) p
                     (completion_message p +:+ backstory_notice)
                     (Some (compose_backstory (strip raw)))),
               {| db := SQLiteStore.save_backstory (now S) db1 uid
                          (compose_backstory (strip raw));
                  log := log w1 ++ [Invoke BackstoryChain] |})
          | _, _ =>
              (Ok (completion_update (messages st) p (completion_message p) None),
               {| db := db1; log := log w1 ++ [Invoke BackstoryChain] |})
          end
    end.
Proof.
  intros Hon Hid Hmiss. cbv zeta. unfold onboarding_step_node.
  rewrite Hon, Hid. cbn [default negb from_option id].
  unfold bind at 1. rewrite extraction_block_run, Hmiss.
  unfold bind at 1. unfold store_save_user_profile.
  destruct (store_raises S AtSaveProfile) as [e|]; [reflexivity|].
  unfold bind at 1. unfold try_except at 1. unfold bind at 1.
  unfold store_get_user_profile. cbn [db log].
  destruct (store_raises S AtBackstoryGuard) as [e|]; cbn [ret truthy negb].
  - unfold bind. rewrite generate_backstory_run. cbn [db log].
    destruct (llm_gemini S BackstoryChain) as [raw|e'];
      [destruct (store_raises S AtSaveBackstory)|]; reflexivity.
  - match goal with
    | |- context [dict_get (default ∅ (SQLiteStore.get_user_profile ?d uid)) "backstory"] =>
        change (dict_get (default ∅ (SQLiteStore.get_user_profile d uid)) "backstory")
          with (stored_backstory d uid);
        destruct (truthy (stored_backstory d uid)); cbn [negb]
    end.
    + reflexivity.
    + unfold bind. rewrite generate_backstory_run. cbn [db log].
      destruct (llm_gemini S BackstoryChain) as [raw|e'];
        [destruct (store_raises S AtSaveBackstory)|]; reflexivity.
Qed.

Lemma after_extraction_db st w : db (after_extraction st w) = db w.
Proof. unfold after_extraction. by destruct (String.eqb _ _). Qed.

Lemma after_extraction_log st w :
  exists evs, log (after_extraction st w) = log w ++ evs /\
              (Invoke BackstoryChain ∉ evs).
Proof.
  unfold after_extraction. destruct (String.eqb _ _).
  - exists []. split; [by rewrite app_nil_r|]. apply not_elem_of_nil.
  - exists [Invoke ExtractionChain]. split; [done|].
    rewrite list_elem_of_singleton. discriminate.
Qed.

Lemma onboarding_step_not_onboarding S st w :
  default false (is_onboarding st) = false ->
  onboarding_step_node S st w
  = (Ok {| u_messages := None; u_user_id := None;
           u_is_onboarding := Some false;
           u_user_profile_data := None; u_intent := None;
           u_tool_output := None; u_final_response_text := None;
           u_backstory := None; u_error := None |}, w).
Proof. intros H. unfold onboarding_step_node. by rewrite H. Qed.

(** One step for a user whose backstory is stored, when the guard's read
    does not raise: the backstory chain is not invoked and the stored
    backstory is the same afterwards. *)
Lemma onboarding_step_keeps_backstory S st w uid :
  user_id st = Some uid ->
  store_raises S AtBackstoryGuard = None ->
  truthy (stored_backstory (db w) uid) = true ->
  exists evs,
    (log (snd (onboarding_step_node S st w)) = log w ++ evs) /\
    (Invoke BackstoryChain ∉ evs) /\
    stored_backstory (db (snd (onboarding_step_node S st w))) uid
    = stored_backstory (db w) uid.
Proof.
  intros Hid Hguard Hstored.
  destruct (after_extraction_log st w) as (evs & Hlog & Hevs).
  destruct (is_onboarding st) as [[|]|] eqn:Hon.
  - destruct (missing_fields (profile_after_extraction S st)) as [|f rest] eqn:Hmiss.
    + rewrite (onboarding_step_completes S st w uid Hon Hid Hmiss). cbv zeta.
      destruct (store_raises S AtSaveProfile) as [e|].
      * exists evs. cbn [snd]. by rewrite after_extraction_db.
      * rewrite Hguard, save_user_profile_stored_backstory,
          after_extraction_db, Hstored.
        exists evs. cbn [snd db log].
        by rewrite save_user_profile_stored_backstory.
    + rewrite (onboarding_step_asks S st w uid f rest Hon Hid Hmiss).
      exists evs. cbn [snd]. by rewrite after_extraction_db.
  - rewrite onboarding_step_not_onboarding by (by rewrite Hon).
    exists []. cbn [snd]. split; [by rewrite app_nil_r|].
    split; [apply not_elem_of_nil|done].
  - rewrite onboarding_step_not_onboarding by (by rewrite Hon).
    exists []. cbn [snd]. split; [by rewrite app_nil_r|].
    split; [apply not_elem_of_nil|done].
Qed.

(** C2, as stated, fails: the user has a stored backstory, the read that
    guards the generation raises, and the step invokes the backstory chain
    and overwrites the stored text. *)
Lemma guard_read_failure_regenerates :
  let w := Examples.with_row "u1" Examples.asha_row in
  let w' := snd (onboarding_step_node
                   (Examples.services_store_down AtBackstoryGuard)
                   (Examples.completion_state "u1") w) in
  stored_backstory (db w) "u1" = PyStr "Three generations at the wheel." /\
  new_events w w' = [Invoke BackstoryChain] /\
  stored_backstory (db w') "u1" = PyStr "Clay has shaped my days.".
Proof. vm_compute. repeat split; reflexivity. Qed.

(** One step, for a state with a user id: the backstory chain is invoked
    exactly when the step is completing a profile, the save has not
    raised, and either the guard's read raises or the backstory it reads
    is [NULL] or empty. *)
Lemma onboarding_step_invokes_backstory_chain S st w uid :
  user_id st = Some uid ->
  Invoke BackstoryChain ∈ new_events w (snd (onboarding_step_node S st w)) <->
  is_onboarding st = Some true /\
  missing_fields (profile_after_extraction S st) = [] /\
  store_raises S AtSaveProfile = None /\
  (store_raises S AtBackstoryGuard <> None \/
   truthy (stored_backstory (db w) uid) = false).
Proof.
  intros Hid.
  assert (Hnil : new_events w w = []).
  { unfold new_events. by rewrite drop_all. }
  destruct (after_extraction_log st w) as (evs & Hlog & Hevs).
  assert (Hext : new_events w (after_extraction st w) = evs).
  { unfold new_events. by rewrite Hlog, drop_app_length. }
  assert (Hgen : forall db1,
            new_events w {| db := db1;
                            log := log (after_extraction st w)
                                   ++ [Invoke BackstoryChain] |}
            = evs ++ [Invoke BackstoryChain]).
  { intros db1. unfold new_events. cbn [log].
    by rewrite Hlog, <- app_assoc, drop_app_length. }
  assert (Hkeep : forall db1,
            new_events w {| db := db1; log := log (after_extraction st w) |}
            = evs).
  { intros db1. unfold new_events. cbn [log]. by rewrite Hlog, drop_app_length. }
  destruct (is_onboarding st) as [[|]|] eqn:Hon.
  2,3: rewrite onboarding_step_not_onboarding by (by rewrite Hon);
       cbn [snd]; rewrite Hnil; split;
       [by intros ?%elem_of_nil | by intros ([=] & _)].
  destruct (missing_fields (profile_after_extraction S st)) as [|f rest] eqn:Hmiss.
  2: { rewrite (onboarding_step_asks S st w uid f rest Hon Hid Hmiss).
       cbn [snd]. rewrite Hext. split; [done | by intros (_ & [=] & _)]. }
  rewrite (onboarding_step_completes S st w uid Hon Hid Hmiss). cbv zeta.
  destruct (store_raises S AtSaveProfile) as [e|].
  { cbn [snd]. rewrite Hext. split; [done | by intros (_ & _ & [=] & _)]. }
  rewrite save_user_profile_stored_backstory, after_extraction_db.
  destruct (store_raises S AtBackstoryGuard) as [e|] eqn:Hguard.
  - cbn [truthy].
    destruct (llm_gemini S BackstoryChain);
      [destruct (store_raises S AtSaveBackstory)|];
      cbn [snd]; rewrite Hgen;
      (split; [intros _; repeat split; by left
              | intros _; apply elem_of_app; right; apply list_elem_of_here]).
  - destruct (truthy (stored_backstory (db w) uid)) eqn:Hstored.
    + cbn [snd]. rewrite Hkeep.
      split; [done | by intros (_ & _ & _ & [? | [=]])].
    + destruct (llm_gemini S BackstoryChain);
        [destruct (store_raises S AtSaveBackstory)|];
        cbn [snd]; rewrite Hgen;
        (split; [intros _; repeat split; by right
                | intros _; apply elem_of_app; right; apply list_elem_of_here]).
Qed.

(** A step that does not invoke the backstory chain leaves the stored
    backstory of its user as it is. *)
Lemma onboarding_step_persists_only_generated S st w uid :
  user_id st = Some uid ->
  (Invoke BackstoryChain ∉ new_events w (snd (onboarding_step_node S st w))) ->
  stored_backstory (db (snd (onboarding_step_node S st w))) uid
  = stored_backstory (db w) uid.
Proof.
  intros Hid.
  destruct (after_extraction_log st w) as (evs & Hlog & Hevs).
  destruct (is_onboarding st) as [[|]|] eqn:Hon.
  2,3: by rewrite onboarding_step_not_onboarding by (by rewrite Hon).
  destruct (missing_fields (profile_after_extraction S st)) as [|f rest] eqn:Hmiss.
  2: { rewrite (onboarding_step_asks S st w uid f rest Hon Hid Hmiss).
       cbn [snd]. by rewrite after_extraction_db. }
  rewrite (onboarding_step_completes S st w uid Hon Hid Hmiss). cbv zeta.
  rewrite after_extraction_db.
  destruct (store_raises S AtSaveProfile).
  { cbn [snd]. by rewrite after_extraction_db. }
  destruct (truthy _).
  { intros _. cbn [snd db]. apply save_user_profile_stored_backstory. }
  intros Hnot. exfalso. apply Hnot.
  destruct (llm_gemini S BackstoryChain);
    [destruct (store_raises S AtSaveBackstory)|];
    cbn [snd]; unfold new_events; cbn [log];
    rewrite Hlog, <- app_assoc, drop_app_length;
    apply elem_of_app; right; apply list_elem_of_here.
Qed.

(** A stored backstory that is empty counts as none: the step generates
    again and overwrites it, with no read raising. *)
Lemma empty_backstory_is_regenerated :
  let w := Examples.with_row "u1"
             (SQLiteStore.set_backstory Examples.clock "" Examples.asha_row) in
  let w' := snd (onboarding_step_node Examples.services_ok
                   (Examples.completion_state "u1") w) in
  stored_backstory (db w) "u1" = PyStr "" /\
  new_events w w' = [Invoke BackstoryChain] /\
  stored_backstory (db w') "u1" = PyStr "Clay has shaped my days.".
Proof. vm_compute. repeat split; reflexivity. Qed.

(** C2, amended: a step invokes the backstory chain exactly when it
    completes a profile, the profile save has not raised, and either the
    read that guards the generation raises (the step then takes the
    backstory as absent) or no non-empty backstory is stored for the user
    ([NULL] and the empty text count as none, the guard being [if not
    existing_backstory]); a step that does not invoke the chain leaves the
    stored backstory as it is. So over any sequence of onboarding steps for
    a user who has a non-empty stored backstory, in which that read does
    not raise, the backstory chain is never invoked and the stored
    backstory stays what it was. *)
Theorem backstory_generated_at_most_once uid :
  (forall S st w, user_id st = Some uid ->
     Invoke BackstoryChain ∈ new_events w (snd (onboarding_step_node S st w)) <->
     is_onboarding st = Some true /\
     missing_fields (profile_after_extraction S st) = [] /\
     store_raises S AtSaveProfile = None /\
     (store_raises S AtBackstoryGuard <> None \/
      truthy (stored_backstory (db w) uid) = false)) /\
  (forall S st w, user_id st = Some uid ->
     (Invoke BackstoryChain ∉ new_events w (snd (onboarding_step_node S st w))) ->
     stored_backstory (db (snd (onboarding_step_node S st w))) uid
     = stored_backstory (db w) uid) /\
  (forall (turns : list (Services * AgentState)) w,
     Forall (fun turn => user_id (snd turn) = Some uid /\
                         store_raises (fst turn) AtBackstoryGuard = None) turns ->
     truthy (stored_backstory (db w) uid) = true ->
     (Invoke BackstoryChain ∉ new_events w (run_onboarding_steps turns w)) /\
     stored_backstory (db (run_onboarding_steps turns w)) uid
     = stored_backstory (db w) uid).
Proof.
  split; [intros S st w; apply onboarding_step_invokes_backstory_chain|].
  split; [intros S st w; apply onboarding_step_persists_only_generated|].
  intros turns w Hturns Hstored.
  cut (exists evs,
         log (run_onboarding_steps turns w) = log w ++ evs /\
         (Invoke BackstoryChain ∉ evs) /\
         stored_backstory (db (run_onboarding_steps turns w)) uid
         = stored_backstory (db w) uid).
  { intros (evs & Hlog & Hevs & Hb). split; [|done].
    unfold new_events. by rewrite Hlog, drop_app_length. }
  revert w Hstored.
  induction Hturns as [|[S st] turns [Hid Hguard] _ IH]; intros w Hstored.
  - exists []. cbn. split; [by rewrite app_nil_r|].
    split; [apply not_elem_of_nil|done].
  - cbn [run_onboarding_steps fst snd] in *.
    destruct (onboarding_step_keeps_backstory S st w uid Hid Hguard Hstored)
      as (evs1 & Hlog1 & Hevs1 & Hb1).
    destruct (IH (snd (onboarding_step_node S st w))) as (evs2 & Hlog2 & Hevs2 & Hb2).
    { by rewrite Hb1. }
    exists (evs1 ++ evs2). rewrite Hlog2, Hlog1, Hb2, Hb1.
    split; [by rewrite app_assoc|]. split; [|done].
    rewrite elem_of_app. tauto.
Qed.

Lemma backstory_generated_at_most_once_witness :
  let turns := [ (Examples.services_ok, Examples.completion_state "u1");
                 (Examples.services_ok, Examples.completion_state "u1") ] in
  let w := Examples.with_row "u1" Examples.asha_row in
  (Invoke BackstoryChain ∉ new_events w (run_onboarding_steps turns w)) /\
  stored_backstory (db (run_onboarding_steps turns w)) "u1"
  = PyStr "Three generations at the wheel.".
Proof.
  intros turns w.
  destruct (backstory_generated_at_most_once "u1") as (_ & _ & Hsteps).
  destruct (Hsteps turns w) as (Hlog & Hb).
  - repeat constructor.
  - reflexivity.
  - split; [exact Hlog|]. rewrite Hb. reflexivity.
Defined.

Lemma filter_head_split {A} (P : A -> Prop) `{!forall x, Decision (P x)}
    (l : list A) x rest :
  filter P l = x :: rest ->
  exists pre post, l = pre ++ x :: post /\ Forall (fun y => ~ P y) pre /\ P x.
Proof.
  induction l as [|a l IH]; [done|].
  cbn [filter list_filter]. destruct (decide (P a)) as [Ha|Ha].
  - intros [= -> <-]. by exists [], l.
  - intros Hf. destruct (IH Hf) as (pre & post & -> & Hpre & Hx).
    exists (a :: pre), post. split; [done|]. split; [by constructor|done].
Qed.

(** The head of [missing_fields] is the first required field, in the fixed
    order, that the profile lacks or holds empty. *)
Lemma missing_fields_head (p : pydict) f rest :
  missing_fields p = f :: rest ->
  exists pre post,
    required_fields = pre ++ f :: post /\
    Forall (fun g => field_missing p g = false) pre /\
    field_missing p f = true.
Proof.
  intros H. apply filter_head_split in H as (pre & post & Hreq & Hpre & Hf).
  exists pre, post. split; [done|]. split; [|done].
  eapply Forall_impl; [exact Hpre|]. intros g Hg. cbn beta in *.
  destruct (field_missing p g); [by destruct Hg|done].
Qed.

Lemma missing_fields_required (p : pydict) f :
  f ∈ missing_fields p -> f ∈ required_fields.
Proof. unfold missing_fields. rewrite list_elem_of_filter. tauto. Qed.

(** Every required field has its own question: the generic one is never
    used for them. *)
Lemma question_for_required f :
  f ∈ required_fields -> field_prompts !! f = Some (question_for f).
Proof.
  unfold required_fields. intros Hf.
  repeat (apply elem_of_cons in Hf as [->|Hf]; [reflexivity|]).
  by apply elem_of_nil in Hf.
Qed.

(** C4: when a required field is still missing or empty once the extraction
    is over, the step returns, with the question of the first such field in
    the fixed order as its response; that question is the field's entry in
    the lookup (the generic text serves only fields the lookup lacks); and
    any other step that ends with the same profile, whatever its messages,
    services or store, gives the same question. *)
Theorem next_question_is_first_missing S st w uid f rest :
  is_onboarding st = Some true -> user_id st = Some uid ->
  missing_fields (profile_after_extraction S st) = f :: rest ->
  let p := profile_after_extraction S st in
  (exists u w',
     onboarding_step_node S st w = (Ok u, w') /\
     u_final_response_text u = Some (question_for f) /\
     u_messages u = Some (messages st ++ [AIMessage (question_for f)]) /\
     u_is_onboarding u = Some true /\
     u_user_profile_data u = Some p) /\
  (exists pre post,
     required_fields = pre ++ f :: post /\
     Forall (fun g => field_missing p g = false) pre /\
     field_missing p f = true) /\
  field_prompts !! f = Some (question_for f) /\
  (forall g, field_prompts !! g = None ->
     question_for g = "Please provide your " +:+ g) /\
  (forall S2 st2 w2 uid2,
     is_onboarding st2 = Some true -> user_id st2 = Some uid2 ->
     profile_after_extraction S2 st2 = p ->
     exists u2 w2',
       onboarding_step_node S2 st2 w2 = (Ok u2, w2') /\
       u_final_response_text u2 = Some (question_for f)).
Proof.
  intros Hon Hid Hmiss p. repeat split.
  - eexists _, _. rewrite (onboarding_step_asks S st w uid f rest Hon Hid Hmiss).
    split; [reflexivity|]. by cbn.
  - by apply missing_fields_head in Hmiss.
  - apply question_for_required, (missing_fields_required p).
    fold p in Hmiss. rewrite Hmiss. apply list_elem_of_here.
  - intros g Hg. unfold question_for. by rewrite Hg.
  - intros S2 st2 w2 uid2 Hon2 Hid2 Hp.
    assert (Hmiss2 : missing_fields (profile_after_extraction S2 st2) = f :: rest)
      by (by rewrite Hp).
    eexists _, _.
    rewrite (onboarding_step_asks S2 st2 w2 uid2 f rest Hon2 Hid2 Hmiss2).
    split; [reflexivity|]. by cbn.
Qed.

Lemma next_question_is_first_missing_witness :
  let st := Examples.onboarding_state "u1"
              (delete "years_experience" Examples.asha_profile)
              [HumanMessage "hello"] in
  exists u w',
    onboarding_step_node Examples.services_ok st Examples.fresh = (Ok u, w') /\
    u_final_response_text u
    = Some "How many years have you been practicing this craft?".
Proof.
  intros st.
  destruct (next_question_is_first_missing Examples.services_ok st
              Examples.fresh "u1" "years_experience" [])
    as ((u & w' & Hrun & Htext & _) & _); [reflexivity..|].
  exists u, w'. split; [exact Hrun | exact Htext].
Defined.

(** ** The numeric fallback *)

Lemma append_empty_r (d : string) : d = d +:+ "".
Proof.
  induction d as [|a d IH]; [done|].
  change (String a d = String a (d +:+ "")). by f_equal.
Qed.

(** Where every value the profile holds is non-empty, the fields absent
    from it are the fields still missing: the field the fallback looks at
    is the field the step asks for. *)
Lemma missing_fields_for_prompt_agree (cp : pydict) :
  (forall f v, cp !! f = Some v -> truthy v = true) ->
  missing_fields_for_prompt cp = missing_fields cp.
Proof.
  intros Hheld. unfold missing_fields_for_prompt, missing_fields.
  apply list_filter_iff. intros f. unfold field_missing.
  destruct (cp !! f) as [v|] eqn:Hf; [|done].
  rewrite (Hheld f v Hf). cbn. split; discriminate.
Qed.

(** C5 fails on the code. In the first turn the extractor returns an
    empty [name] with three other fields, and the step asks for the name.
    In the second turn the user answers that question and the extraction
    chain raises: the name is the field in question (it was asked, and it
    is asked again), but the fallback looks at the first field absent from
    the profile ([missing_fields_for_prompt], which skips a field held
    with an empty value) where the step asks for the first field absent or
    empty ([missing_fields]), and takes the 54 of the answer as the years
    of experience. *)
Theorem fallback_fires_while_name_is_asked :
  let first := {| message := "I make clay pottery in Rajasthan";
                  cm_user_id := "u1" |} in
  let second := {| message := "Studio 54"; cm_user_id := "u1" |} in
  let turn1 := chat_endpoint services_empty_name None first Examples.fresh in
  let S := Examples.services_chain_down ExtractionChain in
  extracted_data S = None /\
  head (missing_fields empty_name_profile) = Some "name" /\
  head (missing_fields_for_prompt empty_name_profile) = Some "years_experience" /\
  exists resp1 st1,
    fst turn1 = Http200 (resp1, st1) /\
    response resp1 = "What should I call your brand or what's your name?" /\
    user_profile_data st1 = Some empty_name_profile /\
    (exists u w',
       onboarding_step_node S (chat_input (Some st1) second) (snd turn1)
       = (Ok u, w') /\
       u_user_profile_data u
       = Some (<["years_experience" := PyStr "54"]> empty_name_profile) /\
       u_final_response_text u
       = Some "What should I call your brand or what's your name?") /\
    exists resp2 st2,
      fst (chat_endpoint S (Some st1) second (snd turn1))
      = Http200 (resp2, st2) /\
      response resp2 = "What should I call your brand or what's your name?" /\
      cr_is_onboarding resp2 = true /\
      user_profile_data st2
      = Some (<["years_experience" := PyStr "54"]> empty_name_profile) /\
      cr_user_profile resp2 !! "years_experience" = Some "54" /\
      cr_user_profile resp2 !! "name" = Some "".
Proof.
  cbv zeta. split; [reflexivity|]. split; [reflexivity|].
  split; [reflexivity|].
  eexists _, _. split; [vm_compute; reflexivity|].
  split; [vm_compute; reflexivity|]. split; [vm_compute; reflexivity|].
  split.
  - eexists _, _. split; [vm_compute; reflexivity|].
    split; vm_compute; reflexivity.
  - eexists _, _. split; [vm_compute; reflexivity|].
    repeat split; vm_compute; reflexivity.
Qed.

Lemma new_events_app w w' evs :
  log w' = log w ++ evs -> new_events w w' = evs.
Proof. intros H. unfold new_events. by rewrite H, drop_app_length. Qed.

Lemma missing_fields_nil_complete (p : pydict) :
  missing_fields p = [] -> profile_complete p = true.
Proof.
  unfold missing_fields, profile_complete. intros H.
  apply forallb_forall. intros f Hf. apply list_elem_of_In in Hf.
  destruct (field_missing p f) eqn:Hm; [|done].
  assert (Hin : f ∈ filter (fun f => field_missing p f = true) required_fields)
    by (apply list_elem_of_filter; done).
  rewrite H in Hin. by apply elem_of_nil in Hin.
Qed.

Lemma onboarding_step_no_user S st w :
  is_onboarding st = Some true -> user_id st = None ->
  onboarding_step_node S st w = (Raise (Exception "'user_id'"), w).
Proof. intros Hon Hid. unfold onboarding_step_node. by rewrite Hon, Hid. Qed.

(** The step, when the backstory chain is invoked and raises: it returns
    the completion update with no backstory, and the profile is in the
    store. *)
Lemma onboarding_step_backstory_failure S st w e :
  llm_gemini S BackstoryChain = Raise e ->
  Invoke BackstoryChain ∈ new_events w (snd (onboarding_step_node S st w)) ->
  exists uid p w',
    user_id st = Some uid /\
    is_onboarding st = Some true /\
    p = profile_after_extraction S st /\
    missing_fields p = [] /\
    onboarding_step_node S st w
    = (Ok (completion_update (messages st) p (completion_message p) None), w') /\
    db w' = SQLiteStore.save_user_profile (now S) (db w) uid p.
Proof.
  intros Hllm Hinv.
  destruct (after_extraction_log st w) as (evs & Hlog & Hevs).
  destruct (is_onboarding st) as [[|]|] eqn:Hon.
  2,3: rewrite onboarding_step_not_onboarding in Hinv by (by rewrite Hon);
       cbn [snd] in Hinv;
       rewrite (new_events_app w w []) in Hinv by (by rewrite app_nil_r);
       by apply elem_of_nil in Hinv.
  destruct (user_id st) as [uid|] eqn:Hid.
  2: { rewrite (onboarding_step_no_user S st w Hon Hid) in Hinv.
       cbn [snd] in Hinv.
       rewrite (new_events_app w w []) in Hinv by (by rewrite app_nil_r).
       by apply elem_of_nil in Hinv. }
  destruct (missing_fields (profile_after_extraction S st)) as [|f rest] eqn:Hmiss.
  2: { rewrite (onboarding_step_asks S st w uid f rest Hon Hid Hmiss) in Hinv.
       cbn [snd] in Hinv. by rewrite (new_events_app _ _ evs Hlog) in Hinv. }
  revert Hinv. rewrite (onboarding_step_completes S st w uid Hon Hid Hmiss).
  cbv zeta. rewrite Hllm.
  destruct (store_raises S AtSaveProfile) as [e1|].
  { cbn [snd]. by rewrite (new_events_app _ _ evs Hlog). }
  destruct (truthy _).
  { cbn [snd]. rewrite (new_events_app _ _ evs); [done|]. by cbn. }
  intros _. eexists uid, _, _. repeat split; try done.
  cbn [db]. by rewrite after_extraction_db.
Qed.

(** ** The nodes after onboarding leave the store and the backstory alone *)

Lemma quiet_ret {A} (a : A) : quiet (ret a).
Proof.
  intros w. split; [done|]. exists []. split; [by rewrite app_nil_r|].
  apply not_elem_of_nil.
Qed.

Lemma quiet_raise {A} (e : exn) : quiet (@raise A e).
Proof.
  intros w. split; [done|]. exists []. split; [by rewrite app_nil_r|].
  apply not_elem_of_nil.
Qed.

Lemma quiet_of_result {A} (r : result A) : quiet (of_result r).
Proof.
  intros w. split; [done|]. exists []. split; [by rewrite app_nil_r|].
  apply not_elem_of_nil.
Qed.

Lemma quiet_bind {A B} (m : M A) (k : A -> M B) :
  quiet m -> (forall a, quiet (k a)) -> quiet (bind m k).
Proof.
  intros Hm Hk w. unfold bind.
  destruct (Hm w) as (Hdb & evs & Hlog & Hevs).
  destruct (m w) as [[a|e] w1]; cbn [snd] in *.
  - destruct (Hk a w1) as (Hdb' & evs' & Hlog' & Hevs').
    split; [congruence|]. exists (evs ++ evs').
    split; [by rewrite Hlog', Hlog, app_assoc|].
    rewrite elem_of_app. tauto.
  - split; [done|]. by exists evs.
Qed.

Lemma quiet_try_except {A} (m : M A) (h : exn -> M A) :
  quiet m -> (forall e, quiet (h e)) -> quiet (try_except m h).
Proof.
  intros Hm Hh w. unfold try_except.
  destruct (Hm w) as (Hdb & evs & Hlog & Hevs).
  destruct (m w) as [[a|e] w1]; cbn [snd] in *.
  - split; [done|]. by exists evs.
  - destruct (Hh e w1) as (Hdb' & evs' & Hlog' & Hevs').
    split; [congruence|]. exists (evs ++ evs').
    split; [by rewrite Hlog', Hlog, app_assoc|].
    rewrite elem_of_app. tauto.
Qed.

Lemma quiet_emit (e : event) : e <> Invoke BackstoryChain -> quiet (emit e).
Proof.
  intros He w. split; [done|]. exists [e]. split; [done|].
  rewrite list_elem_of_singleton. congruence.
Qed.

Lemma quiet_invoke S (c : chain) : c <> BackstoryChain -> quiet (invoke S c).
Proof.
  intros Hc. apply quiet_bind; [|intros; apply quiet_of_result].
  apply quiet_emit. congruence.
Qed.

Lemma quiet_search_invoke S : quiet (search_invoke S).
Proof.
  apply quiet_bind; [|intros; apply quiet_of_result].
  by apply quiet_emit.
Qed.

Lemma quiet_store_get_user_profile S site uid :
  quiet (store_get_user_profile S site uid).
Proof.
  intros w. unfold store_get_user_profile.
  destruct (store_raises S site); (split; [done|]); exists [];
    (split; [by rewrite app_nil_r|]); apply not_elem_of_nil.
Qed.

Lemma quiet_get_profile_safely S site uid :
  quiet (get_profile_safely S site uid).
Proof.
  apply quiet_try_except; [|intros; apply quiet_ret].
  apply quiet_bind; [apply quiet_store_get_user_profile|].
  intros; apply quiet_ret.
Qed.

Lemma quiet_state_user_id st : quiet (state_user_id st).
Proof. unfold state_user_id. destruct (user_id st); [apply quiet_ret|apply quiet_raise]. Qed.

Lemma quiet_last_message_content st : quiet (last_message_content st).
Proof.
  unfold last_message_content.
  destruct (last (messages st)); [apply quiet_ret|apply quiet_raise].
Qed.

Lemma quiet_step (f : AgentState -> M Update) st :
  quiet (f st) -> quiet (step f st).
Proof. intros Hf. apply quiet_bind; [done|]. intros; apply quiet_ret. Qed.

Lemma quiet_supervisor_agent_node S st : quiet (supervisor_agent_node S st).
Proof.
  unfold supervisor_agent_node.
  apply quiet_bind; [apply quiet_state_user_id|intros uid].
  apply quiet_bind; [apply quiet_get_profile_safely|intros user_profile].
  apply quiet_bind; [apply quiet_last_message_content|intros query].
  apply quiet_bind; [by apply quiet_invoke|intros raw]. apply quiet_ret.
Qed.

Lemma quiet_welfare_search_node S st : quiet (welfare_search_node S st).
Proof.
  unfold welfare_search_node.
  apply quiet_bind; [apply quiet_last_message_content|intros query].
  apply quiet_bind; [apply quiet_state_user_id|intros uid].
  apply quiet_bind; [apply quiet_get_profile_safely|intros user_profile].
  apply quiet_try_except; [|intros; apply quiet_ret].
  apply quiet_bind; [apply quiet_search_invoke|intros results].
  apply quiet_bind; [by apply quiet_invoke|intros; apply quiet_ret].
Qed.

Lemma quiet_general_query_node S st : quiet (general_query_node S st).
Proof.
  unfold general_query_node.
  apply quiet_bind; [apply quiet_state_user_id|intros uid].
  apply quiet_bind; [apply quiet_get_profile_safely|intros user_profile].
  apply quiet_bind; [apply quiet_last_message_content|intros question].
  apply quiet_bind; [by apply quiet_invoke|intros; apply quiet_ret].
Qed.

Lemma quiet_final_response_node S st : quiet (final_response_node S st).
Proof.
  unfold final_response_node.
  apply quiet_bind; [|intros; apply quiet_ret].
  destruct (contains _ _); [apply quiet_ret|by apply quiet_invoke].
Qed.

Lemma quiet_route_after_supervisor st : quiet (route_after_supervisor st).
Proof.
  unfold route_after_supervisor.
  repeat (destruct (String.eqb _ _); [apply quiet_ret|]). apply quiet_raise.
Qed.

(** The branch of the graph taken when onboarding is over. *)
Lemma quiet_supervisor_branch S st : quiet (supervisor_branch S st).
Proof.
  unfold supervisor_branch.
  apply quiet_bind; [apply quiet_step, quiet_supervisor_agent_node|intros st1].
  apply quiet_bind; [apply quiet_route_after_supervisor|intros n].
  apply quiet_bind; [|intros; apply quiet_step, quiet_final_response_node].
  destruct n; apply quiet_step;
    first [apply quiet_welfare_search_node | apply quiet_general_query_node].
Qed.

(** The check never raises and leaves the world as it was. *)
Lemma check_user_profile_node_returns S st w :
  exists u, check_user_profile_node S st w = (Ok u, w).
Proof.
  unfold check_user_profile_node.
  destruct (user_id st) as [uid|]; [|by eexists].
  destruct (String.eqb uid ""); [by eexists|].
  unfold bind, try_except, store_get_user_profile, ret.
  destruct (store_raises S AtCheck);
    [|destruct (nonempty_dict _); [by eexists|]];
    cbn [nonempty_dict]; by eexists.
Qed.

(** ** A whole turn *)

(** The graph: the check runs first and returns; its flag picks the
    branch. *)
Lemma run_workflow_branch S input w :
  let w0 := logged w [WorkflowInvoke] in
  exists u,
    check_user_profile_node S input w0 = (Ok u, w0) /\
    run_workflow S input w
    = match route_after_checking_profile (apply_update input u) with
      | NOnboardingStep =>
          step (onboarding_step_node S) (apply_update input u) w0
      | _ => supervisor_branch S (apply_update input u) w0
      end.
Proof.
  intros w0. destruct (check_user_profile_node_returns S input w0) as (u & Hu).
  exists u. split; [done|].
  unfold run_workflow. unfold bind at 1. unfold emit. fold (logged w [WorkflowInvoke]).
  fold w0. unfold bind at 1. unfold step at 1. unfold bind at 1. rewrite Hu.
  unfold ret at 1. cbv beta iota.
  by destruct (route_after_checking_profile (apply_update input u)).
Qed.

Lemma last_ai_content_snoc msgs t :
  last_ai_content (msgs ++ [AIMessage t]) = t.
Proof. unfold last_ai_content. by rewrite reverse_app. Qed.

Lemma complete_dict_truthy (p : pydict) :
  missing_fields p = [] -> dict_truthy p = true.
Proof.
  intros H. apply missing_fields_nil_complete in H.
  unfold profile_complete, required_fields in H. cbn [forallb] in H.
  apply andb_prop in H as [H _]. unfold field_missing in H.
  unfold dict_truthy. rewrite bool_decide_eq_false_2; [done|].
  intros ->. by rewrite lookup_empty in H.
Qed.

Lemma onboarding_step_extends S st w :
  exists evs, log (snd (onboarding_step_node S st w)) = log w ++ evs.
Proof.
  destruct (after_extraction_log st w) as (evs & Hlog & _).
  destruct (is_onboarding st) as [[|]|] eqn:Hon.
  2,3: rewrite onboarding_step_not_onboarding by (by rewrite Hon);
       exists []; by rewrite app_nil_r.
  destruct (user_id st) as [uid|] eqn:Hid.
  2: { rewrite (onboarding_step_no_user S st w Hon Hid).
       exists []; by rewrite app_nil_r. }
  destruct (missing_fields (profile_after_extraction S st)) as [|f rest] eqn:Hmiss.
  2: { rewrite (onboarding_step_asks S st w uid f rest Hon Hid Hmiss). by exists evs. }
  rewrite (onboarding_step_completes S st w uid Hon Hid Hmiss). cbv zeta.
  destruct (store_raises S AtSaveProfile); [by exists evs|].
  destruct (truthy _); [by exists evs|].
  destruct (llm_gemini S BackstoryChain);
    [destruct (store_raises S AtSaveBackstory)|];
    exists (evs ++ [Invoke BackstoryChain]); cbn [snd log];
    by rewrite Hlog, app_assoc.
Qed.

(** Building the response never raises and leaves the world as it was. *)
Lemma chat_response_returns S chat_message rs w :
  exists resp,
    chat_response S chat_message rs w = (Ok resp, w) /\
    response resp
    = (if String.eqb (last_ai_content (messages rs)) ""
       then "I'm sorry, I couldn't process that request."
       else last_ai_content (messages rs)) /\
    cr_is_onboarding resp = default false (is_onboarding rs) /\
    cr_backstory resp = backstory rs /\
    (dict_truthy (default ∅ (user_profile_data rs)) = true ->
     cr_user_profile resp
     = coerce_profile_to_strings (default ∅ (user_profile_data rs))).
Proof.
  unfold chat_response, bind, try_except, store_get_user_profile, ret.
  destruct (dict_truthy _).
  - eexists. split; [reflexivity|]. by cbn.
  - destruct (store_raises S AtEndpoint);
      eexists; (split; [reflexivity|]); by cbn.
Qed.

Lemma chat_endpoint_ok S checkpoint chat_message w rs w' :
  run_workflow S (chat_input checkpoint chat_message) w = (Ok rs, w') ->
  exists resp,
    chat_endpoint S checkpoint chat_message w = (Http200 (resp, rs), w') /\
    chat_response S chat_message rs w' = (Ok resp, w').
Proof.
  intros Hrun. unfold chat_endpoint, chat_endpoint_body, bind. rewrite Hrun.
  destruct (chat_response_returns S chat_message rs w') as (resp & Hresp & _).
  exists resp. by rewrite Hresp.
Qed.

Lemma chat_endpoint_raise S checkpoint chat_message w e w' :
  run_workflow S (chat_input checkpoint chat_message) w = (Raise e, w') ->
  chat_endpoint S checkpoint chat_message w
  = (HTTPException 500 ("Internal server error: " +:+ exn_str e), w').
Proof.
  intros Hrun. unfold chat_endpoint, chat_endpoint_body, bind. by rewrite Hrun.
Qed.

Lemma chat_endpoint_world S checkpoint chat_message w :
  snd (chat_endpoint S checkpoint chat_message w)
  = snd (run_workflow S (chat_input checkpoint chat_message) w).
Proof.
  destruct (run_workflow S (chat_input checkpoint chat_message) w)
    as [[rs|e] w'] eqn:Hrun.
  - destruct (chat_endpoint_ok _ _ _ _ _ _ Hrun) as (resp & -> & _). done.
  - by rewrite (chat_endpoint_raise _ _ _ _ _ _ Hrun).
Qed.

(** C6: in a turn of the [/chat] endpoint in which the backstory chain is
    invoked and raises, the endpoint answers normally: the response is the
    completion message for the completed profile, the turn is no longer
    onboarding, the backstory is [None], and that profile is in the store
    under the user's id. *)
Theorem backstory_failure_does_not_fail_turn S checkpoint chat_message w e :
  llm_gemini S BackstoryChain = Raise e ->
  Invoke BackstoryChain
    ∈ new_events w (snd (chat_endpoint S checkpoint chat_message w)) ->
  exists resp st' uid (p : pydict),
    fst (chat_endpoint S checkpoint chat_message w) = Http200 (resp, st') /\
    response resp = completion_message p /\
    cr_is_onboarding resp = false /\
    cr_backstory resp = None /\
    cr_user_profile resp = coerce_profile_to_strings p /\
    final_response_text st' = Some (completion_message p) /\
    backstory st' = None /\
    user_id st' = Some uid /\
    user_profile_data st' = Some p /\
    profile_complete p = true /\
    exists d,
      SQLiteStore.get_user_profile
        (db (snd (chat_endpoint S checkpoint chat_message w))) uid = Some d /\
      forall c, c ∈ SQLiteStore.profile_columns -> d !! c = Some (dict_get p c).
Proof.
  intros Hllm. rewrite chat_endpoint_world.
  set (input := chat_input checkpoint chat_message).
  destruct (run_workflow_branch S input w) as (u & _ & Hbranch).
  set (w0 := logged w [WorkflowInvoke]) in *.
  set (st1 := apply_update input u) in *.
  intros Hinv.
  assert (Hstep : route_after_checking_profile st1 = NOnboardingStep /\
                  Invoke BackstoryChain
                    ∈ new_events w0 (snd (onboarding_step_node S st1 w0))).
  { revert Hinv. rewrite Hbranch.
    destruct (route_after_checking_profile st1).
    2-4: destruct (quiet_supervisor_branch S st1 w0) as (_ & evs & Hlog & Hevs);
         rewrite (new_events_app w _ ([WorkflowInvoke] ++ evs))
           by (by rewrite Hlog, app_assoc);
         rewrite elem_of_app, list_elem_of_singleton; intros [?|?]; done.
    split; [done|]. revert Hinv. unfold step, bind, ret.
    destruct (onboarding_step_extends S st1 w0) as (evs & Hlog).
    rewrite (new_events_app w0 _ evs Hlog).
    destruct (onboarding_step_node S st1 w0) as [[u2|e2] w2]; cbn [snd] in *;
      rewrite (new_events_app w _ ([WorkflowInvoke] ++ evs))
        by (by rewrite Hlog, app_assoc);
      rewrite elem_of_app, list_elem_of_singleton; intros [?|?]; done. }
  destruct Hstep as (Hroute & Hinv2).
  destruct (onboarding_step_backstory_failure S st1 w0 e Hllm Hinv2)
    as (uid & p & w2 & Hid & Hon & Hp & Hmiss & Hnode & Hdb).
  assert (Hrun : run_workflow S input w
                 = (Ok (apply_update st1
                          (completion_update (messages st1) p
                             (completion_message p) None)), w2)).
  { rewrite Hbranch, Hroute. unfold step, bind. by rewrite Hnode. }
  destruct (chat_endpoint_ok S checkpoint chat_message w _ _ Hrun)
    as (resp & Hend & Hresp).
  destruct (chat_response_returns S chat_message
              (apply_update st1
                 (completion_update (messages st1) p (completion_message p) None))
              w2) as (resp' & Hresp' & Htext & Hflag & Hback & Hprof).
  rewrite Hresp in Hresp'. injection Hresp' as <-.
  exists resp, (apply_update st1
                 (completion_update (messages st1) p (completion_message p) None)),
    uid, p.
  fold input. rewrite Hend, Hrun. cbn [fst snd].
  split; [done|]. split.
  { rewrite Htext. cbn [apply_update completion_update messages u_messages default from_option id].
    rewrite last_ai_content_snoc. reflexivity. }
  split; [by rewrite Hflag|]. split; [by rewrite Hback|]. split.
  { rewrite Hprof; [done|]. cbn. by apply complete_dict_truthy. }
  split; [done|]. split; [done|].
  split; [exact Hid|]. split; [done|].
  split; [by apply missing_fields_nil_complete|].
  rewrite Hdb.
  destruct (save_user_profile_lookup (now S) (db w0) uid p) as (r & Hr & _ & Hcols).
  exists (SQLiteStore.row_dict uid r). split; [|done].
  unfold SQLiteStore.get_user_profile. by rewrite Hr.
Qed.

Lemma backstory_failure_does_not_fail_turn_witness :
  let S := Examples.services_chain_down BackstoryChain in
  let checkpoint := Some (Examples.completion_state "u1") in
  let chat_message := {| message := "ok"; cm_user_id := "u1" |} in
  exists resp st' uid (p : pydict),
    fst (chat_endpoint S checkpoint chat_message Examples.fresh)
    = Http200 (resp, st') /\
    response resp = completion_message p /\
    cr_is_onboarding resp = false /\
    cr_backstory resp = None /\
    cr_user_profile resp = coerce_profile_to_strings p /\
    final_response_text st' = Some (completion_message p) /\
    backstory st' = None /\
    user_id st' = Some uid /\
    user_profile_data st' = Some p /\
    profile_complete p = true /\
    exists d,
      SQLiteStore.get_user_profile
        (db (snd (chat_endpoint S checkpoint chat_message Examples.fresh))) uid
      = Some d /\
      forall c, c ∈ SQLiteStore.profile_columns -> d !! c = Some (dict_get p c).
Proof.
  intros S checkpoint chat_message.
  apply (backstory_failure_does_not_fail_turn S checkpoint chat_message
           Examples.fresh (Exception "503 Service Unavailable")).
  - reflexivity.
  - vm_compute. repeat constructor.
Defined.

Lemma check_flag_from_store_witness :
  exists st',
    step (check_user_profile_node Examples.services_ok)
      (new_conversation {| message := "Hi"; cm_user_id := "u1" |})
      (Examples.with_row "u1" Examples.asha_row)
    = (Ok st', Examples.with_row "u1" Examples.asha_row) /\
    is_onboarding st' = Some false.
Proof.
  destruct (check_flag_from_store Examples.services_ok
              (new_conversation {| message := "Hi"; cm_user_id := "u1" |})
              (Examples.with_row "u1" Examples.asha_row) "u1")
    as (st' & Hrun & _ & Hfalse & _); [reflexivity | discriminate |].
  exists st'. split; [exact Hrun|].
  apply Hfalse. split; [reflexivity|]. exists Examples.asha_row. reflexivity.
Defined.

(** ** The first turn of a new user *)

(** C3 at its scenario: a user with no stored profile and no conversation
    yet says "Hi". The check composes the welcome and makes it the final
    response; the graph then runs the onboarding step in the same turn,
    which appends its own message and replaces the final response: the
    turn answers with the question for the name, the welcome only precedes
    it in the history. *)
Theorem first_turn_answers_with_name_question :
  let chat_message := {| message := "Hi"; cm_user_id := "u1" |} in
  (exists st1,
     after_check Examples.services_ok (new_conversation chat_message)
       Examples.fresh = Ok st1 /\
     final_response_text st1 = Some welcome_message) /\
  exists resp st',
    fst (chat_endpoint Examples.services_ok None chat_message Examples.fresh)
    = Http200 (resp, st') /\
    response resp = "What should I call your brand or what's your name?" /\
    response resp <> welcome_message /\
    final_response_text st' = Some (response resp) /\
    cr_is_onboarding resp = true /\
    cr_user_profile resp = ∅ /\
    messages st'
    = [ HumanMessage "Hi"; AIMessage welcome_message;
        AIMessage "What should I call your brand or what's your name?" ].
Proof.
  intros chat_message. split.
  - eexists. split; [vm_compute; reflexivity|reflexivity].
  - eexists _, _. split; [vm_compute; reflexivity|].
    cbn [response final_response_text cr_is_onboarding cr_user_profile messages].
    repeat split; try reflexivity. discriminate.
Qed.

(** ** Failing chains *)

(** The welfare handler turns a failure of the search or of the summary
    chain into text. *)
Lemma welfare_search_node_degrades S st w uid m :
  user_id st = Some uid -> last (messages st) = Some m ->
  exists text w',
    welfare_search_node S st w = (Ok (tool_output_update text), w') /\
    (forall e, web_search_tool S = Raise e ->
       text = "Unable to search welfare schemes: " +:+ exn_str e) /\
    (forall results e, web_search_tool S = Ok results ->
       llm_gemini S SummaryChain = Raise e ->
       text = "Unable to search welfare schemes: " +:+ exn_str e).
Proof.
  intros Hid Hlast.
  unfold welfare_search_node, last_message_content, state_user_id,
    get_profile_safely, store_get_user_profile, search_invoke, invoke,
    try_except, bind, emit, of_result, ret, raise.
  rewrite Hlast, Hid.
  destruct (store_raises S AtWelfare); cbn [db log];
    destruct (web_search_tool S) as [results|e1];
    try destruct (llm_gemini S SummaryChain) as [summary|e2];
    eexists _, _; (split; [reflexivity|]); split; congruence.
Qed.

(** C7 at a failing input: a user with a stored profile says "thank you"
    and one chain raises. Whether it is the intent classifier, the general
    handler or the normalizer, no node catches the exception: the graph
    raises and the endpoint answers with [HTTPException(500)], not with a
    response. *)
Theorem chain_failure_reaches_the_endpoint :
  let chat_message := {| message := "thank you"; cm_user_id := "u1" |} in
  let w := Examples.with_row "u1" Examples.asha_row in
  let failure :=
    HTTPException 500 "Internal server error: 503 Service Unavailable" in
  fst (run_workflow (Examples.services_chain_down IntentChain)
         (new_conversation chat_message) w)
  = Raise (Exception "503 Service Unavailable") /\
  fst (chat_endpoint (Examples.services_chain_down IntentChain) None
         chat_message w) = failure /\
  fst (chat_endpoint (Examples.services_chain_down GeneralChain) None
         chat_message w) = failure /\
  fst (chat_endpoint (Examples.services_chain_down FinalChain) None
         chat_message w) = failure.
Proof. vm_compute. repeat split; reflexivity. Qed.

(** ** The user id of a chat request *)

(** C8 at a failing input: the endpoint runs the graph for a blank and for
    an empty user id, which the validation of the other endpoints rejects,
    and answers with a response. For the blank id the check treats the
    user as new and the extraction chain is invoked; for the empty id the
    check only returns its error entry and the turn goes on to the
    supervisor. *)
Theorem chat_endpoint_accepts_blank_user_id :
  invalid_user_id " " = true /\
  invalid_user_id "" = true /\
  (exists resp st',
     chat_endpoint Examples.services_ok None
       {| message := "Hi"; cm_user_id := " " |} Examples.fresh
     = (Http200 (resp, st'),
        {| db := ∅; log := [WorkflowInvoke; Invoke ExtractionChain] |}) /\
     response resp = "What should I call your brand or what's your name?") /\
  (exists resp st',
     chat_endpoint Examples.services_ok None
       {| message := "Hi"; cm_user_id := "" |} Examples.fresh
     = (Http200 (resp, st'),
        {| db := ∅;
           log := [WorkflowInvoke; Invoke IntentChain; Invoke GeneralChain;
                   Invoke FinalChain] |}) /\
     response resp = "You are welcome.") /\
  fst (check_user_profile_node Examples.services_ok
         (new_conversation {| message := "Hi"; cm_user_id := "" |})
         Examples.fresh) = Ok user_id_not_found.
Proof.
  split; [reflexivity|]. split; [reflexivity|]. split.
  - eexists _, _. split; [vm_compute; reflexivity|reflexivity].
  - split; [|reflexivity].
    eexists _, _. split; [vm_compute; reflexivity|reflexivity].
Qed.

(** ** The rows the workflow writes are complete profiles *)

Lemma profile_complete_row uid r :
  profile_complete (SQLiteStore.row_dict uid r)
  = forallb truthy
      [ SQLiteStore.name r; SQLiteStore.state r; SQLiteStore.craft_type r;
        SQLiteStore.materials r; SQLiteStore.years_experience r;
        SQLiteStore.sales_channels r; SQLiteStore.price_range r;
        SQLiteStore.languages r; SQLiteStore.brand_style r ].
Proof.
  unfold profile_complete, required_fields, field_missing. cbn [forallb].
  change (SQLiteStore.row_dict uid r !! "name") with (Some (SQLiteStore.name r)).
  change (SQLiteStore.row_dict uid r !! "state") with (Some (SQLiteStore.state r)).
  change (SQLiteStore.row_dict uid r !! "craft_type")
    with (Some (SQLiteStore.craft_type r)).
  change (SQLiteStore.row_dict uid r !! "materials")
    with (Some (SQLiteStore.materials r)).
  change (SQLiteStore.row_dict uid r !! "years_experience")
    with (Some (SQLiteStore.years_experience r)).
  change (SQLiteStore.row_dict uid r !! "sales_channels")
    with (Some (SQLiteStore.sales_channels r)).
  change (SQLiteStore.row_dict uid r !! "price_range")
    with (Some (SQLiteStore.price_range r)).
  change (SQLiteStore.row_dict uid r !! "languages")
    with (Some (SQLiteStore.languages r)).
  change (SQLiteStore.row_dict uid r !! "brand_style")
    with (Some (SQLiteStore.brand_style r)).
  cbv beta iota. by rewrite !negb_involutive.
Qed.

Lemma complete_field_truthy (p : pydict) f :
  missing_fields p = [] -> f ∈ required_fields -> truthy (dict_get p f) = true.
Proof.
  intros Hmiss Hf.
  destruct (field_missing p f) eqn:Hm.
  - assert (Hin : f ∈ missing_fields p) by (by apply list_elem_of_filter).
    rewrite Hmiss in Hin. by apply elem_of_nil in Hin.
  - unfold field_missing in Hm. unfold dict_get.
    destruct (p !! f) as [v|]; [|done]. cbn. by destruct (truthy v).
Qed.

Lemma complete_fields_truthy (p : pydict) :
  missing_fields p = [] ->
  forallb truthy
    [ dict_get p "name"; dict_get p "state"; dict_get p "craft_type";
      dict_get p "materials"; dict_get p "years_experience";
      dict_get p "sales_channels"; dict_get p "price_range";
      dict_get p "languages"; dict_get p "brand_style" ] = true.
Proof.
  intros Hmiss. cbn [forallb].
  rewrite !(complete_field_truthy p _ Hmiss); [done|..];
    unfold required_fields; set_solver.
Qed.

Lemma save_user_profile_rows_complete now db uid (p : pydict) :
  missing_fields p = [] -> rows_complete db ->
  rows_complete (SQLiteStore.save_user_profile now db uid p).
Proof.
  intros Hmiss Hdb uid' r' Hr'.
  destruct (decide (uid = uid')) as [<-|Hne].
  - rewrite profile_complete_row.
    unfold SQLiteStore.save_user_profile, SQLiteStore.get_user_profile in Hr'.
    destruct (db !! uid) as [r0|] eqn:Hrow; cbn [fmap option_fmap option_map] in Hr'.
    + rewrite lookup_alter_eq, Hrow in Hr'. injection Hr' as <-.
      by apply complete_fields_truthy.
    + rewrite lookup_insert_eq in Hr'. injection Hr' as <-.
      by apply complete_fields_truthy.
  - rewrite save_user_profile_other in Hr' by done. by apply Hdb.
Qed.

Lemma save_backstory_rows_complete now db uid text :
  rows_complete db -> rows_complete (SQLiteStore.save_backstory now db uid text).
Proof.
  intros Hdb uid' r' Hr'. unfold SQLiteStore.save_backstory in Hr'.
  destruct (decide (uid = uid')) as [<-|Hne].
  - rewrite lookup_alter_eq in Hr'.
    destruct (db !! uid) as [r0|] eqn:Hrow; [|done]. injection Hr' as <-.
    rewrite profile_complete_row. cbn [SQLiteStore.set_backstory
      SQLiteStore.name SQLiteStore.state SQLiteStore.craft_type
      SQLiteStore.materials SQLiteStore.years_experience
      SQLiteStore.sales_channels SQLiteStore.price_range
      SQLiteStore.languages SQLiteStore.brand_style].
    rewrite <- profile_complete_row with (uid := uid). by apply Hdb.
  - rewrite lookup_alter_ne in Hr' by done. by apply Hdb.
Qed.

(** The onboarding step keeps every stored row a complete profile: it
    saves only when nothing is missing. *)
Lemma onboarding_step_rows_complete S st w :
  rows_complete (db w) ->
  rows_complete (db (snd (onboarding_step_node S st w))).
Proof.
  intros Hdb.
  destruct (is_onboarding st) as [[|]|] eqn:Hon.
  2,3: by rewrite onboarding_step_not_onboarding by (by rewrite Hon).
  destruct (user_id st) as [uid|] eqn:Hid.
  2: by rewrite (onboarding_step_no_user S st w Hon Hid).
  destruct (missing_fields (profile_after_extraction S st)) as [|f rest] eqn:Hmiss.
  2: { rewrite (onboarding_step_asks S st w uid f rest Hon Hid Hmiss).
       cbn [snd]. by rewrite after_extraction_db. }
  rewrite (onboarding_step_completes S st w uid Hon Hid Hmiss). cbv zeta.
  rewrite after_extraction_db.
  pose proof (save_user_profile_rows_complete (now S) (db w) uid _ Hmiss Hdb)
    as Hsaved.
  destruct (store_raises S AtSaveProfile).
  { cbn [snd]. by rewrite after_extraction_db. }
  destruct (truthy _); [done|].
  destruct (llm_gemini S BackstoryChain);
    [destruct (store_raises S AtSaveBackstory)|]; try done.
  cbn [snd db]. by apply save_backstory_rows_complete.
Qed.

(** So does a whole run of the graph. *)
Lemma run_workflow_rows_complete S input w :
  rows_complete (db w) ->
  rows_complete (db (snd (run_workflow S input w))).
Proof.
  intros Hdb. destruct (run_workflow_branch S input w) as (u & _ & ->).
  destruct (route_after_checking_profile (apply_update input u)).
  2-4: by destruct (quiet_supervisor_branch S (apply_update input u)
                      (logged w [WorkflowInvoke])) as (-> & _).
  unfold step, bind, ret.
  pose proof (onboarding_step_rows_complete S (apply_update input u)
                (logged w [WorkflowInvoke]) Hdb) as Hstep.
  by destruct (onboarding_step_node S (apply_update input u)
                 (logged w [WorkflowInvoke])) as [[u2|e2] w2].
Qed.

(** ** The welcome never is the response *)

Lemma question_for_not_welcome f :
  f ∈ required_fields -> question_for f <> welcome_message.
Proof.
  unfold required_fields. intros Hf.
  repeat (apply elem_of_cons in Hf as [->|Hf]; [discriminate|]).
  by apply elem_of_nil in Hf.
Qed.

Lemma completion_message_not_welcome (p : pydict) tail :
  completion_message p +:+ tail <> welcome_message /\
  completion_message p <> welcome_message /\
  String.eqb (completion_message p) "" = false /\
  String.eqb (completion_message p +:+ tail) "" = false.
Proof. unfold completion_message. cbn. repeat split; discriminate. Qed.

Lemma question_for_nonempty f : String.eqb (question_for f) "" = false.
Proof.
  unfold question_for. destruct (field_prompts !! f) as [q|] eqn:Hq; cbn; [|done].
  destruct q; [|done]. exfalso. revert Hq. unfold field_prompts.
  cbn [list_to_map foldr fst snd uncurry].
  repeat (rewrite lookup_insert; case_decide; [discriminate|]).
  by rewrite lookup_empty.
Qed.

(** Whatever the chains return, a turn of a user with no stored row does
    not answer with the welcome: the onboarding step runs after the check
    in the same turn and its message is the last one. *)
Lemma welcome_is_never_the_response S w uid msg checkpoint resp st' :
  let chat_message := {| message := msg; cm_user_id := uid |} in
  user_id (chat_input checkpoint chat_message) = Some uid ->
  uid <> "" -> db w !! uid = None ->
  fst (chat_endpoint S checkpoint chat_message w) = Http200 (resp, st') ->
  response resp <> welcome_message /\
  final_response_text st' = Some (response resp).
Proof.
  intros chat_message Hid Hne Hrow.
  set (input := chat_input checkpoint chat_message) in *.
  destruct (run_workflow_branch S input w) as (u & Hcheck & Hbranch).
  set (w0 := logged w [WorkflowInvoke]) in *.
  destruct (check_user_profile_node_cases S input w0 uid Hid Hne)
    as (u' & Hcheck' & Huid & _ & _ & Hu).
  rewrite Hcheck in Hcheck'. injection Hcheck' as <-.
  change (db w0 !! uid) with (db w !! uid) in Hu. rewrite Hrow in Hu.
  assert (Hon : is_onboarding (apply_update input u) = Some true).
  { destruct (store_raises S AtCheck); destruct Hu as (Hf & _);
      cbn; by rewrite Hf. }
  assert (Hid1 : user_id (apply_update input u) = Some uid)
    by (cbn; by rewrite Huid).
  set (st1 := apply_update input u) in *.
  assert (Hroute : route_after_checking_profile st1 = NOnboardingStep)
    by (unfold route_after_checking_profile; by rewrite Hon).
  rewrite Hroute in Hbranch.
  assert (Hstep : (exists text u2 w2,
    onboarding_step_node S st1 w0 = (Ok u2, w2) /\
    u_messages u2 = Some (messages st1 ++ [AIMessage text]) /\
    u_final_response_text u2 = Some text /\
    text <> welcome_message /\ String.eqb text "" = false)
    \/ exists e w2, onboarding_step_node S st1 w0 = (Raise e, w2)).
  { destruct (missing_fields (profile_after_extraction S st1)) as [|f rest] eqn:Hmiss.
    - rewrite (onboarding_step_completes S st1 w0 uid Hon Hid1 Hmiss). cbv zeta.
      destruct (completion_message_not_welcome (profile_after_extraction S st1)
                  backstory_notice) as (H1 & H2 & H3 & H4).
      destruct (store_raises S AtSaveProfile); [right; by eexists _, _|].
      destruct (truthy _);
        [|destruct (llm_gemini S BackstoryChain);
          [destruct (store_raises S AtSaveBackstory)|]];
        left; eexists _, _, _; (split; [reflexivity|]); done.
    - rewrite (onboarding_step_asks S st1 w0 uid f rest Hon Hid1 Hmiss).
      left. eexists _, _, _. split; [reflexivity|].
      split; [reflexivity|]. split; [reflexivity|].
      split; [|apply question_for_nonempty].
      apply question_for_not_welcome, (missing_fields_required (profile_after_extraction S st1)).
      rewrite Hmiss. apply list_elem_of_here. }
  destruct Hstep as [(text & u2 & w2 & Hnode & Hmsgs & Hfinal & Htext & Hnonempty)
                    |(e & w2' & Hnode)].
  - assert (Hrun : run_workflow S input w = (Ok (apply_update st1 u2), w2)).
    { rewrite Hbranch. unfold step, bind. by rewrite Hnode. }
    destruct (chat_endpoint_ok S checkpoint chat_message w _ _ Hrun)
      as (resp0 & Hend & Hresp).
    destruct (chat_response_returns S chat_message (apply_update st1 u2) w2)
      as (resp1 & Hresp1 & Hresponse & _).
    rewrite Hresp in Hresp1. injection Hresp1 as <-.
    rewrite Hend. cbn [fst]. intros [= <- <-].
    rewrite Hresponse.
    cbn [apply_update messages final_response_text].
    rewrite Hmsgs, Hfinal. cbn [default from_option id].
    rewrite last_ai_content_snoc, Hnonempty. by split.
  - assert (Hrun : run_workflow S input w = (Raise e, w2')).
    { rewrite Hbranch. unfold step, bind. by rewrite Hnode. }
    by rewrite (chat_endpoint_raise S checkpoint chat_message w _ _ Hrun).
Qed.

(** ** Further properties of the persistence layer *)

(** X1: [delete_user_profile] removes the user's row and no other; a profile
    saved afterwards is a new row, with no backstory and a new creation
    time. *)
Theorem delete_user_profile_forgets now db uid (p : pydict) :
  SQLiteStore.get_user_profile (SQLiteStore.delete_user_profile db uid) uid
  = None /\
  (forall uid', uid' <> uid ->
     SQLiteStore.get_user_profile (SQLiteStore.delete_user_profile db uid) uid'
     = SQLiteStore.get_user_profile db uid') /\
  SQLiteStore.save_user_profile now (SQLiteStore.delete_user_profile db uid)
    uid p !! uid
  = Some (SQLiteStore.insert_profile_row now p) /\
  stored_backstory
    (SQLiteStore.save_user_profile now (SQLiteStore.delete_user_profile db uid)
       uid p) uid
  = PyNone.
Proof.
  assert (Hget : SQLiteStore.get_user_profile
                   (SQLiteStore.delete_user_profile db uid) uid = None).
  { unfold SQLiteStore.get_user_profile, SQLiteStore.delete_user_profile.
    rewrite lookup_delete_eq. reflexivity. }
  assert (Hrow : SQLiteStore.save_user_profile now
                   (SQLiteStore.delete_user_profile db uid) uid p !! uid
                 = Some (SQLiteStore.insert_profile_row now p)).
  { unfold SQLiteStore.save_user_profile. rewrite Hget.
    apply lookup_insert_eq. }
  split; [exact Hget|]. split; [|split; [exact Hrow|]].
  - intros uid' Hne.
    unfold SQLiteStore.get_user_profile, SQLiteStore.delete_user_profile.
    rewrite lookup_delete_ne by congruence. reflexivity.
  - rewrite (stored_backstory_row _ _ _ Hrow). reflexivity.
Qed.

Lemma delete_user_profile_forgets_witness :
  SQLiteStore.get_user_profile
    (SQLiteStore.delete_user_profile
       {[ "u1" := Examples.asha_row; "u2" := Examples.legacy_row ]} "u1") "u2"
  = Some (SQLiteStore.row_dict "u2" Examples.legacy_row).
Proof.
  destruct (delete_user_profile_forgets Examples.clock
              {[ "u1" := Examples.asha_row; "u2" := Examples.legacy_row ]}
              "u1" ∅) as (_ & Hother & _).
  rewrite (Hother "u2"); [reflexivity | discriminate].
Defined.

(** X2: On a user who has a row, [save_user_profile] rewrites all fifteen
    columns from the mapping: a column the mapping has no entry for
    becomes [NULL], whatever the row held. The creation time and the
    backstory stay, the update time is the current time. *)
Theorem save_user_profile_update_overwrites now db uid (p : pydict) r :
  db !! uid = Some r ->
  exists r',
    SQLiteStore.save_user_profile now db uid p !! uid = Some r' /\
    (forall c, c ∈ SQLiteStore.profile_columns -> p !! c = None ->
       SQLiteStore.row_dict uid r' !! c = Some PyNone) /\
    SQLiteStore.created_at r' = SQLiteStore.created_at r /\
    SQLiteStore.updated_at r' = PyStr now /\
    SQLiteStore.backstory r' = SQLiteStore.backstory r.
Proof.
  intros Hr.
  exists (SQLiteStore.update_profile_columns now p r).
  split.
  { unfold SQLiteStore.save_user_profile, SQLiteStore.get_user_profile.
    rewrite Hr. cbn [fmap option_fmap option_map].
    rewrite lookup_alter_eq, Hr. reflexivity. }
  split; [|repeat split].
  intros c Hc Hp.
  unfold SQLiteStore.profile_columns in Hc.
  repeat (apply elem_of_cons in Hc as [-> | Hc];
          [unfold SQLiteStore.update_profile_columns, dict_get;
           rewrite ?Hp; reflexivity|]).
  by apply elem_of_nil in Hc.
Qed.

Lemma save_user_profile_update_overwrites_witness :
  exists r',
    SQLiteStore.save_user_profile "2025-02-02 09:00:00"
      {[ "u1" := Examples.asha_row ]} "u1" {[ "name" := PyStr "Asha Devi" ]}
      !! "u1" = Some r' /\
    SQLiteStore.row_dict "u1" r' !! "craft_type" = Some PyNone /\
    SQLiteStore.created_at r' = PyStr Examples.clock.
Proof.
  destruct (save_user_profile_update_overwrites "2025-02-02 09:00:00"
              {[ "u1" := Examples.asha_row ]} "u1"
              {[ "name" := PyStr "Asha Devi" ]} Examples.asha_row)
    as (r' & Hr' & Hcol & Hc & _).
  { reflexivity. }
  exists r'. split; [exact Hr'|]. split.
  - apply Hcol; [|reflexivity].
    unfold SQLiteStore.profile_columns. repeat constructor.
  - rewrite Hc. reflexivity.
Defined.

(** X3: Saving the same mapping twice at the same time is the same as saving
    it once, whether the first call inserts or updates. *)
Theorem save_user_profile_idempotent now db uid (p : pydict) :
  SQLiteStore.save_user_profile now
    (SQLiteStore.save_user_profile now db uid p) uid p
  = SQLiteStore.save_user_profile now db uid p.
Proof.
  unfold SQLiteStore.save_user_profile at 1.
  destruct (save_user_profile_lookup now db uid p) as (r1 & Hr1 & _).
  unfold SQLiteStore.get_user_profile at 1. rewrite Hr1.
  cbn [fmap option_fmap option_map].
  unfold SQLiteStore.save_user_profile, SQLiteStore.get_user_profile in *.
  destruct (db !! uid) as [r|] eqn:Hr; cbn [fmap option_fmap option_map] in *.
  - rewrite alter_alter_eq. apply alter_ext. intros r0 _. reflexivity.
  - rewrite alter_insert_eq. reflexivity.
Qed.

(** X4: [save_backstory] changes nothing for a user who has no row (it does
    not insert one); on a row it sets the backstory and the update time and
    leaves every other column, and every other user, as they were. *)
Theorem save_backstory_touches_one_column now db uid text :
  (db !! uid = None -> SQLiteStore.save_backstory now db uid text = db) /\
  (forall r, db !! uid = Some r ->
     SQLiteStore.get_user_profile (SQLiteStore.save_backstory now db uid text) uid
     = Some (<["backstory" := PyStr text]>
               (<["updated_at" := PyStr now]> (SQLiteStore.row_dict uid r)))) /\
  (forall uid', uid' <> uid ->
     SQLiteStore.save_backstory now db uid text !! uid' = db !! uid').
Proof.
  unfold SQLiteStore.save_backstory. split; [|split].
  - intros Hnone. by apply alter_id'.
  - intros r Hr. unfold SQLiteStore.get_user_profile.
    rewrite lookup_alter_eq, Hr. cbn [fmap option_fmap option_map].
    reflexivity.
  - intros uid' Hne. rewrite lookup_alter_ne by congruence. reflexivity.
Qed.

Lemma save_backstory_touches_one_column_witness :
  SQLiteStore.save_backstory Examples.clock ∅ "u1" "A story" = ∅ /\
  (SQLiteStore.get_user_profile
     (SQLiteStore.save_backstory "2025-02-02 09:00:00"
        {[ "u1" := Examples.legacy_row ]} "u1" "A story") "u1"
     ≫= (.!! "name")) = Some (PyStr "Asha").
Proof.
  split.
  - apply (save_backstory_touches_one_column Examples.clock ∅ "u1" "A story").
    reflexivity.
  - destruct (save_backstory_touches_one_column "2025-02-02 09:00:00"
                {[ "u1" := Examples.legacy_row ]} "u1" "A story")
      as (_ & Hrow & _).
    rewrite (Hrow Examples.legacy_row); reflexivity.
Defined.

(** ** The helpers *)

(** X5: applied to what [get_user_profile] returns, as the supervisor and
    the two handlers apply it, [sanitize_profile] gives the empty
    dictionary when the user has no row, and otherwise the dictionary of
    the row without its backstory, the other eighteen entries as they
    are. *)
Theorem sanitize_profile_drops_backstory db uid :
  sanitize_profile (SQLiteStore.get_user_profile db uid)
  = match db !! uid with
    | Some r => delete "backstory" (SQLiteStore.row_dict uid r)
    | None => ∅
    end.
Proof.
  unfold SQLiteStore.get_user_profile.
  destruct (db !! uid) as [r|]; [|reflexivity].
  cbn [fmap option_fmap option_map].
  assert (Hlookup : forall (q : pydict) j,
    sanitize_profile (Some q) !! j
    = if bool_decide (lower j = "backstory") then None else q !! j).
  { intros q j. unfold sanitize_profile.
    destruct (q !! j) as [v|] eqn:Hq.
    - case_bool_decide as Hj.
      + apply map_lookup_filter_None. right. intros v' _ Hne. by apply Hne.
      + apply map_lookup_filter_Some. by split.
    - rewrite (proj2 (map_lookup_filter_None _ q j)); [by case_bool_decide|].
      by left. }
  apply map_eq. intros j. rewrite Hlookup.
  destruct (decide (j = "backstory")) as [->|Hne].
  - by rewrite lookup_delete_eq.
  - rewrite lookup_delete_ne by congruence.
    case_bool_decide as Hj; [|reflexivity].
    destruct (SQLiteStore.row_dict uid r !! j) as [v|] eqn:Hrow; [|reflexivity].
    exfalso. unfold SQLiteStore.row_dict in Hrow.
    apply elem_of_list_to_map_2 in Hrow.
    repeat (apply elem_of_cons in Hrow as [[= -> _] | Hrow];
            [first [discriminate Hj | by apply Hne]|]).
    by apply elem_of_nil in Hrow.
Qed.

Lemma upto_last_close_none post :
  all_chars (fun c => negb (Ascii.eqb c "}")) post = true ->
  upto_last_close post = None.
Proof.
  induction post as [|c post IH]; [reflexivity|].
  cbn [all_chars upto_last_close]. intros [Hc Hpost]%andb_true_iff.
  rewrite (IH Hpost). by destruct (Ascii.eqb c "}").
Qed.

Lemma upto_last_close_spans mid post :
  all_chars (fun c => negb (Ascii.eqb c "}")) post = true ->
  upto_last_close (mid +:+ String "}" post) = Some (mid +:+ "}").
Proof.
  intros Hpost. induction mid as [|c mid IH].
  - simpl. by rewrite (upto_last_close_none post Hpost).
  - simpl. by rewrite IH.
Qed.

(** X6: The extractor's answer may wrap its JSON object in prose: the text
    handed to [json.loads] runs from the first opening brace to the last
    closing brace, whatever stands before and after. A text with no
    opening brace, or with no closing brace, yields no object, and the
    step falls back. *)
Theorem search_json_object_spans pre mid post :
  all_chars (fun c => negb (Ascii.eqb c "{")) pre = true ->
  all_chars (fun c => negb (Ascii.eqb c "}")) post = true ->
  search_json_object (pre +:+ String "{" (mid +:+ String "}" post))
  = Some (String "{" (mid +:+ "}")) /\
  search_json_object pre = None /\
  search_json_object post = None.
Proof.
  intros Hpre Hpost. split; [|split].
  - induction pre as [|c pre IH].
    + simpl. by rewrite (upto_last_close_spans mid post Hpost).
    + cbn [all_chars] in Hpre. apply andb_true_iff in Hpre as [Hc Hpre].
      simpl. destruct (Ascii.eqb c "{"); [discriminate Hc|]. by apply IH.
  - clear Hpost. induction pre as [|c pre IH]; [reflexivity|].
    cbn [all_chars] in Hpre. apply andb_true_iff in Hpre as [Hc Hpre].
    cbn [search_json_object].
    destruct (Ascii.eqb c "{"); [discriminate Hc|]. by apply IH.
  - clear Hpre. induction post as [|c post IH]; [reflexivity|].
    pose proof (upto_last_close_none _ Hpost) as Hnone.
    cbn [all_chars] in Hpost. apply andb_true_iff in Hpost as [Hc Hpost].
    cbn [search_json_object].
    destruct (Ascii.eqb c "{").
    + cbn [upto_last_close] in Hnone.
      rewrite (upto_last_close_none post Hpost). reflexivity.
    + by apply IH.
Qed.

Lemma search_json_object_spans_witness :
  search_json_object "Sure! {} and {}." = Some "{} and {}".
Proof.
  apply (search_json_object_spans "Sure! " "} and {" "."); reflexivity.
Defined.

Lemma contains_cons p c r :
  contains p (String c r) = startswith p (String c r) || contains p r.
Proof. reflexivity. Qed.

Lemma search_backstory_unlabelled s :
  contains "backstory:" (lower s) = false -> search_backstory s = None.
Proof.
  induction s as [|c s IH]; [reflexivity|].
  change (lower (String c s)) with (String (lower_char c) (lower s)).
  rewrite contains_cons. intros [Hhere Hrest]%orb_false_iff.
  change (search_backstory (String c s))
    with (match match_backstory_here (String c s) with
          | Some g => Some g
          | None => search_backstory s
          end).
  unfold match_backstory_here.
  change (lower (String c s)) with (String (lower_char c) (lower s)).
  rewrite Hhere. by apply IH.
Qed.

Lemma search_tagline_unlabelled s :
  contains "tagline:" (lower s) = false -> search_tagline s = None.
Proof.
  induction s as [|c s IH]; [reflexivity|].
  change (lower (String c s)) with (String (lower_char c) (lower s)).
  rewrite contains_cons. intros [Hhere Hrest]%orb_false_iff.
  change (search_tagline (String c s))
    with (match match_tagline_here (String c s) with
          | Some g => Some g
          | None => search_tagline s
          end).
  unfold match_tagline_here.
  change (lower (String c s)) with (String (lower_char c) (lower s)).
  rewrite Hhere. by apply IH.
Qed.

(** X7: for a backstory text of ASCII characters that has no [Backstory:]
    label, in any letter case: without a [Tagline:] label either, the text
    is stored whole; with one, the whole text is kept as the narrative and
    the tagline is appended to it once more. *)
Theorem compose_backstory_unlabelled s :
  ascii_text s = true ->
  contains "backstory:" (lower s) = false ->
  (contains "tagline:" (lower s) = false -> compose_backstory s = s) /\
  (forall g, search_tagline s = Some g -> strip g <> "" ->
     compose_backstory s = s +:+ nl +:+ nl +:+ "Tagline: " +:+ strip g).
Proof.
  intros _ Hb. unfold compose_backstory.
  rewrite (search_backstory_unlabelled s Hb). split.
  - intros Ht. rewrite (search_tagline_unlabelled s Ht).
    cbn [String.eqb]. symmetry. apply append_empty_r.
  - intros g -> Hg. apply String.eqb_neq in Hg. by rewrite Hg.
Qed.

Lemma compose_backstory_unlabelled_witness :
  compose_backstory "Clay has shaped my days."
  = "Clay has shaped my days.".
Proof.
  apply (compose_backstory_unlabelled "Clay has shaped my days.");
    reflexivity.
Defined.

(** ** More on the onboarding step *)

(** X8: in an onboarding step whose extractor answers with a text that
    holds a JSON object (with string or null values), the profile the step
    goes on with is the state's profile updated with that object: a key of
    the object takes the object's value, every other key keeps its own, no
    key is removed. That profile is what the step returns; while a field is
    missing it returns it with the question for the first such field, and
    it returns whenever [save_user_profile] does not raise. A [null] for a
    required field therefore reopens that field, answered or not: the step
    asks a question again. *)
Theorem extraction_overwrites_answers S st w uid response_str json_text
    (e : pydict) :
  is_onboarding st = Some true -> user_id st = Some uid ->
  last_human_content (messages st) <> "" ->
  llm_gemini S ExtractionChain = Ok response_str ->
  search_json_object response_str = Some json_text ->
  json_loads S json_text = Some e ->
  exists p : pydict,
    (forall k, p !! k = match e !! k with
                        | Some v => Some v
                        | None => default ∅ (user_profile_data st) !! k
                        end) /\
    (forall u w', onboarding_step_node S st w = (Ok u, w') ->
       u_user_profile_data u = Some p) /\
    (forall f rest, missing_fields p = f :: rest ->
       onboarding_step_node S st w
       = (Ok (question_update (messages st) p (question_for f)),
          logged w [Invoke ExtractionChain])) /\
    (store_raises S AtSaveProfile = None ->
     exists u w', onboarding_step_node S st w = (Ok u, w')) /\
    (forall k, k ∈ required_fields -> e !! k = Some PyNone ->
       k ∈ missing_fields p /\
       exists u, fst (onboarding_step_node S st w) = Ok u /\
                 u_is_onboarding u = Some true).
Proof.
  intros Hon Hid Hmsg Hchain Hsearch Hloads.
  assert (He : extracted_data S = Some e).
  { unfold extracted_data. rewrite Hchain, Hsearch. exact Hloads. }
  assert (Hp : profile_after_extraction S st
               = e ∪ default ∅ (user_profile_data st)).
  { unfold profile_after_extraction.
    apply String.eqb_neq in Hmsg. by rewrite Hmsg, He. }
  assert (Hw : after_extraction st w = logged w [Invoke ExtractionChain]).
  { unfold after_extraction. apply String.eqb_neq in Hmsg. by rewrite Hmsg. }
  exists (profile_after_extraction S st).
  assert (Hk : forall k,
            profile_after_extraction S st !! k
            = match e !! k with
              | Some v => Some v
              | None => default ∅ (user_profile_data st) !! k
              end).
  { intros k. rewrite Hp, lookup_union.
    by destruct (e !! k), (default ∅ (user_profile_data st) !! k). }
  assert (Hasks : forall f rest,
            missing_fields (profile_after_extraction S st) = f :: rest ->
            onboarding_step_node S st w
            = (Ok (question_update (messages st) (profile_after_extraction S st)
                     (question_for f)),
               logged w [Invoke ExtractionChain])).
  { intros f rest Hmiss.
    by rewrite (onboarding_step_asks S st w uid f rest Hon Hid Hmiss), Hw. }
  split; [exact Hk|]. split; [|split; [exact Hasks|split]].
  - intros u w'.
    destruct (missing_fields (profile_after_extraction S st)) as [|f rest] eqn:Hmiss.
    + rewrite (onboarding_step_completes S st w uid Hon Hid Hmiss). cbv zeta.
      destruct (store_raises S AtSaveProfile); [discriminate|].
      destruct (truthy _);
        [|destruct (llm_gemini S BackstoryChain);
          [destruct (store_raises S AtSaveBackstory)|]];
        by intros [= <- _].
    + rewrite (Hasks f rest eq_refl). by intros [= <- _].
  - intros Hsave.
    destruct (missing_fields (profile_after_extraction S st)) as [|f rest] eqn:Hmiss.
    + rewrite (onboarding_step_completes S st w uid Hon Hid Hmiss). cbv zeta.
      rewrite Hsave.
      destruct (truthy _);
        [|destruct (llm_gemini S BackstoryChain);
          [destruct (store_raises S AtSaveBackstory)|]];
        by eexists _, _.
    + rewrite (Hasks f rest eq_refl). by eexists _, _.
  - intros k Hreq Hnull.
    assert (Hin : k ∈ missing_fields (profile_after_extraction S st)).
    { unfold missing_fields. apply list_elem_of_filter. split; [|exact Hreq].
      unfold field_missing. by rewrite Hk, Hnull. }
    split; [exact Hin|].
    destruct (missing_fields (profile_after_extraction S st)) as [|f rest] eqn:Hmiss.
    + by apply elem_of_nil in Hin.
    + rewrite (Hasks f rest eq_refl). by eexists.
Qed.

Lemma extraction_overwrites_answers_witness :
  let st := Examples.onboarding_state "u1" Examples.asha_profile
              [HumanMessage "hello"] in
  exists u,
    fst (onboarding_step_node services_null_name st Examples.fresh) = Ok u /\
    u_is_onboarding u = Some true /\
    u_final_response_text u
    = Some "What should I call your brand or what's your name?".
Proof.
  cbv zeta.
  destruct (extraction_overwrites_answers services_null_name
              (Examples.onboarding_state "u1" Examples.asha_profile
                 [HumanMessage "hello"])
              Examples.fresh "u1"
              ("Here you go: " +:+ null_name_object) null_name_object
              {[ "name" := PyNone ]})
    as (p & _ & _ & _ & _ & Hnull).
  1,2,4,5,6: reflexivity.
  - discriminate.
  - destruct (Hnull "name") as (_ & u & Hu & Hon).
    + unfold required_fields. repeat constructor.
    + reflexivity.
    + exists u. split; [exact Hu|]. split; [exact Hon|].
      vm_compute in Hu. injection Hu as <-. reflexivity.
Defined.

(** X9: A failure of a chain never fails the onboarding step: for a state
    with a user id the step raises exactly when it has a complete profile
    to save and [save_user_profile] raises, and then with that
    exception. *)
Theorem onboarding_step_fails_only_on_save S st w uid e w' :
  user_id st = Some uid ->
  onboarding_step_node S st w = (Raise e, w') <->
  is_onboarding st = Some true /\
  missing_fields (profile_after_extraction S st) = [] /\
  store_raises S AtSaveProfile = Some e /\
  w' = after_extraction st w.
Proof.
  intros Hid.
  destruct (is_onboarding st) as [[|]|] eqn:Hon.
  2,3: rewrite onboarding_step_not_onboarding by (by rewrite Hon);
       split; [discriminate | by intros ([=] & _)].
  destruct (missing_fields (profile_after_extraction S st)) as [|f rest] eqn:Hmiss.
  2: { rewrite (onboarding_step_asks S st w uid f rest Hon Hid Hmiss).
       split; [discriminate | by intros (_ & [=] & _)]. }
  rewrite (onboarding_step_completes S st w uid Hon Hid Hmiss). cbv zeta.
  destruct (store_raises S AtSaveProfile) as [e0|].
  { split.
    - by intros [= -> <-].
    - by intros (_ & _ & [= ->] & ->). }
  destruct (truthy _);
    [|destruct (llm_gemini S BackstoryChain);
      [destruct (store_raises S AtSaveBackstory)|]];
    (split; [discriminate | by intros (_ & _ & [=] & _)]).
Qed.

Lemma onboarding_step_fails_only_on_save_witness :
  onboarding_step_node (Examples.services_store_down AtSaveProfile)
    (Examples.completion_state "u1") Examples.fresh
  = (Raise (Exception "database is locked"), Examples.fresh).
Proof.
  apply (onboarding_step_fails_only_on_save
           (Examples.services_store_down AtSaveProfile)
           (Examples.completion_state "u1") Examples.fresh "u1").
  - reflexivity.
  - repeat split; vm_compute; reflexivity.
Defined.

(** ** What a run of the graph does to the store *)

Lemma onboarding_step_other_user S st w uid uid' :
  user_id st = Some uid -> uid <> uid' ->
  db (snd (onboarding_step_node S st w)) !! uid' = db w !! uid'.
Proof.
  intros Hid Hne.
  destruct (is_onboarding st) as [[|]|] eqn:Hon.
  2,3: by rewrite onboarding_step_not_onboarding by (by rewrite Hon).
  destruct (missing_fields (profile_after_extraction S st)) as [|f rest] eqn:Hmiss.
  2: { rewrite (onboarding_step_asks S st w uid f rest Hon Hid Hmiss).
       cbn [snd]. by rewrite after_extraction_db. }
  rewrite (onboarding_step_completes S st w uid Hon Hid Hmiss). cbv zeta.
  rewrite after_extraction_db.
  pose proof (save_user_profile_other (now S) (db w) uid
                (profile_after_extraction S st) uid' Hne) as Hsaved.
  destruct (store_raises S AtSaveProfile).
  { cbn [snd]. by rewrite after_extraction_db. }
  destruct (truthy _); [done|].
  destruct (llm_gemini S BackstoryChain);
    [destruct (store_raises S AtSaveBackstory)|]; try done.
  cbn [snd db]. unfold SQLiteStore.save_backstory.
  by rewrite lookup_alter_ne.
Qed.

Lemma check_keeps_user_id S st w u uid :
  user_id st = Some uid ->
  check_user_profile_node S st w = (Ok u, w) ->
  user_id (apply_update st u) = Some uid.
Proof.
  intros Hid Hcheck.
  destruct (decide (uid = "")) as [->|Hne].
  - unfold check_user_profile_node in Hcheck. rewrite Hid in Hcheck.
    cbn in Hcheck. injection Hcheck as <-. cbn. by rewrite Hid.
  - destruct (check_user_profile_node_cases S st w uid Hid Hne)
      as (u' & Hcheck' & Hu & _).
    rewrite Hcheck in Hcheck'. injection Hcheck' as <-.
    cbn. by rewrite Hu.
Qed.

(** X10: A run of the graph for one user never changes the row of another
    user, whatever the chains answer and wherever SQLite fails. *)
Theorem run_workflow_touches_one_user S st w uid uid' :
  user_id st = Some uid -> uid <> uid' ->
  db (snd (run_workflow S st w)) !! uid' = db w !! uid'.
Proof.
  intros Hid Hne.
  destruct (run_workflow_branch S st w) as (u & Hcheck & ->).
  pose proof (check_keeps_user_id S st _ u uid Hid Hcheck) as Hid1.
  destruct (route_after_checking_profile (apply_update st u)).
  2-4: by destruct (quiet_supervisor_branch S (apply_update st u)
                      (logged w [WorkflowInvoke])) as (-> & _).
  unfold step, bind, ret.
  pose proof (onboarding_step_other_user S (apply_update st u)
                (logged w [WorkflowInvoke]) uid uid' Hid1 Hne) as Hstep.
  by destruct (onboarding_step_node S (apply_update st u)
                 (logged w [WorkflowInvoke])) as [[u2|e2] w2].
Qed.

Lemma run_workflow_touches_one_user_witness :
  db (snd (run_workflow Examples.services_ok
             (new_conversation {| message := "Hi"; cm_user_id := "u2" |})
             (Examples.with_row "u1" Examples.asha_row))) !! "u1"
  = Some Examples.asha_row.
Proof.
  rewrite (run_workflow_touches_one_user Examples.services_ok
             (new_conversation {| message := "Hi"; cm_user_id := "u2" |})
             (Examples.with_row "u1" Examples.asha_row) "u2" "u1");
    [reflexivity | reflexivity | discriminate].
Defined.

(** X11: The onboarding step writes to the store only when it completes: while
    a required field is missing the table stays as it is, so a partial
    profile lives in the graph state alone. *)
Theorem partial_profile_is_never_stored S st w f rest :
  missing_fields (profile_after_extraction S st) = f :: rest ->
  db (snd (onboarding_step_node S st w)) = db w /\
  (is_onboarding st = Some true -> is_Some (user_id st) ->
   exists u w',
     onboarding_step_node S st w = (Ok u, w') /\
     u_is_onboarding u = Some true /\
     u_user_profile_data u = Some (profile_after_extraction S st)).
Proof.
  intros Hmiss.
  destruct (is_onboarding st) as [[|]|] eqn:Hon.
  2,3: rewrite onboarding_step_not_onboarding by (by rewrite Hon);
       split; [reflexivity | intros [=]].
  destruct (user_id st) as [uid|] eqn:Hid.
  2: { rewrite (onboarding_step_no_user S st w Hon Hid).
       split; [reflexivity | intros _ [? [=]]]. }
  rewrite (onboarding_step_asks S st w uid f rest Hon Hid Hmiss).
  cbn [snd]. rewrite after_extraction_db. split; [reflexivity|].
  intros _ _. by eexists _, _.
Qed.

Lemma partial_profile_is_never_stored_witness :
  db (snd (onboarding_step_node Examples.services_ok
             (Examples.onboarding_state "u1"
                (delete "brand_style" Examples.asha_profile)
                [HumanMessage "hello"])
             Examples.fresh)) = ∅.
Proof.
  apply (partial_profile_is_never_stored Examples.services_ok
           (Examples.onboarding_state "u1"
              (delete "brand_style" Examples.asha_profile)
              [HumanMessage "hello"])
           Examples.fresh "brand_style" []).
  vm_compute. reflexivity.
Defined.


(** ** The supervisor path *)

Lemma get_profile_safely_run S site uid w :
  exists d, get_profile_safely S site uid w = (Ok d, w).
Proof.
  unfold get_profile_safely, try_except, bind, store_get_user_profile, ret.
  destruct (store_raises S site); eauto.
Qed.

Lemma supervisor_agent_node_run S st w :
  supervisor_agent_node S st w
  = match user_id st, last (messages st), llm_gemini S IntentChain with
    | None, _, _ => (Raise (Exception "'user_id'"), w)
    | Some _, None, _ =>
        (Raise (Exception "list index out of range"), w)
    | Some _, Some _, Ok raw =>
        (Ok (intent_update (lower (strip raw))), logged w [Invoke IntentChain])
    | Some _, Some _, Raise e => (Raise e, logged w [Invoke IntentChain])
    end.
Proof.
  unfold supervisor_agent_node, state_user_id, last_message_content.
  destruct (user_id st) as [uid|]; [|reflexivity].
  unfold bind at 1. unfold ret at 1.
  unfold bind at 1.
  destruct (get_profile_safely_run S AtSupervisor uid w) as (d & ->).
  destruct (last (messages st)) as [m|]; [|reflexivity].
  unfold bind, ret, invoke, bind, emit, of_result. cbn.
  by destruct (llm_gemini S IntentChain).
Qed.

Lemma general_query_node_run S st w :
  general_query_node S st w
  = match user_id st, last (messages st), llm_gemini S GeneralChain with
    | None, _, _ => (Raise (Exception "'user_id'"), w)
    | Some _, None, _ =>
        (Raise (Exception "list index out of range"), w)
    | Some _, Some _, Ok response =>
        (Ok (tool_output_update response), logged w [Invoke GeneralChain])
    | Some _, Some _, Raise e => (Raise e, logged w [Invoke GeneralChain])
    end.
Proof.
  unfold general_query_node, state_user_id, last_message_content.
  destruct (user_id st) as [uid|]; [|reflexivity].
  unfold bind at 1. unfold ret at 1.
  unfold bind at 1.
  destruct (get_profile_safely_run S AtGeneral uid w) as (d & ->).
  destruct (last (messages st)) as [m|]; [|reflexivity].
  unfold bind, ret, invoke, bind, emit, of_result. cbn.
  by destruct (llm_gemini S GeneralChain).
Qed.

Lemma welfare_search_node_run S st w :
  welfare_search_node S st w
  = match last (messages st), user_id st with
    | None, _ => (Raise (Exception "list index out of range"), w)
    | Some _, None => (Raise (Exception "'user_id'"), w)
    | Some _, Some _ =>
        (Ok (tool_output_update (fst (welfare_outcome S))),
         logged w (snd (welfare_outcome S)))
    end.
Proof.
  unfold welfare_search_node, state_user_id, last_message_content.
  destruct (last (messages st)) as [m|]; [|reflexivity].
  unfold bind at 1. unfold ret at 1.
  destruct (user_id st) as [uid|]; [|reflexivity].
  unfold bind at 1. unfold ret at 1.
  unfold bind at 1.
  destruct (get_profile_safely_run S AtWelfare uid w) as (d & ->).
  unfold welfare_outcome, try_except, bind, ret, search_invoke, invoke, bind,
    emit, of_result, logged.
  cbn.
  destruct (web_search_tool S); [|reflexivity].
  destruct (llm_gemini S SummaryChain); cbn; by rewrite <- app_assoc.
Qed.

Lemma final_response_node_run S st w :
  final_response_node S st w
  = let tool_output := default EmptyString (tool_output st) in
    if contains "form" (lower tool_output)
    then (Ok (final_update tool_output), w)
    else match llm_gemini S FinalChain with
         | Ok final_text =>
             (Ok (final_update final_text), logged w [Invoke FinalChain])
         | Raise e => (Raise e, logged w [Invoke FinalChain])
         end.
Proof.
  unfold final_response_node. cbv zeta.
  destruct (contains "form" _); [reflexivity|].
  unfold bind, ret, invoke, bind, emit, of_result. cbn.
  by destruct (llm_gemini S FinalChain).
Qed.

Lemma map_intent_cases t :
  map_intent t = "welfare_search" \/ map_intent t = "general_query".
Proof. unfold map_intent. destruct (_ || _); auto. Qed.

(** What a run of the supervisor path that returns has done: one handler
    ran, chosen by the mapped intent, its text is the [tool_output], and
    the state's messages are the final text alone. *)
Lemma supervisor_branch_result S st w rs w' :
  supervisor_branch S st w = (Ok rs, w') ->
  exists raw out t,
    llm_gemini S IntentChain = Ok raw /\
    intent rs = Some (map_intent (lower (strip raw))) /\
    out = (if String.eqb (map_intent (lower (strip raw))) "welfare_search"
           then fst (welfare_outcome S)
           else default "" (match llm_gemini S GeneralChain with
                            | Ok response => Some response
                            | Raise _ => None
                            end)) /\
    tool_output rs = Some out /\
    t = (if contains "form" (lower out) then out
         else match llm_gemini S FinalChain with
              | Ok final_text => final_text
              | Raise _ => ""
              end) /\
    messages rs = [AIMessage t] /\
    final_response_text rs = Some t /\
    is_onboarding rs = is_onboarding st /\
    user_profile_data rs = user_profile_data st /\
    user_id rs = user_id st /\
    db w' = db w.
Proof.
  unfold supervisor_branch, step. unfold bind at 1. unfold bind at 1.
  rewrite supervisor_agent_node_run.
  destruct (user_id st) as [uid|] eqn:Hid; [|discriminate].
  destruct (last (messages st)) as [m|] eqn:Hlast; [|discriminate].
  destruct (llm_gemini S IntentChain) as [raw|e] eqn:Hintent; [|discriminate].
  unfold ret at 1.
  set (st1 := apply_update st (intent_update (lower (strip raw)))).
  assert (Hst1 : user_id st1 = Some uid /\ last (messages st1) = Some m /\
                 intent st1 = Some (map_intent (lower (strip raw)))).
  { unfold st1. cbn. by rewrite Hid, Hlast. }
  destruct Hst1 as (Hid1 & Hlast1 & Hint1).
  unfold bind at 1. unfold route_after_supervisor. rewrite Hint1.
  cbn [default from_option id].
  intros H. exists raw.
  destruct (map_intent_cases (lower (strip raw))) as [Hm|Hm]; rewrite Hm in *;
    cbn [String.eqb Ascii.eqb Bool.eqb] in H |- *; unfold bind, ret in H.
  - rewrite welfare_search_node_run, Hid1, Hlast1 in H.
    rewrite final_response_node_run in H. cbv zeta in H.
    cbn [apply_update tool_output tool_output_update u_tool_output from_option
         default id] in H.
    destruct (contains "form" (lower (fst (welfare_outcome S)))) eqn:Hform.
    + injection H as <- <-. eexists _, _. rewrite Hform.
      repeat split; try reflexivity; cbn; by rewrite ?Hm, ?Hid.
    + destruct (llm_gemini S FinalChain) as [t|e]; [|discriminate H].
      injection H as <- <-. eexists _, _. rewrite Hform.
      repeat split; try reflexivity; cbn; by rewrite ?Hm, ?Hid.
  - rewrite general_query_node_run, Hid1, Hlast1 in H.
    destruct (llm_gemini S GeneralChain) as [response|e]; [|discriminate H].
    rewrite final_response_node_run in H. cbv zeta in H.
    cbn [apply_update tool_output tool_output_update u_tool_output from_option
         default id] in H.
    destruct (contains "form" (lower response)) eqn:Hform.
    + injection H as <- <-. eexists _, _. cbn [default]. rewrite Hform.
      repeat split; try reflexivity; cbn; by rewrite ?Hm, ?Hid.
    + destruct (llm_gemini S FinalChain) as [t|e]; [|discriminate H].
      injection H as <- <-. eexists _, _. cbn [default]. rewrite Hform.
      repeat split; try reflexivity; cbn; by rewrite ?Hm, ?Hid.
Qed.

(** X13: Whatever text the intent classifier returns, the conditional edge
    after the supervisor has a node for it: the text is mapped to
    [welfare_search] when it holds one of three keywords and to
    [general_query] otherwise, so the edge's lookup never fails. *)
Theorem supervisor_intent_is_routable S st w st1 w1 :
  step (supervisor_agent_node S) st w = (Ok st1, w1) ->
  exists raw,
    llm_gemini S IntentChain = Ok raw /\
    route_after_supervisor st1 w1
    = (Ok (if contains "welfare" (lower (strip raw))
              || contains "scheme" (lower (strip raw))
              || contains "benefit" (lower (strip raw))
           then NWelfareSearch else NGeneralQuery), w1).
Proof.
  unfold step, bind. rewrite supervisor_agent_node_run.
  destruct (user_id st); [|discriminate].
  destruct (last (messages st)); [|discriminate].
  destruct (llm_gemini S IntentChain) as [raw|e]; [|discriminate].
  intros [= <- <-]. exists raw. split; [reflexivity|].
  unfold route_after_supervisor.
  cbn [apply_update intent intent_update u_intent from_option default id].
  unfold map_intent. by destruct (_ || _).
Qed.

Lemma supervisor_intent_is_routable_witness :
  exists st1 w1,
    step (supervisor_agent_node
            (Examples.services_chain_down ExtractionChain))
      (new_conversation {| message := "thank you"; cm_user_id := "u1" |})
      Examples.fresh = (Ok st1, w1) /\
    route_after_supervisor st1 w1 = (Ok NGeneralQuery, w1).
Proof.
  eexists _, _. split; [reflexivity|].
  destruct (supervisor_intent_is_routable
              (Examples.services_chain_down ExtractionChain)
              (new_conversation {| message := "thank you"; cm_user_id := "u1" |})
              Examples.fresh _ _ eq_refl) as (raw & Hraw & Hroute).
  injection Hraw as <-. exact Hroute.
Defined.

(** X14: A [/chat] turn of a user who has a stored row (and whose check reads
    it) changes nothing in the store and never invokes the backstory
    chain. When it answers 200, onboarding is off, the profile of the
    response is the stored row with its [NULL] columns left out (so it
    carries [user_id]), and the state keeps the final text as its only
    message: the earlier messages of the conversation are dropped. *)
Theorem onboarded_chat_turn S checkpoint chat_message w uid r :
  user_id (chat_input checkpoint chat_message) = Some uid ->
  uid <> "" -> db w !! uid = Some r ->
  store_raises S AtCheck = None ->
  let out := chat_endpoint S checkpoint chat_message w in
  db (snd out) = db w /\
  (Invoke BackstoryChain ∉ new_events w (snd out)) /\
  forall resp st', fst out = Http200 (resp, st') ->
    cr_is_onboarding resp = false /\
    cr_user_profile resp
    = coerce_profile_to_strings (SQLiteStore.row_dict uid r) /\
    cr_user_profile resp !! "user_id" = Some uid /\
    exists t,
      messages st' = [AIMessage t] /\
      final_response_text st' = Some t /\
      response resp
      = if String.eqb t "" then "I'm sorry, I couldn't process that request."
        else t.
Proof.
  intros Hid Hne Hrow Hread. cbv zeta.
  set (input := chat_input checkpoint chat_message) in *.
  destruct (run_workflow_branch S input w) as (u & Hcheck & Hbranch).
  set (w0 := logged w [WorkflowInvoke]) in *.
  destruct (check_user_profile_node_cases S input w0 uid Hid Hne)
    as (u' & Hcheck' & Huid & _ & _ & Hu).
  rewrite Hcheck in Hcheck'. injection Hcheck' as <-.
  change (db w0 !! uid) with (db w !! uid) in Hu.
  rewrite Hread, Hrow in Hu. destruct Hu as (Hf & Hp & _).
  set (st1 := apply_update input u) in *.
  assert (Hon : is_onboarding st1 = Some false) by (cbn; by rewrite Hf).
  assert (Hprof : user_profile_data st1 = Some (SQLiteStore.row_dict uid r))
    by (cbn; by rewrite Hp).
  assert (Hroute : route_after_checking_profile st1 = NSupervisor)
    by (unfold route_after_checking_profile; by rewrite Hon).
  rewrite Hroute in Hbranch.
  rewrite chat_endpoint_world. fold input. rewrite Hbranch.
  destruct (quiet_supervisor_branch S st1 w0) as (Hdb & evs & Hlog & Hevs).
  split; [exact Hdb|]. split.
  { rewrite (new_events_app w _ (WorkflowInvoke :: evs)).
    - intros Hin. apply elem_of_cons in Hin as [Hin|Hin]; [discriminate|done].
    - rewrite Hlog. unfold w0, logged. cbn [log]. by rewrite <- app_assoc. }
  intros resp st' Hout.
  destruct (run_workflow S input w) as [[rs|e] w'] eqn:Hrun.
  2: { rewrite (chat_endpoint_raise S checkpoint chat_message w e w' Hrun) in Hout.
       discriminate Hout. }
  destruct (chat_endpoint_ok S checkpoint chat_message w rs w' Hrun)
    as (resp0 & Hend & Hresp).
  rewrite Hend in Hout. injection Hout as -> ->.
  destruct (chat_response_returns S chat_message st' w')
    as (resp1 & Hresp1 & Hresponse & Hflag & _ & Hprofile).
  rewrite Hresp in Hresp1. injection Hresp1 as <-.
  symmetry in Hbranch.
  destruct (supervisor_branch_result S st1 w0 st' w' Hbranch)
    as (raw & out & t & _ & _ & _ & _ & _ & Hmsgs & Hfinal & Hon' & Hprof' & _).
  rewrite Hon', Hon in Hflag. rewrite Hprof', Hprof in Hprofile.
  cbn [default] in Hflag, Hprofile.
  specialize (Hprofile (row_dict_truthy uid r)).
  split; [exact Hflag|]. split; [exact Hprofile|]. split.
  { rewrite Hprofile. unfold id, coerce_profile_to_strings.
    rewrite lookup_omap. reflexivity. }
  exists t. split; [exact Hmsgs|]. split; [exact Hfinal|].
  rewrite Hresponse, Hmsgs. reflexivity.
Qed.

Lemma onboarded_chat_turn_witness :
  let out := chat_endpoint Examples.services_ok None
               {| message := "thank you"; cm_user_id := "u1" |}
               (Examples.with_row "u1" Examples.asha_row) in
  db (snd out) = {[ "u1" := Examples.asha_row ]} /\
  (Invoke BackstoryChain
     ∉ new_events (Examples.with_row "u1" Examples.asha_row) (snd out)).
Proof.
  destruct (onboarded_chat_turn Examples.services_ok None
              {| message := "thank you"; cm_user_id := "u1" |}
              (Examples.with_row "u1" Examples.asha_row) "u1"
              Examples.asha_row) as (H1 & H2 & _).
  1,3,4: reflexivity.
  - discriminate.
  - split; [exact H1 | exact H2].
Defined.

(** ** The websocket *)

Lemma websocket_check_starts_onboarding S saved uid msg w :
  uid <> "" -> db w !! uid = None ->
  check_user_profile_node S (websocket_initial_state saved uid msg) w
  = (Ok (start_onboarding uid (websocket_initial_state saved uid msg)), w).
Proof.
  intros Hne Hrow.
  unfold check_user_profile_node.
  cbn [user_id websocket_initial_state].
  rewrite (eqb_nonempty uid Hne).
  unfold bind, try_except, store_get_user_profile, ret,
    SQLiteStore.get_user_profile.
  rewrite Hrow.
  by destruct (store_raises S AtCheck).
Qed.

(** X15: Over the websocket, onboarding never accumulates answers: every
    message starts from an empty profile, whatever state is saved for the
    thread, so for a user without a row the reply is the question for the
    first field that this one message's extraction leaves missing, and
    nothing is stored. *)
Theorem websocket_onboarding_does_not_accumulate S saved uid msg w f rest :
  uid <> "" -> db w !! uid = None ->
  let p := if String.eqb msg "" then ∅ else default ∅ (extracted_data S) in
  missing_fields p = f :: rest ->
  websocket_turn S saved uid msg w
  = (Ok {| ws_response := question_for f; ws_is_onboarding := true |},
     logged w (if String.eqb msg "" then [WorkflowInvoke]
               else [WorkflowInvoke; Invoke ExtractionChain])).
Proof.
  intros Hne Hrow p Hmiss.
  unfold websocket_turn. unfold bind at 1.
  set (input := websocket_initial_state saved uid msg).
  destruct (run_workflow_branch S input w) as (u & Hcheck & ->).
  set (w0 := logged w [WorkflowInvoke]) in *.
  rewrite (websocket_check_starts_onboarding S saved uid msg w0 Hne Hrow
           : check_user_profile_node S input w0 = _) in Hcheck.
  injection Hcheck as <-. fold input.
  set (st1 := apply_update input (start_onboarding uid input)).
  assert (Hst1 : is_onboarding st1 = Some true /\ user_id st1 = Some uid /\
                 user_profile_data st1 = Some ∅ /\
                 messages st1 = [HumanMessage msg; AIMessage welcome_message]).
  { by vm_compute. }
  destruct Hst1 as (Hon & Hid & Hprof & Hmsgs).
  assert (Hp : profile_after_extraction S st1 = p).
  { unfold profile_after_extraction, p. rewrite Hprof, Hmsgs.
    change (last_human_content [HumanMessage msg; AIMessage welcome_message])
      with msg.
    cbn [default]. destruct (String.eqb msg ""); [reflexivity|].
    destruct (extracted_data S) as [e|]; [|reflexivity].
    exact (map_union_empty e). }
  assert (Hw : after_extraction st1 w0
               = logged w (if String.eqb msg "" then [WorkflowInvoke]
                           else [WorkflowInvoke; Invoke ExtractionChain])).
  { unfold after_extraction. rewrite Hmsgs.
    change (last_human_content [HumanMessage msg; AIMessage welcome_message])
      with msg.
    destruct (String.eqb msg ""); [reflexivity|].
    unfold w0, logged. cbn [db log]. by rewrite <- app_assoc. }
  unfold route_after_checking_profile. rewrite Hon. cbn [default].
  unfold step, bind.
  rewrite <- Hp in Hmiss.
  rewrite (onboarding_step_asks S st1 w0 uid f rest Hon Hid Hmiss), Hw.
  reflexivity.
Qed.

Lemma websocket_onboarding_does_not_accumulate_witness :
  websocket_turn Examples.services_ok
    (Some (Examples.onboarding_state "u1"
             (delete "brand_style" Examples.asha_profile) []))
    "u1" "earthy" Examples.fresh
  = (Ok {| ws_response := "What should I call your brand or what's your name?";
           ws_is_onboarding := true |},
     logged Examples.fresh [WorkflowInvoke; Invoke ExtractionChain]).
Proof.
  apply (websocket_onboarding_does_not_accumulate Examples.services_ok _
           "u1" "earthy" Examples.fresh "name"
           [ "state"; "craft_type"; "materials"; "years_experience";
             "sales_channels"; "price_range"; "languages"; "brand_style" ]).
  - discriminate.
  - reflexivity.
  - vm_compute. reflexivity.
Defined.

(** ** The stores the server can reach *)

Lemma delete_rows_complete db0 uid :
  rows_complete db0 -> rows_complete (SQLiteStore.delete_user_profile db0 uid).
Proof.
  intros H uid' r Hr. apply H.
  unfold SQLiteStore.delete_user_profile in Hr.
  by apply lookup_delete_Some in Hr as [_ Hr].
Qed.

Lemma delete_endpoint_table faults db0 uid :
  snd (delete_user_profile_endpoint faults db0 uid) = db0 \/
  snd (delete_user_profile_endpoint faults db0 uid)
  = SQLiteStore.delete_user_profile db0 uid.
Proof.
  unfold delete_user_profile_endpoint.
  destruct (invalid_user_id uid); [by left|].
  destruct (faults AtDeleteRead); [by left|].
  destruct (nonempty_dict _); [|by left].
  destruct (faults AtDeleteWrite); [by left|by right].
Qed.

Lemma websocket_turn_world S saved uid msg w :
  snd (websocket_turn S saved uid msg w)
  = snd (run_workflow S (websocket_initial_state saved uid msg) w).
Proof.
  unfold websocket_turn, bind, ret.
  by destruct (run_workflow S _ w) as [[rs|e] w'].
Qed.

Lemma serve_request_rows_complete r w :
  rows_complete (db w) -> rows_complete (db (serve_request r w)).
Proof.
  intros H. destruct r as [S checkpoint chat_message|S saved uid msg|faults uid];
    cbn [serve_request].
  - rewrite chat_endpoint_world. by apply run_workflow_rows_complete.
  - rewrite websocket_turn_world. by apply run_workflow_rows_complete.
  - cbn [db]. destruct (delete_endpoint_table faults (db w) uid) as [-> | ->];
      [done | by apply delete_rows_complete].
Qed.

Lemma serve_rows_complete history w :
  rows_complete (db w) -> rows_complete (db (serve history w)).
Proof.
  revert w. induction history as [|r history IH]; intros w H; [done|].
  cbn [serve]. by apply IH, serve_request_rows_complete.
Qed.

(** X16: where every profile value is a string or [None] (so for
    extractors whose objects hold strings and nulls only): on a server that
    starts with an empty table, after any history of [/chat] calls,
    websocket messages and profile deletions, every row is a complete
    profile (the step saves only when no required field is missing). So
    whenever the check reads the store, the flag it sets is true exactly
    when no complete profile is stored for the user. *)
Theorem reachable_store_holds_complete_profiles history log0 S st uid :
  let w := serve history {| db := ∅; log := log0 |} in
  rows_complete (db w) /\
  (user_id st = Some uid -> uid <> "" -> store_raises S AtCheck = None ->
   exists st',
     step (check_user_profile_node S) st w = (Ok st', w) /\
     (is_onboarding st' = Some true <-> has_complete_profile (db w) uid = false) /\
     (is_onboarding st' = Some false <-> has_complete_profile (db w) uid = true)).
Proof.
  cbv zeta. set (w := serve history _).
  assert (Hrows : rows_complete (db w)).
  { apply serve_rows_complete. intros uid' r Hr. cbn [db] in Hr.
    by rewrite lookup_empty in Hr. }
  split; [exact Hrows|].
  intros Hid Hne Hread.
  destruct (check_user_profile_node_cases S st w uid Hid Hne)
    as (u & Hcheck & _ & _ & _ & Hu).
  exists (apply_update st u).
  split; [unfold step, bind, ret; by rewrite Hcheck|].
  rewrite Hread in Hu.
  unfold has_complete_profile, SQLiteStore.get_user_profile.
  destruct (db w !! uid) as [r|] eqn:Hrow; cbn [fmap option_fmap option_map].
  - destruct Hu as (Hf & _). rewrite (Hrows uid r Hrow).
    cbn. rewrite Hf. cbn. split; split; (discriminate || reflexivity || auto).
  - destruct Hu as (Hf & _).
    cbn. rewrite Hf. cbn. split; split; (discriminate || reflexivity || auto).
Qed.

Lemma reachable_store_holds_complete_profiles_witness :
  let history :=
    [ ChatRequest Examples.services_ok (Some (Examples.completion_state "u1"))
        {| message := ""; cm_user_id := "u1" |};
      WebSocketMessage Examples.services_ok None "u2" "Hi";
      DeleteRequest (fun _ => None) "u3" ] in
  let w := serve history Examples.fresh in
  rows_complete (db w) /\
  exists st',
    step (check_user_profile_node Examples.services_ok)
      (new_conversation {| message := "Hi"; cm_user_id := "u2" |}) w
    = (Ok st', w) /\
    (is_onboarding st' = Some true <-> has_complete_profile (db w) "u2" = false).
Proof.
  cbv zeta.
  match goal with
  | |- rows_complete (db (serve ?h _)) /\ _ =>
      destruct (reachable_store_holds_complete_profiles h []
                  Examples.services_ok
                  (new_conversation {| message := "Hi"; cm_user_id := "u2" |})
                  "u2") as (Hrows & Hcheck)
  end.
  split; [exact Hrows|].
  destruct Hcheck as (st' & Hstep & Htrue & _);
    [reflexivity | discriminate | reflexivity |].
  exists st'. split; [exact Hstep | exact Htrue].
Defined.

(** ** The endpoints for a stored profile *)

Lemma save_backstory_stored now db uid text :
  is_Some (db !! uid) ->
  stored_backstory (SQLiteStore.save_backstory now db uid text) uid = PyStr text.
Proof.
  intros [r Hr].
  rewrite (stored_backstory_row _ uid (SQLiteStore.set_backstory now text r)).
  - reflexivity.
  - unfold SQLiteStore.save_backstory. by rewrite lookup_alter_eq, Hr.
Qed.

Lemma save_user_profile_is_Some now db uid (p : pydict) :
  is_Some (SQLiteStore.save_user_profile now db uid p !! uid).
Proof. destruct (save_user_profile_lookup now db uid p) as (r & -> & _). eauto. Qed.

Lemma nonempty_get_user_profile db uid :
  nonempty_dict (SQLiteStore.get_user_profile db uid)
  = SQLiteStore.get_user_profile db uid.
Proof.
  unfold SQLiteStore.get_user_profile.
  destruct (db !! uid) as [r|]; [|reflexivity].
  cbn [fmap option_fmap option_map nonempty_dict].
  by rewrite row_dict_truthy.
Qed.

(** [GET /user/{user_id}/backstory] answers 200 exactly when the id is
    valid, the read succeeds and the row holds a non-empty backstory, and
    then with that backstory; a user without a row and a row without a
    backstory both give 404, with different details. *)
Lemma get_user_backstory_answers faults db uid :
  invalid_user_id uid = false ->
  faults AtBackstoryRead = None ->
  get_user_backstory_endpoint faults db uid
  = match db !! uid with
    | None => HTTPException 404 "User profile not found"
    | Some r =>
        match SQLiteStore.backstory r with
        | PyStr (String c s) => Http200 (uid, String c s)
        | _ =>
            HTTPException 404
              "Backstory not found. Complete onboarding to generate one."
        end
    end.
Proof.
  intros Hvalid Hread. unfold get_user_backstory_endpoint.
  rewrite Hvalid, Hread, nonempty_get_user_profile.
  unfold SQLiteStore.get_user_profile.
  destruct (db !! uid) as [r|]; [|reflexivity].
  cbn [fmap option_fmap option_map].
  change (dict_get (SQLiteStore.row_dict uid r) "backstory")
    with (SQLiteStore.backstory r).
  by destruct (SQLiteStore.backstory r) as [|[|c s]].
Qed.

(** X17: the backstory an onboarding step returns is the one it stored, and
    the step's final text announces it. What [GET /user/{user_id}/backstory]
    answers afterwards: 400 for an empty or blank user id (which [/chat]
    onboards all the same), 500 when its read raises, else 200 with that
    backstory, but for a backstory that came out empty, which gets 404. *)
Theorem generated_backstory_is_served S st w uid u w' b faults :
  user_id st = Some uid ->
  onboarding_step_node S st w = (Ok u, w') ->
  u_backstory u = Some (Some b) ->
  stored_backstory (db w') uid = PyStr b /\
  u_final_response_text u
  = Some (completion_message (profile_after_extraction S st)
          +:+ backstory_notice) /\
  get_user_backstory_endpoint faults (db w') uid
  = if invalid_user_id uid then HTTPException 400 "Invalid user ID"
    else match faults AtBackstoryRead with
         | Some e =>
             HTTPException 500 ("Error retrieving backstory: " +:+ exn_str e)
         | None =>
             if String.eqb b "" then
               HTTPException 404
                 "Backstory not found. Complete onboarding to generate one."
             else Http200 (uid, b)
         end.
Proof.
  intros Hid Hrun Hb.
  assert (Hstored : stored_backstory (db w') uid = PyStr b /\
                    u_final_response_text u
                    = Some (completion_message (profile_after_extraction S st)
                            +:+ backstory_notice)).
  { destruct (is_onboarding st) as [[|]|] eqn:Hon.
    2,3: rewrite onboarding_step_not_onboarding in Hrun by (by rewrite Hon);
         injection Hrun as <- <-; discriminate Hb.
    destruct (missing_fields (profile_after_extraction S st)) as [|f rest] eqn:Hmiss.
    2: { rewrite (onboarding_step_asks S st w uid f rest Hon Hid Hmiss) in Hrun.
         injection Hrun as <- <-. discriminate Hb. }
    rewrite (onboarding_step_completes S st w uid Hon Hid Hmiss) in Hrun.
    cbv zeta in Hrun.
    destruct (store_raises S AtSaveProfile); [discriminate Hrun|].
    destruct (truthy _).
    { injection Hrun as <- <-. discriminate Hb. }
    destruct (llm_gemini S BackstoryChain) as [raw|e];
      [destruct (store_raises S AtSaveBackstory)|].
    1,3: injection Hrun as <- <-; discriminate Hb.
    injection Hrun as <- <-. cbn in Hb. injection Hb as <-.
    split; [|reflexivity]. cbn [db].
    apply save_backstory_stored, save_user_profile_is_Some. }
  split; [apply Hstored|]. split; [apply Hstored|].
  destruct Hstored as (Hstored & _).
  destruct (invalid_user_id uid) eqn:Hvalid.
  { unfold get_user_backstory_endpoint. by rewrite Hvalid. }
  destruct (faults AtBackstoryRead) as [e|] eqn:Hread.
  { unfold get_user_backstory_endpoint. by rewrite Hvalid, Hread. }
  rewrite (get_user_backstory_answers faults (db w') uid Hvalid Hread).
  destruct (db w' !! uid) as [r|] eqn:Hrow.
  - rewrite (stored_backstory_row _ _ _ Hrow) in Hstored.
    rewrite Hstored. by destruct b.
  - rewrite (stored_backstory_none _ _ Hrow) in Hstored. discriminate Hstored.
Qed.

Lemma generated_backstory_is_served_witness :
  let run := onboarding_step_node Examples.services_ok
               (Examples.completion_state "u1") Examples.fresh in
  stored_backstory (db (snd run)) "u1" = PyStr "Clay has shaped my days." /\
  get_user_backstory_endpoint (fun _ => None) (db (snd run)) "u1"
  = Http200 ("u1", "Clay has shaped my days.") /\
  get_user_backstory_endpoint (fun _ => None)
    (db (snd (onboarding_step_node Examples.services_ok
                (Examples.completion_state " ") Examples.fresh))) " "
  = HTTPException 400 "Invalid user ID".
Proof.
  cbv zeta.
  destruct (onboarding_step_node Examples.services_ok
              (Examples.completion_state "u1") Examples.fresh)
    as [[u|e] w'] eqn:Hrun.
  2: { vm_compute in Hrun. discriminate Hrun. }
  assert (Hb : u_backstory u = Some (Some "Clay has shaped my days.")).
  { vm_compute in Hrun. injection Hrun as <- _. reflexivity. }
  destruct (generated_backstory_is_served Examples.services_ok
              (Examples.completion_state "u1") Examples.fresh "u1" u w'
              "Clay has shaped my days." (fun _ => None)
              eq_refl Hrun Hb) as (H1 & _ & H2).
  split; [exact H1|]. split; [exact H2 | reflexivity].
Defined.
(** X18: for a profile whose values are strings or [None], a user id that
    is not empty or blank, and a read that succeeds: the profile a
    completed onboarding saved is what [GET /user/{user_id}/profile]
    returns, the nine required fields of the response being those of the
    profile, each a non-empty string. *)
Theorem completed_profile_is_served S st w uid faults :
  is_onboarding st = Some true -> user_id st = Some uid ->
  missing_fields (profile_after_extraction S st) = [] ->
  store_raises S AtSaveProfile = None ->
  invalid_user_id uid = false ->
  faults AtProfileRead = None ->
  let p := profile_after_extraction S st in
  let w' := snd (onboarding_step_node S st w) in
  exists m,
    get_user_profile_endpoint faults (db w') uid = Http200 m /\
    up_user_id m = uid /\
    [ up_name m; up_state m; up_craft_type m; up_materials m;
      up_years_experience m; up_sales_channels m; up_price_range m;
      up_languages m; up_brand_style m ]
    = dict_get p <$> required_fields /\
    Forall (fun v => truthy v = true) (dict_get p <$> required_fields) /\
    up_backstory m = stored_backstory (db w') uid.
Proof.
  intros Hon Hid Hmiss Hsave Hvalid Hread. cbv zeta.
  set (p := profile_after_extraction S st) in *.
  set (db1 := SQLiteStore.save_user_profile (now S) (db w) uid p).
  assert (Hrow : exists r,
    db (snd (onboarding_step_node S st w)) !! uid = Some r /\
    forall c, c ∈ SQLiteStore.profile_columns ->
      SQLiteStore.row_dict uid r !! c = Some (dict_get p c)).
  { destruct (save_user_profile_lookup (now S) (db w) uid p)
      as (r1 & Hr1 & _ & Hcols).
    fold db1 in Hr1.
    rewrite (onboarding_step_completes S st w uid Hon Hid Hmiss). cbv zeta.
    rewrite Hsave, after_extraction_db. fold p. fold db1.
    destruct (truthy _); [by exists r1|].
    destruct (llm_gemini S BackstoryChain) as [raw|e];
      [destruct (store_raises S AtSaveBackstory)|]; try (by exists r1).
    cbn [snd db].
    exists (SQLiteStore.set_backstory (now S) (compose_backstory (strip raw)) r1).
    split.
    - unfold SQLiteStore.save_backstory. by rewrite lookup_alter_eq, Hr1.
    - intros c Hc. rewrite <- (Hcols c Hc).
      unfold SQLiteStore.profile_columns in Hc.
      repeat (apply elem_of_cons in Hc as [-> | Hc]; [reflexivity|]).
      by apply elem_of_nil in Hc. }
  destruct Hrow as (r & Hr & Hcols).
  assert (Hget : forall c, c ∈ SQLiteStore.profile_columns ->
            dict_get (SQLiteStore.row_dict uid r) c = dict_get p c).
  { intros c Hc. unfold dict_get at 1. by rewrite (Hcols c Hc). }
  clearbody p. clear Hcols db1.
  unfold get_user_profile_endpoint.
  rewrite Hvalid, Hread, nonempty_get_user_profile.
  unfold SQLiteStore.get_user_profile. rewrite Hr.
  cbn [fmap option_fmap option_map].
  eexists. split; [reflexivity|]. split; [reflexivity|].
  split; [|split].
  - unfold user_profile_model, required_fields.
    cbn [up_name up_state up_craft_type up_materials up_years_experience
         up_sales_channels up_price_range up_languages up_brand_style
         fmap list_fmap].
    rewrite (Hget "name"), (Hget "state"), (Hget "craft_type"),
      (Hget "materials"), (Hget "years_experience"), (Hget "sales_channels"),
      (Hget "price_range"), (Hget "languages"), (Hget "brand_style")
      by (unfold SQLiteStore.profile_columns; repeat constructor).
    reflexivity.
  - apply Forall_fmap, Forall_forall. intros f Hf.
    by apply complete_field_truthy.
  - cbn [up_backstory user_profile_model].
    by rewrite (stored_backstory_row _ _ _ Hr).
Qed.

Lemma completed_profile_is_served_witness :
  exists m,
    get_user_profile_endpoint (fun _ => None)
      (db (snd (onboarding_step_node Examples.services_ok
                  (Examples.completion_state "u1") Examples.fresh))) "u1"
    = Http200 m /\
    up_craft_type m = PyStr "pottery".
Proof.
  destruct (completed_profile_is_served Examples.services_ok
              (Examples.completion_state "u1") Examples.fresh "u1"
              (fun _ => None) eq_refl eq_refl)
    as (m & Hm & _ & Hfields & _).
  1-4: reflexivity.
  exists m. split; [exact Hm|].
  injection Hfields as _ _ -> _. reflexivity.
Defined.

(** X19: [DELETE /user/{user_id}/profile] answers 200 only for a user who had
    a row, and then the row is gone: the profile endpoint answers 404 and
    the next turn of the graph starts onboarding again. Any other answer
    leaves the table as it was. *)
Theorem delete_resets_onboarding faults db0 uid :
  let out := delete_user_profile_endpoint faults db0 uid in
  (forall msg, fst out = Http200 msg ->
     msg = "Profile for user " +:+ uid +:+ " deleted successfully" /\
     is_Some (db0 !! uid) /\
     snd out = SQLiteStore.delete_user_profile db0 uid /\
     (forall faults2, faults2 AtProfileRead = None ->
        get_user_profile_endpoint faults2 (snd out) uid
        = HTTPException 404 "User profile not found") /\
     (forall S st w, db w = snd out -> user_id st = Some uid ->
        exists st', step (check_user_profile_node S) st w = (Ok st', w) /\
                    is_onboarding st' = Some true)) /\
  (forall code detail, fst out = HTTPException code detail -> snd out = db0).
Proof.
  cbv zeta. unfold delete_user_profile_endpoint.
  destruct (invalid_user_id uid) eqn:Hvalid.
  { split; [intros msg [=]|reflexivity]. }
  destruct (faults AtDeleteRead).
  { split; [intros msg [=]|reflexivity]. }
  rewrite nonempty_get_user_profile. unfold SQLiteStore.get_user_profile.
  destruct (db0 !! uid) as [r|] eqn:Hrow; cbn [fmap option_fmap option_map].
  2: { split; [intros msg [=]|reflexivity]. }
  destruct (faults AtDeleteWrite).
  { split; [intros msg [=]|reflexivity]. }
  cbn [fst snd]. split; [|intros code detail [=]].
  intros msg [= <-].
  assert (Hgone : SQLiteStore.delete_user_profile db0 uid !! uid = None)
    by apply lookup_delete_eq.
  split; [reflexivity|]. split; [eauto|]. split; [reflexivity|]. split.
  - intros faults2 Hread. unfold get_user_profile_endpoint.
    rewrite Hvalid, Hread, nonempty_get_user_profile.
    unfold SQLiteStore.get_user_profile. by rewrite Hgone.
  - intros S st w Hdb Hid.
    assert (Hne : uid <> "") by (intros ->; discriminate Hvalid).
    destruct (check_user_profile_node_cases S st w uid Hid Hne)
      as (u & Hcheck & _ & _ & _ & Hu).
    exists (apply_update st u). split.
    { unfold step, bind, ret. by rewrite Hcheck. }
    rewrite Hdb, Hgone in Hu.
    destruct (store_raises S AtCheck); destruct Hu as (Hf & _);
      cbn; by rewrite Hf.
Qed.

Lemma delete_resets_onboarding_witness :
  let out := delete_user_profile_endpoint (fun _ => None)
               {[ "u1" := Examples.asha_row ]} "u1" in
  fst out = Http200 "Profile for user u1 deleted successfully" /\
  get_user_profile_endpoint (fun _ => None) (snd out) "u1"
  = HTTPException 404 "User profile not found".
Proof.
  cbv zeta. split; [reflexivity|].
  destruct (delete_resets_onboarding (fun _ => None)
              {[ "u1" := Examples.asha_row ]} "u1") as (Hok & _).
  destruct (Hok "Profile for user u1 deleted successfully" eq_refl)
    as (_ & _ & _ & Hgone & _).
  apply Hgone. reflexivity.
Defined.

(** ** A completed onboarding stays completed *)

Lemma save_user_profile_keeps_rows now db uid (p : pydict) uid' :
  is_Some (db !! uid') ->
  is_Some (SQLiteStore.save_user_profile now db uid p !! uid').
Proof.
  intros Hrow. destruct (decide (uid = uid')) as [<-|Hne].
  - apply save_user_profile_is_Some.
  - by rewrite save_user_profile_other.
Qed.

Lemma save_backstory_keeps_rows now db uid text uid' :
  is_Some (db !! uid') ->
  is_Some (SQLiteStore.save_backstory now db uid text !! uid').
Proof.
  intros [r Hr]. unfold SQLiteStore.save_backstory.
  destruct (decide (uid = uid')) as [<-|Hne].
  - rewrite lookup_alter_eq, Hr. by eexists.
  - rewrite lookup_alter_ne by done. by exists r.
Qed.

(** No node deletes a row. *)
Lemma onboarding_step_keeps_rows S st w uid' :
  is_Some (db w !! uid') ->
  is_Some (db (snd (onboarding_step_node S st w)) !! uid').
Proof.
  intros Hrow.
  destruct (is_onboarding st) as [[|]|] eqn:Hon.
  2,3: by rewrite onboarding_step_not_onboarding by (by rewrite Hon).
  destruct (user_id st) as [uid|] eqn:Hid.
  2: by rewrite (onboarding_step_no_user S st w Hon Hid).
  destruct (missing_fields (profile_after_extraction S st)) as [|f rest] eqn:Hmiss.
  2: { rewrite (onboarding_step_asks S st w uid f rest Hon Hid Hmiss).
       cbn [snd]. by rewrite after_extraction_db. }
  rewrite (onboarding_step_completes S st w uid Hon Hid Hmiss). cbv zeta.
  rewrite after_extraction_db.
  pose proof (save_user_profile_keeps_rows (now S) (db w) uid
                (profile_after_extraction S st) uid' Hrow) as Hsaved.
  destruct (store_raises S AtSaveProfile).
  { cbn [snd]. by rewrite after_extraction_db. }
  destruct (truthy _); [done|].
  destruct (llm_gemini S BackstoryChain);
    [destruct (store_raises S AtSaveBackstory)|]; try done.
  cbn [snd db]. by apply save_backstory_keeps_rows.
Qed.

Lemma run_workflow_keeps_rows S input w uid' :
  is_Some (db w !! uid') ->
  is_Some (db (snd (run_workflow S input w)) !! uid').
Proof.
  intros Hrow. destruct (run_workflow_branch S input w) as (u & _ & ->).
  destruct (route_after_checking_profile (apply_update input u)).
  2-4: by destruct (quiet_supervisor_branch S (apply_update input u)
                      (logged w [WorkflowInvoke])) as (-> & _).
  unfold step, bind, ret.
  pose proof (onboarding_step_keeps_rows S (apply_update input u)
                (logged w [WorkflowInvoke]) uid' Hrow) as Hstep.
  by destruct (onboarding_step_node S (apply_update input u)
                 (logged w [WorkflowInvoke])) as [[u2|e2] w2].
Qed.

Lemma serve_keeps_row history w uid :
  Forall (fun r => is_delete_of uid r = false) history ->
  is_Some (db w !! uid) ->
  is_Some (db (serve history w) !! uid).
Proof.
  intros Hhist. revert w.
  induction Hhist as [|r history Hr _ IH]; intros w Hrow; [done|].
  cbn [serve]. apply IH.
  destruct r as [S checkpoint chat_message|S saved uid' msg|faults uid'];
    cbn [serve_request].
  - rewrite chat_endpoint_world. by apply run_workflow_keeps_rows.
  - rewrite websocket_turn_world. by apply run_workflow_keeps_rows.
  - cbn [db]. destruct (delete_endpoint_table faults (db w) uid') as [-> | ->];
      [done|].
    cbn [is_delete_of] in Hr. apply String.eqb_neq in Hr.
    unfold SQLiteStore.delete_user_profile. by rewrite lookup_delete_ne.
Qed.

(** X12: once a step has completed onboarding and saved the profile, the
    row stays through any later [/chat] calls and websocket messages, of
    this user or of others, and through deletions of other users'
    profiles: as long as no [DELETE] is sent for this user, the check of a
    later turn whose read succeeds finds the row, ends onboarding, takes
    the row as the profile and routes to the supervisor. *)
Theorem completion_is_sticky S st w uid history S2 st2 :
  is_onboarding st = Some true -> user_id st = Some uid -> uid <> "" ->
  missing_fields (profile_after_extraction S st) = [] ->
  store_raises S AtSaveProfile = None ->
  Forall (fun r => is_delete_of uid r = false) history ->
  user_id st2 = Some uid ->
  store_raises S2 AtCheck = None ->
  let w2 := serve history (snd (onboarding_step_node S st w)) in
  exists st2' r,
    step (check_user_profile_node S2) st2 w2 = (Ok st2', w2) /\
    is_onboarding st2' = Some false /\
    db w2 !! uid = Some r /\
    user_profile_data st2' = Some (SQLiteStore.row_dict uid r) /\
    route_after_checking_profile st2' = NSupervisor.
Proof.
  intros Hon Hid Hne Hmiss Hsave Hhist Hid2 Hread. cbv zeta.
  assert (Hsaved : is_Some (db (snd (onboarding_step_node S st w)) !! uid)).
  { rewrite (onboarding_step_completes S st w uid Hon Hid Hmiss). cbv zeta.
    rewrite Hsave, after_extraction_db.
    pose proof (save_user_profile_is_Some (now S) (db w) uid
                  (profile_after_extraction S st)) as Hrow.
    destruct (truthy _); [done|].
    destruct (llm_gemini S BackstoryChain);
      [destruct (store_raises S AtSaveBackstory)|]; try done.
    cbn [snd db]. by apply save_backstory_keeps_rows. }
  set (w2 := serve history (snd (onboarding_step_node S st w))).
  destruct (serve_keeps_row history _ uid Hhist Hsaved) as [r Hr].
  fold w2 in Hr.
  destruct (check_user_profile_node_cases S2 st2 w2 uid Hid2 Hne)
    as (u & Hcheck & _ & _ & _ & Hu).
  rewrite Hread, Hr in Hu. destruct Hu as (Hf & Hp & _).
  exists (apply_update st2 u), r.
  split; [unfold step, bind, ret; by rewrite Hcheck|].
  split; [cbn; by rewrite Hf|].
  split; [exact Hr|]. split; [cbn; by rewrite Hp|].
  unfold route_after_checking_profile. cbn. by rewrite Hf.
Qed.

Lemma completion_is_sticky_witness :
  let history :=
    [ WebSocketMessage Examples.services_ok None "u1" "thank you";
      ChatRequest Examples.services_ok None
        {| message := "Hi"; cm_user_id := "u2" |};
      DeleteRequest (fun _ => None) "u2" ] in
  let w2 := serve history
              (snd (onboarding_step_node Examples.services_ok
                      (Examples.completion_state "u1") Examples.fresh)) in
  exists st2',
    step (check_user_profile_node Examples.services_ok)
      (new_conversation {| message := "Hi"; cm_user_id := "u1" |}) w2
    = (Ok st2', w2) /\
    is_onboarding st2' = Some false.
Proof.
  cbv zeta.
  match goal with
  | |- exists st2', step _ _ (serve ?h _) = _ /\ _ =>
      destruct (completion_is_sticky Examples.services_ok
                  (Examples.completion_state "u1") Examples.fresh "u1" h
                  Examples.services_ok
                  (new_conversation {| message := "Hi"; cm_user_id := "u1" |}))
        as (st2' & r & H1 & H2 & _)
  end.
  1,2,4,5,7,8: reflexivity.
  - discriminate.
  - repeat constructor.
  - exists st2'. split; [exact H1 | exact H2].
Defined.
